(** * Catalog reshaping of the Coin Metrics API client, and its example exporters

    A shallow embedding of [coinmetrics/_catalogs.py] (the [to_dataframe]
    methods of the catalog classes and their helpers [_convert_utc],
    [_expand_df] and [convert_catalog_dtypes]) and of the two example
    exporters: their start-up code, [export_data] of the reference-rates
    exporter, and the selection of the metrics that each of them requests.

    Conventions of the embedding.
    - A JSON/Python object is a [value]; a catalog record is a Python [dict],
      kept as an association list because the order of its keys decides the
      order of the columns of the frame built from it.
    - A Python exception is an [exn]; code that may raise returns a [result].
    - A pandas frame is a [DataFrame]: its labelled columns and its index.
      A label is a string; the integer label 0 that [apply(pd.Series)] gives
      to the cells that are not dicts is written "0", so a nested dict with a
      key "0" is not told from it.
      The cells are tracked as Python objects; the storage dtype that pandas
      attaches to a column is not modelled, so the [None] that [_convert_utc]
      returns stays [None] where pandas may store it as [NaT].
    - The records of a catalog are dicts with string keys, and
      [secondary_level] is the [Optional[str]] of its annotation.
    - The module-level import of pandas is taken to have succeeded ([pd] is the
      pandas module, not [None]).
    - What belongs to pandas and dateutil and is not fixed by their documented
      behaviour (the ISO-8601 grammar, dtype inference, [merge], [join],
      [Series.apply(pd.Series)]) is a field of the class [Library]. *)

From stdpp Require Import base strings list gmap.
From Stdlib Require Import ZArith Lia Ascii.

#[local] Set Warnings "-register-all".
#[local] Open Scope string_scope.

(** ** Python objects *)

(** [datetime.datetime], as [dateutil.parser.isoparse] builds it. *)
Record datetime := mk_datetime {
  dt_year : Z; dt_month : Z; dt_day : Z;
  dt_hour : Z; dt_minute : Z; dt_second : Z; dt_microsecond : Z;
  dt_utcoffset : option Z
}.

(** The objects found in a decoded catalog response and in the cells of the
    frames built from it.  [VNaN] is [numpy.nan], the marker pandas writes
    into a cell that has no value; [VNA] is [pandas.NA]. *)
Inductive value :=
| VNone
| VNaN
| VNA
| VBool (b : bool)
| VNum (n : Z)
| VStr (s : string)
| VList (items : list value)
| VDict (entries : list (string * value))
| VDatetime (d : datetime).

(** A record of a catalog response: a [dict] with string keys. *)
Definition record := list (string * value).

(** [key in d] and [d[key]] on a dict. *)
Fixpoint dict_get (d : record) (key : string) : option value :=
  match d with
  | [] => None
  | (k, v) :: d' => if String.eqb k key then Some v else dict_get d' key
  end.

(** [pandas.isna] on a scalar cell. *)
Definition is_missing (v : value) : bool :=
  match v with
  | VNone | VNaN | VNA => true
  | _ => false
  end.

(** [isinstance(v, str)]. *)
Definition is_str (v : value) : bool :=
  match v with
  | VStr _ => true
  | _ => false
  end.

(** ** Exceptions *)

Inductive exn_class := ValueError | KeyError | TypeError | AttributeError | IndexError.

Definition exn_class_eqb (a b : exn_class) : bool :=
  match a, b with
  | ValueError, ValueError | KeyError, KeyError | TypeError, TypeError
  | AttributeError, AttributeError | IndexError, IndexError => true
  | _, _ => false
  end.

(** An exception is either raised by a [raise] statement of the module, with
    its message, or comes out of a builtin, pandas or dateutil. *)
Inductive exn :=
| Raise (c : exn_class) (msg : string)
| Propagated (c : exn_class).

Definition class_of (e : exn) : exn_class :=
  match e with
  | Raise c _ => c
  | Propagated c => c
  end.

Inductive result (A : Type) :=
| Ok (a : A)
| Err (e : exn).
Arguments Ok {A} a.
Arguments Err {A} e.

#[export] Instance result_ret : MRet result := fun A a => Ok a.
#[export] Instance result_bind : MBind result := fun A B f m =>
  match m with
  | Ok a => f a
  | Err e => Err e
  end.

(** [try: body  except (c1, ..., cn): handler]. *)
Definition try_except {A} (body : result A) (caught : list exn_class)
    (handler : result A) : result A :=
  match body with
  | Ok a => Ok a
  | Err e => if existsb (exn_class_eqb (class_of e)) caught then handler else Err e
  end.

(** [list(map(f, iterable))]: the first call that raises ends the traversal. *)
Fixpoint list_map_result {A B} (f : A -> result B) (l : list A) : result (list B) :=
  match l with
  | [] => Ok []
  | x :: l' => y ← f x; ys ← list_map_result f l'; Ok (y :: ys)
  end.

(** [row[key]] for a string [key]: a dict is looked up, a list or a string
    wants an integer index, and the other objects are not subscriptable. *)
Definition py_getitem (row : value) (key : string) : result value :=
  match row with
  | VDict d =>
      match dict_get d key with
      | Some v => Ok v
      | None => Err (Propagated KeyError)
      end
  | _ => Err (Propagated TypeError)
  end.

(** Code that runs in a state [S] it may change and that may raise: the
    state it leaves is kept when it raises. *)
Record state_result (S A : Type) := StateResult {
  run : S -> result A * S
}.
Arguments StateResult {S A} run.
Arguments run {S A} s st.

#[export] Instance state_result_ret {S} : MRet (state_result S) :=
  fun A a => StateResult (fun st => (Ok a, st)).
#[export] Instance state_result_bind {S} : MBind (state_result S) :=
  fun A B f m =>
    StateResult (fun st =>
      match run m st with
      | (Ok a, st') => run (f a) st'
      | (Err e, st') => (Err e, st')
      end).

Definition get_state {S} : state_result S S :=
  StateResult (fun st => (Ok st, st)).

Definition put_state {S} (st : S) : state_result S unit :=
  StateResult (fun _ => (Ok tt, st)).

Definition raise {S A} (e : exn) : state_result S A :=
  StateResult (fun st => (Err e, st)).

(** A call that does not touch the state. *)
Definition from_result {S A} (r : result A) : state_result S A :=
  StateResult (fun st => (r, st)).

(** ** Frames *)

(** A frame: the columns in their order, each with its label and its cells,
    and the index labels of the rows.  A column is addressed by its label as
    the first column that carries it, which is what pandas does as long as
    the label occurs once. *)
Record DataFrame := mk_df {
  data : list (string * list value);
  index : list nat
}.

(** [df.columns]. *)
Definition columns (df : DataFrame) : list string := map fst (data df).

(** The cells of the first column labelled [c]. *)
Fixpoint get_col (c : string) (cols : list (string * list value)) : option (list value) :=
  match cols with
  | [] => None
  | (k, vs) :: cols' => if String.eqb k c then Some vs else get_col c cols'
  end.

(** [len(df)]. *)
Definition nrows (df : DataFrame) : nat := length (index df).

(** ** The external libraries *)

(** What the module takes from dateutil and pandas without fixing it.
    - [isoparse_str s] is the datetime that [isoparse] reads from the string
      [s], or [None] when [isoparse] rejects [s] with [ValueError].
    - [isoparse_nonstr v] is the class of the exception that [isoparse] raises
      on an object [v] that is not a string; on [None], [nan] and [pandas.NA]
      it is [TypeError] (they have no [len]).  It need not be [TypeError]:
      dateutil takes the length first and raises [ValueError] on an empty
      list.
    - [convert_dtypes_column] is what [DataFrame.convert_dtypes] does to the
      cells of one column: the column keeps its length, a string stays the
      string it was, and a missing cell stays missing.
    - [apply_pd_Series], [merge_left] and [join_rsuffix] are
      [Series.apply(pd.Series)], [DataFrame.merge(..., how="left")] and
      [DataFrame.join(..., rsuffix=...)]: each returns a frame or raises an
      exception of some class. *)
Class Library := {
  isoparse_str : string -> option datetime;
  isoparse_nonstr : value -> exn_class;
  isoparse_missing : forall v, is_missing v = true -> isoparse_nonstr v = TypeError;
  convert_dtypes_column : list value -> list value;
  convert_dtypes_length : forall vs, length (convert_dtypes_column vs) = length vs;
  convert_dtypes_str : forall vs i s,
    vs !! i = Some (VStr s) -> convert_dtypes_column vs !! i = Some (VStr s);
  convert_dtypes_missing : forall vs i v,
    vs !! i = Some v -> is_missing v = true ->
    exists v', convert_dtypes_column vs !! i = Some v' /\ is_missing v' = true;
  apply_pd_Series : list nat -> list value -> exn_class + DataFrame;
  merge_left : list string -> DataFrame -> DataFrame -> exn_class + DataFrame;
  join_rsuffix : string -> DataFrame -> DataFrame -> exn_class + DataFrame
}.

(** The outcome of a call into the library: what it raises is [Propagated]. *)
Definition from_library {A} (r : exn_class + A) : result A :=
  match r with
  | inl c => Err (Propagated c)
  | inr a => Ok a
  end.

Section Catalogs.

Context {lib : Library}.

(** [dateutil.parser.isoparse]. *)
Definition isoparse (x : value) : result datetime :=
  match x with
  | VStr s =>
      match isoparse_str s with
      | Some d => Ok d
      | None => Err (Propagated ValueError)
      end
  | _ => Err (Propagated (isoparse_nonstr x))
  end.

Definition _convert_utc (x : value) : result value :=
  try_except (d ← isoparse x; Ok (VDatetime d)) [TypeError] (Ok VNone).

Definition _assign_value (key : string) (row : value) : result value :=
  try_except (py_getitem row key) [KeyError; TypeError] (Ok VNone).

Definition _expand_df (key : string) (iterable : list value) : result (list value) :=
  list_map_result (_assign_value key) iterable.

(** *** The pandas operations the module calls *)

(** The labels of a frame built from a list of dicts: the keys in the order in
    which they are first met. *)
Definition add_label (seen : list string) (k : string) : list string :=
  if existsb (String.eqb k) seen then seen else seen ++ [k].

Definition union_keys (records : list record) : list string :=
  fold_left add_label (flat_map (map fst) records) [].

(** [pd.DataFrame(records)] on a list of dicts: one row per record, one column
    per key, [nan] where a record lacks the key, and the index [0 .. n-1]. *)
Definition pd_DataFrame (records : list record) : DataFrame :=
  mk_df
    (map (fun c => (c, map (fun r => default VNaN (dict_get r c)) records))
         (union_keys records))
    (seq 0 (length records)).

(** [df[c]] and [df.c]: they differ in the exception for an absent label. *)
Definition getitem (c : string) (df : DataFrame) : result (list value) :=
  match get_col c (data df) with
  | Some vs => Ok vs
  | None => Err (Propagated KeyError)
  end.

Definition getattr (c : string) (df : DataFrame) : result (list value) :=
  match get_col c (data df) with
  | Some vs => Ok vs
  | None => Err (Propagated AttributeError)
  end.

(** Writing a column: an existing label keeps its place, a new one goes last. *)
Fixpoint set_col (c : string) (vs : list value) (cols : list (string * list value))
    : list (string * list value) :=
  match cols with
  | [] => [(c, vs)]
  | (k, old) :: cols' =>
      if String.eqb k c then (c, vs) :: cols' else (k, old) :: set_col c vs cols'
  end.

(** [df[c] = series] for a series that carries the index of [df]. *)
Definition setitem (c : string) (vs : list value) (df : DataFrame) : DataFrame :=
  mk_df (set_col c vs (data df)) (index df).

(** [df.assign(name=values)] for a list of values: pandas refuses a list whose
    length is not the number of rows. *)
Definition assign (name : string) (vals : list value) (df : DataFrame) : result DataFrame :=
  if Nat.eqb (length vals) (nrows df)
  then Ok (setitem name vals df)
  else Err (Propagated ValueError).

(** What [explode] puts in the place of one cell: the items of a list (the
    keys of a dict), [nan] for an empty one, and the cell itself otherwise. *)
Definition explode_cell (v : value) : list value :=
  match v with
  | VList [] => [VNaN]
  | VList items => items
  | VDict [] => [VNaN]
  | VDict entries => map (fun kv => VStr (fst kv)) entries
  | _ => [v]
  end.

(** The i-th element repeated as often as the i-th count says. *)
Fixpoint repeat_each {A} (counts : list nat) (xs : list A) : list A :=
  match counts, xs with
  | n :: counts', x :: xs' => replicate n x ++ repeat_each counts' xs'
  | _, _ => []
  end.

(** [df.explode(column)]: the cells of [column] are unfolded, the other cells
    of the row and its index label are repeated. *)
Definition explode (column : string) (df : DataFrame) : result DataFrame :=
  match get_col column (data df) with
  | None => Err (Propagated KeyError)
  | Some cells =>
      let counts := map (fun v => length (explode_cell v)) cells in
      Ok (mk_df
            (map (fun kv =>
                    if String.eqb (fst kv) column
                    then (fst kv, flat_map explode_cell (snd kv))
                    else (fst kv, repeat_each counts (snd kv)))
                 (data df))
            (repeat_each counts (index df)))
  end.

(** [df.reset_index(drop=True)]. *)
Definition reset_index (df : DataFrame) : DataFrame :=
  mk_df (data df) (seq 0 (nrows df)).

Definition has_label (c : string) (df : DataFrame) : bool :=
  existsb (String.eqb c) (columns df).

Definition without (labels : list string) (cols : list (string * list value))
    : list (string * list value) :=
  List.filter (fun kv => negb (existsb (String.eqb (fst kv)) labels)) cols.

(** [df.drop(labels, axis=1)]: [KeyError] when a label is not a column. *)
Definition drop (labels : list string) (df : DataFrame) : result DataFrame :=
  if forallb (fun l => has_label l df) labels
  then Ok (mk_df (without labels (data df)) (index df))
  else Err (Propagated KeyError).

(** [df.drop(labels, axis=1, errors="ignore")]. *)
Definition drop_ignore (labels : list string) (df : DataFrame) : DataFrame :=
  mk_df (without labels (data df)) (index df).

(** [df.rename({old: new}, axis=1)]. *)
Definition rename (old new : string) (df : DataFrame) : DataFrame :=
  mk_df (map (fun kv => (if String.eqb (fst kv) old then new else fst kv, snd kv)) (data df))
        (index df).

(** [df.fillna({column: fill})]. *)
Definition fillna (column : string) (fill : value) (df : DataFrame) : DataFrame :=
  mk_df (map (fun kv =>
                if String.eqb (fst kv) column
                then (fst kv, map (fun v => if is_missing v then fill else v) (snd kv))
                else kv)
             (data df))
        (index df).

(** [series.apply(f)]. *)
Definition Series_apply (f : value -> result value) (series : list value)
    : result (list value) :=
  list_map_result f series.

(** The elements of [xs] at the positions where [keep] holds. *)
Fixpoint select {A} (keep : list bool) (xs : list A) : list A :=
  match keep, xs with
  | b :: keep', x :: xs' => if b then x :: select keep' xs' else select keep' xs'
  | _, _ => []
  end.

(** [df.dropna(subset=[column])]. *)
Definition dropna (column : string) (df : DataFrame) : result DataFrame :=
  match get_col column (data df) with
  | None => Err (Propagated KeyError)
  | Some cells =>
      let keep := map (fun v => negb (is_missing v)) cells in
      Ok (mk_df (map (fun kv => (fst kv, select keep (snd kv))) (data df))
                (select keep (index df)))
  end.

(** [df.convert_dtypes()], column by column. *)
Definition convert_dtypes (df : DataFrame) : DataFrame :=
  mk_df (map (fun kv => (fst kv, convert_dtypes_column (snd kv))) (data df)) (index df).

(** *** Strings *)

(** [s.endswith(suffix)]. *)
Definition endswith (s suffix : string) : bool :=
  let n := String.length s in
  let m := String.length suffix in
  if (m <=? n)%nat then String.eqb (String.substring (n - m) m s) suffix else false.

(** [s.split("-")[0]]. *)
Fixpoint split_dash_0 (s : string) : string :=
  match s with
  | EmptyString => EmptyString
  | String c s' => if Ascii.eqb c "-"%char then EmptyString else String c (split_dash_0 s')
  end.

(** *** [convert_catalog_dtypes] *)

Definition is_datetime_col (c : string) : bool :=
  endswith c "_time" || String.eqb c "time".

(** The loop [for col in datetime_cols: df[col] = df[col].apply(_convert_utc)],
    for labels that each name one column of [df], where [df[col]] is that
    column.  (Where a label names several columns, pandas makes a frame of
    [df[col]] and hands its columns to [_convert_utc]; the statements about
    this loop are made for frames whose datetime labels are distinct.) *)
Fixpoint convert_datetime_cols (datetime_cols : list string) (df : DataFrame)
    : result DataFrame :=
  match datetime_cols with
  | [] => Ok df
  | col :: rest =>
      series ← getitem col df;
      converted ← Series_apply _convert_utc series;
      convert_datetime_cols rest (setitem col converted df)
  end.

Definition convert_catalog_dtypes (df : DataFrame) : result DataFrame :=
  let df := convert_dtypes df in
  let columns := columns df in
  let datetime_cols := List.filter is_datetime_col columns in
  convert_datetime_cols datetime_cols df.

(** *** The catalog classes *)

(** Each catalog class is a [list] of records with a method [to_dataframe];
    the receiver is the state the method runs in. *)
Definition method := state_result (list record).

(** [pd.DataFrame(self)]. *)
Definition pd_DataFrame_self : method DataFrame :=
  self ← get_state; mret (pd_DataFrame self).

(** [secondary_level is None] and [secondary_level == s], for the
    [Optional[str]] that [secondary_level] is declared to be. *)
Definition is_None (v : option string) : bool :=
  match v with
  | None => true
  | Some _ => false
  end.

Definition py_eq_str (v : option string) (s : string) : bool :=
  match v with
  | Some t => String.eqb t s
  | None => false
  end.

(** [df.assign(name=lambda df: _expand_df(key=key, iterable=df.source))]. *)
Definition assign_expand_df (name key source : string) (df : DataFrame)
    : result DataFrame :=
  iterable ← getattr source df;
  vals ← _expand_df key iterable;
  assign name vals df.

(** The lambda [lambda row: row.split("-")[0]]: only a string has [split]. *)
Definition split_exchange (row : value) : result value :=
  match row with
  | VStr s => Ok (VStr (split_dash_0 s))
  | _ => Err (Propagated AttributeError)
  end.

Definition count_label (c : string) (df : DataFrame) : nat :=
  length (List.filter (String.eqb c) (columns df)).

(** [x["market"].apply(lambda row: row.split("-")[0])].  When two columns are
    labelled "market", [x["market"]] is a frame and [apply] hands its columns
    to the lambda, which finds no [split] on them. *)
Definition market_exchange (x : DataFrame) : result (list value) :=
  if (1 <? count_label "market" x)%nat
  then Err (Propagated AttributeError)
  else series ← getitem "market" x; Series_apply split_exchange series.

(** The branch [secondary_level == "markets"] of [CatalogAssetsData]. *)
Definition assets_markets (df_assets : DataFrame) : result DataFrame :=
  df ← explode "markets" df_assets;
  let df := fillna "markets" (VStr "") df in
  let df := rename "markets" "market" df in
  exchange ← market_exchange df;
  let df := setitem "exchange" exchange df in
  df ← drop ["exchanges"] df;
  Ok (reset_index df).

Definition _assign_metric (x : value) : result value :=
  try_except (py_getitem x "metric") [TypeError] (Ok VNone).

(** [index.map(mapper)] for a dict [mapper]: [nan] for a label it lacks. *)
Fixpoint mapper_get (mapper : list (nat * value)) (i : nat) : value :=
  match mapper with
  | [] => VNaN
  | (k, v) :: mapper' => if Nat.eqb k i then v else mapper_get mapper' i
  end.

(** The branch [secondary_level == "metrics"] of [CatalogAssetsData]. *)
Definition assets_metrics (df_assets : DataFrame) : result DataFrame :=
  asset ← getattr "asset" df_assets;
  let asset_mapper := zip (index df_assets) asset in
  df ← explode "metrics" df_assets;
  metrics ← getitem "metrics" df;
  let df_assets := setitem "metrics" metrics df in
  series ← getitem "metrics" df_assets;
  metric ← Series_apply _assign_metric series;
  let df_assets := setitem "metric" metric df_assets in
  dropped ← dropna "metrics" df_assets;
  series ← getattr "metrics" dropped;
  df_assets_metrics ← from_library (apply_pd_Series (index dropped) series);
  let df_assets_metrics :=
    setitem "asset" (map (mapper_get asset_mapper) (index df_assets_metrics))
            df_assets_metrics in
  df ← explode "frequencies" df_assets_metrics;
  df ← assign_expand_df "frequency" "frequency" "frequencies" df;
  df ← assign_expand_df "min_time" "min_time" "frequencies" df;
  df ← assign_expand_df "max_time" "max_time" "frequencies" df;
  df ← assign_expand_df "min_height" "min_height" "frequencies" df;
  df ← assign_expand_df "max_height" "max_height" "frequencies" df;
  df ← assign_expand_df "min_hash" "min_hash" "frequencies" df;
  df ← assign_expand_df "max_hash" "max_hash" "frequencies" df;
  df_assets_metrics ← drop ["frequencies"] df;
  left ← drop ["metrics"] df_assets;
  merged ← from_library (merge_left ["metric"; "asset"] left df_assets_metrics);
  Ok (reset_index merged).

Definition CatalogAssetsData_to_dataframe (secondary_level : option string)
    : method DataFrame :=
  df_assets ← pd_DataFrame_self;
  df_assets ←
    (if is_None secondary_level then mret df_assets
     else if py_eq_str secondary_level "markets" then from_result (assets_markets df_assets)
     else if py_eq_str secondary_level "metrics" then from_result (assets_metrics df_assets)
     else raise (Raise ValueError
                   "secondary_level must be one of None, 'markets' or 'metrics"));
  from_result (convert_catalog_dtypes df_assets).

Definition CatalogAssetAlertsData_to_dataframe : method DataFrame :=
  df ← pd_DataFrame_self;
  from_result (df ← explode "constituents" df; convert_catalog_dtypes df).

(** The chain that five of the classes apply to a frame with a column
    "metrics": explode it, pull "metric" and "frequencies" out of the metric,
    explode the frequencies, pull their three fields out, renumber the rows
    and drop the two nested columns. *)
Definition explode_metrics_frequencies (df : DataFrame) : result DataFrame :=
  df ← explode "metrics" df;
  df ← assign_expand_df "metric" "metric" "metrics" df;
  df ← assign_expand_df "frequencies" "frequencies" "metrics" df;
  df ← explode "frequencies" df;
  df ← assign_expand_df "frequency" "frequency" "frequencies" df;
  df ← assign_expand_df "min_time" "min_time" "frequencies" df;
  df ← assign_expand_df "max_time" "max_time" "frequencies" df;
  drop ["metrics"; "frequencies"] (reset_index df).

(** The chain of the two classes whose records carry "frequencies" directly. *)
Definition explode_frequencies (df : DataFrame) : result DataFrame :=
  df ← explode "frequencies" df;
  df ← assign_expand_df "frequency" "frequency" "frequencies" df;
  df ← assign_expand_df "min_time" "min_time" "frequencies" df;
  df ← assign_expand_df "max_time" "max_time" "frequencies" df;
  drop ["frequencies"] (reset_index df).

Definition CatalogAssetPairsData_to_dataframe : method DataFrame :=
  df ← pd_DataFrame_self;
  from_result (df_asset_pairs ← explode_metrics_frequencies df;
               convert_catalog_dtypes df_asset_pairs).

Definition CatalogExchangesData_to_dataframe (secondary_level : option string)
    : method DataFrame :=
  df_exchanges ← pd_DataFrame_self;
  df_exchanges ←
    (if is_None secondary_level then mret df_exchanges
     else if py_eq_str secondary_level "markets" then
       from_result (df ← explode "markets" df_exchanges; Ok (rename "markets" "market" df))
     else if py_eq_str secondary_level "metrics" then
       from_result (explode_metrics_frequencies df_exchanges)
     else raise (Raise ValueError "secondary_level must be one of 'markets' or 'metrics"));
  from_result (convert_catalog_dtypes df_exchanges).

Definition CatalogExchangeAssetsData_to_dataframe : method DataFrame :=
  df_exchange_assets ← pd_DataFrame_self;
  from_result (df_exchange_assets ← explode_metrics_frequencies df_exchange_assets;
               convert_catalog_dtypes df_exchange_assets).

Definition CatalogIndexesData_to_dataframe : method DataFrame :=
  df_indexes ← pd_DataFrame_self;
  from_result (df_indexes ← explode_frequencies df_indexes;
               convert_catalog_dtypes df_indexes).

Definition CatalogInstitutionsData_to_dataframe : method DataFrame :=
  df_institutions ← pd_DataFrame_self;
  from_result (df_institutions ← explode_metrics_frequencies df_institutions;
               convert_catalog_dtypes df_institutions).

(** [df.join(df[col].apply(pd.Series).drop(0, axis=1, errors="ignore"),
    rsuffix=suffix)].  The integer label 0, which pandas gives to the column
    of the cells that are not dicts, is written "0". *)
Definition join_expanded (col suffix : string) (df : DataFrame) : result DataFrame :=
  series ← getitem col df;
  expanded ← from_library (apply_pd_Series (index df) series);
  from_library (join_rsuffix suffix df (drop_ignore ["0"] expanded)).

Fixpoint join_metadata (metadata : list string) (df_markets : DataFrame)
    : result DataFrame :=
  match metadata with
  | [] => Ok df_markets
  | col :: rest =>
      if has_label col df_markets
      then df_markets ← join_expanded col ("_" ++ col) df_markets;
           join_metadata rest df_markets
      else join_metadata rest df_markets
  end.

Definition CatalogMarketsData_to_dataframe : method DataFrame :=
  df_markets ← pd_DataFrame_self;
  from_result
    (df_markets ← join_expanded "trades" "_trades" df_markets;
     let metadata := ["funding_rates"; "openinterest"; "liquidations"] in
     df_markets ← join_metadata metadata df_markets;
     let df_markets :=
       drop_ignore ["trades"; "funding_rates"; "openinterest"; "liquidations"] df_markets in
     convert_catalog_dtypes df_markets).

Definition CatalogMetricsData_to_dataframe : method DataFrame :=
  df ← pd_DataFrame_self;
  from_result
    (df ← explode "frequencies" df;
     df ← assign_expand_df "frequency" "frequency" "frequencies" df;
     df ← assign_expand_df "asset" "assets" "frequencies" df;
     df ← explode "asset" df;
     df ← drop ["frequencies"] df;
     let df_catalog_metrics := reset_index df in
     convert_catalog_dtypes df_catalog_metrics).

Definition CatalogMarketMetricsData_to_dataframe : method DataFrame :=
  df_catalog_market_metrics ← pd_DataFrame_self;
  from_result (df_catalog_market_metrics ← explode_metrics_frequencies df_catalog_market_metrics;
               convert_catalog_dtypes df_catalog_market_metrics).

Definition CatalogMarketCandlesData_to_dataframe : method DataFrame :=
  df_catalog_market_candles ← pd_DataFrame_self;
  from_result (df_catalog_market_candles ← explode_frequencies df_catalog_market_candles;
               convert_catalog_dtypes df_catalog_market_candles).

(** A call of [to_dataframe] on an object of one of the twelve classes, with
    the argument the method of that class takes. *)
Inductive to_dataframe_call :=
| OnAssets (secondary_level : option string)
| OnAssetAlerts
| OnAssetPairs
| OnExchanges (secondary_level : option string)
| OnExchangeAssets
| OnIndexes
| OnInstitutions
| OnMarkets
| OnMetrics
| OnMarketMetrics
| OnMarketCandles.

Definition to_dataframe (c : to_dataframe_call) : method DataFrame :=
  match c with
  | OnAssets secondary_level => CatalogAssetsData_to_dataframe secondary_level
  | OnAssetAlerts => CatalogAssetAlertsData_to_dataframe
  | OnAssetPairs => CatalogAssetPairsData_to_dataframe
  | OnExchanges secondary_level => CatalogExchangesData_to_dataframe secondary_level
  | OnExchangeAssets => CatalogExchangeAssetsData_to_dataframe
  | OnIndexes => CatalogIndexesData_to_dataframe
  | OnInstitutions => CatalogInstitutionsData_to_dataframe
  | OnMarkets => CatalogMarketsData_to_dataframe
  | OnMetrics => CatalogMetricsData_to_dataframe
  | OnMarketMetrics => CatalogMarketMetricsData_to_dataframe
  | OnMarketCandles => CatalogMarketCandlesData_to_dataframe
  end.

(** *** Vocabulary of the statements *)

(** The field [key] of an entry, [None] when the entry has none. *)
Definition field (key : string) (entry : value) : value :=
  match py_getitem entry key with
  | Ok v => v
  | Err _ => VNone
  end.

(** The cells that [explode] makes of the column [column] of the frame of
    [records], record after record. *)
Definition exploded (column : string) (records : list record) : list value :=
  flat_map (fun r => explode_cell (default VNaN (dict_get r column))) records.

(** The cell of column [c] in row [i]. *)
Definition cell (df : DataFrame) (c : string) (i : nat) : option value :=
  match get_col c (data df) with
  | Some vs => vs !! i
  | None => None
  end.

(** A cell that the datetime coercion accepts: a missing one, or a string
    that the ISO parser reads. *)
Definition iso_or_missing (v : value) : bool :=
  match v with
  | VStr s => match isoparse_str s with Some _ => true | None => false end
  | _ => is_missing v
  end.

(** The fields of the records whose key names a datetime column are all
    accepted by the coercion. *)
Definition datetime_fields_ok (records : list record) : bool :=
  forallb (fun r : record =>
             forallb (fun kv => implb (is_datetime_col (fst kv)) (iso_or_missing (snd kv))) r)
          records.

(** The entries of the "frequencies" list of a record, and the rows that
    [explode] makes of them: the entries, or one row without entry when the
    list is empty. *)
Definition frequency_entries (r : record) : list value :=
  match dict_get r "frequencies" with
  | Some (VList entries) => entries
  | _ => []
  end.

Definition frequency_rows (r : record) : list value :=
  match frequency_entries r with
  | [] => [VNaN]
  | entries => entries
  end.

Definition has_no_entries (r : record) : bool :=
  match frequency_entries r with
  | [] => true
  | _ => false
  end.

Definition is_dict (v : value) : bool :=
  match v with
  | VDict _ => true
  | _ => false
  end.

(** Every record carries a list of frequency dictionaries. *)
Definition carries_frequency_dicts (records : list record) : bool :=
  forallb (fun r => match dict_get r "frequencies" with
                    | Some (VList entries) => forallb is_dict entries
                    | _ => false
                    end)
          records.

(** The "min_time" and "max_time" of every frequency entry are accepted by
    the coercion. *)
Definition frequency_times_ok (records : list record) : bool :=
  forallb (fun r =>
             forallb (fun e => iso_or_missing (field "min_time" e) &&
                               iso_or_missing (field "max_time" e))
                     (frequency_entries r))
          records.

(** The rows that [explode] makes of the "markets" of the records, the
    conditions under which the branch "markets" of [CatalogAssetsData] runs
    to its end, and the relation between a market and its exchange. *)
Definition has_key (key : string) (r : record) : bool :=
  existsb (String.eqb key) (map fst r).

Definition markets_ok (records : list record) : bool :=
  existsb (has_key "markets") records &&
  existsb (has_key "exchanges") records &&
  forallb (fun r => negb (has_key "market" r)) records &&
  forallb (fun v => is_str v || is_missing v) (exploded "markets" records).

(** The market of a row: the exploded string, or "" where [fillna] wrote it. *)
Definition market_of (v : value) : string :=
  match v with
  | VStr s => s
  | _ => EmptyString
  end.

Definition before_first_dash (market exchange : string) : Prop :=
  ~ In "-"%char (String.list_ascii_of_string exchange) /\
  (market = exchange \/
   exists rest, market = String.append exchange (String "-"%char rest)).

(** A frame whose columns all have the length of its index. *)
Definition rectangular (df : DataFrame) : Prop :=
  Forall (fun kv => length (snd kv) = nrows df) (data df).

(** A frame with pairwise distinct labels that is rectangular. *)
Definition well_formed (df : DataFrame) : Prop :=
  NoDup (columns df) /\ rectangular df.

(** Every cell of the datetime columns is accepted by the coercion. *)
Definition datetime_cells_ok (df : DataFrame) : Prop :=
  forall c vs, (c, vs) ∈ data df -> is_datetime_col c = true ->
               Forall (fun v => iso_or_missing v = true) vs.

(** The values of [secondary_level] that the two methods know. *)
Definition recognized (secondary_level : option string) : Prop :=
  secondary_level = None \/ secondary_level = Some "markets" \/
  secondary_level = Some "metrics".

(** A result that is not an exception raised by a [raise] of the module. *)
Definition propagated_only {A} (r : result A) : Prop :=
  forall c msg, r <> Err (Raise c msg).

(** Code that leaves the state it runs in as it found it. *)
Definition leaves_state {S A} (m : state_result S A) : Prop :=
  forall st, snd (run m st) = st.

(** What a call returns or raises, and the receiver it leaves behind. *)
Definition returned {A} (m : method A) (self : list record) : result A :=
  fst (run m self).

Definition receiver_after {A} (m : method A) (self : list record) : list record :=
  snd (run m self).

(** *** Vocabulary of the further statements *)

(** The column that a call reads first, with the exception that pandas
    raises when the frame has no such column: [df.explode(c)] and [df[c]]
    raise [KeyError], the attribute [df.asset] raises [AttributeError]. *)
Definition first_column (c : to_dataframe_call) : option (string * exn_class) :=
  match c with
  | OnAssets secondary_level =>
      if is_None secondary_level then None
      else if py_eq_str secondary_level "markets" then Some ("markets", KeyError)
      else if py_eq_str secondary_level "metrics" then Some ("asset", AttributeError)
      else None
  | OnExchanges secondary_level =>
      if is_None secondary_level then None
      else if py_eq_str secondary_level "markets" then Some ("markets", KeyError)
      else if py_eq_str secondary_level "metrics" then Some ("metrics", KeyError)
      else None
  | OnAssetAlerts => Some ("constituents", KeyError)
  | OnAssetPairs | OnExchangeAssets | OnInstitutions | OnMarketMetrics =>
      Some ("metrics", KeyError)
  | OnIndexes | OnMetrics | OnMarketCandles => Some ("frequencies", KeyError)
  | OnMarkets => Some ("trades", KeyError)
  end.

(** No record has the key. *)
Definition no_record_has (key : string) (records : list record) : bool :=
  forallb (fun r => negb (has_key key r)) records.

(** The cells that [explode] makes of a column, each with the record it
    comes from. *)
Definition exploded_with (column : string) (records : list record)
    : list (record * value) :=
  flat_map (fun r => map (fun e => (r, e))
                         (explode_cell (default VNaN (dict_get r column))))
           records.

(** The "min_time" and "max_time" of the entries are accepted by the
    datetime coercion. *)
Definition entry_times_ok (entries : list value) : bool :=
  forallb (fun e => iso_or_missing (field "min_time" e) &&
                    iso_or_missing (field "max_time" e))
          entries.

(** The rows of the chain on "metrics": a record, one of its metrics and one
    of the frequencies of that metric, as the two [explode] unfold them. *)
Definition metric_rows (records : list record) : list (record * value * value) :=
  flat_map (fun rm => map (fun e => (rm, e))
                          (explode_cell (field "frequencies" (snd rm))))
           (exploded_with "metrics" records).

(** The rows of [CatalogMetricsData]: a record, one of its frequencies and
    one of the assets of that frequency. *)
Definition asset_rows (records : list record) : list (record * value * value) :=
  flat_map (fun re => map (fun a => (re, a))
                          (explode_cell (field "assets" (snd re))))
           (exploded_with "frequencies" records).

(** How often [explode] repeats each record. *)
Definition explode_counts (column : string) (records : list record) : list nat :=
  map (fun r => length (explode_cell (default VNaN (dict_get r column)))) records.

(** A dict without the key. *)
Definition lacks_key (key : string) (v : value) : bool :=
  match v with
  | VDict d => negb (has_key key d)
  | _ => false
  end.

(** *** Sequences of reshape steps *)

(** The operations on one frame that the methods chain. *)
Inductive step :=
| step_explode (column : string)
| step_assign_expand_df (name key source : string)
| step_fillna (column : string) (fill : value)
| step_rename (old new : string)
| step_assign_exchange
| step_reset_index
| step_drop (labels : list string)
| step_drop_ignore (labels : list string)
| step_join_expanded (col suffix : string)
| step_convert_catalog_dtypes.

Definition run_step (s : step) (df : DataFrame) : result DataFrame :=
  match s with
  | step_explode column => explode column df
  | step_assign_expand_df name key source => assign_expand_df name key source df
  | step_fillna column fill => Ok (fillna column fill df)
  | step_rename old new => Ok (rename old new df)
  | step_assign_exchange =>
      exchange ← market_exchange df; Ok (setitem "exchange" exchange df)
  | step_reset_index => Ok (reset_index df)
  | step_drop labels => drop labels df
  | step_drop_ignore labels => Ok (drop_ignore labels df)
  | step_join_expanded col suffix => join_expanded col suffix df
  | step_convert_catalog_dtypes => convert_catalog_dtypes df
  end.

(** A sequence of steps, each applied to the frame that the one before it
    returned; the first step that raises ends it. *)
Fixpoint run_steps (steps : list step) (df : DataFrame) : result DataFrame :=
  match steps with
  | [] => Ok df
  | s :: rest => df ← run_step s df; run_steps rest df
  end.

Definition metrics_steps : list step :=
  [step_explode "metrics";
   step_assign_expand_df "metric" "metric" "metrics";
   step_assign_expand_df "frequencies" "frequencies" "metrics";
   step_explode "frequencies";
   step_assign_expand_df "frequency" "frequency" "frequencies";
   step_assign_expand_df "min_time" "min_time" "frequencies";
   step_assign_expand_df "max_time" "max_time" "frequencies";
   step_reset_index;
   step_drop ["metrics"; "frequencies"];
   step_convert_catalog_dtypes].

Definition frequencies_steps : list step :=
  [step_explode "frequencies";
   step_assign_expand_df "frequency" "frequency" "frequencies";
   step_assign_expand_df "min_time" "min_time" "frequencies";
   step_assign_expand_df "max_time" "max_time" "frequencies";
   step_reset_index;
   step_drop ["frequencies"];
   step_convert_catalog_dtypes].

(** The sequence of steps of a call, for the calls that are one: all but
    [CatalogMarketsData], the level "metrics" of [CatalogAssetsData] (which
    derives a second frame and merges it into the first) and the calls with a
    [secondary_level] that the method does not know. *)
Definition steps_of (c : to_dataframe_call) : option (list step) :=
  match c with
  | OnAssets secondary_level =>
      if is_None secondary_level then Some [step_convert_catalog_dtypes]
      else if py_eq_str secondary_level "markets" then
        Some [step_explode "markets";
              step_fillna "markets" (VStr "");
              step_rename "markets" "market";
              step_assign_exchange;
              step_drop ["exchanges"];
              step_reset_index;
              step_convert_catalog_dtypes]
      else None
  | OnExchanges secondary_level =>
      if is_None secondary_level then Some [step_convert_catalog_dtypes]
      else if py_eq_str secondary_level "markets" then
        Some [step_explode "markets";
              step_rename "markets" "market";
              step_convert_catalog_dtypes]
      else if py_eq_str secondary_level "metrics" then Some metrics_steps
      else None
  | OnAssetAlerts => Some [step_explode "constituents"; step_convert_catalog_dtypes]
  | OnAssetPairs | OnExchangeAssets | OnInstitutions | OnMarketMetrics =>
      Some metrics_steps
  | OnIndexes | OnMarketCandles => Some frequencies_steps
  | OnMetrics =>
      Some [step_explode "frequencies";
            step_assign_expand_df "frequency" "frequency" "frequencies";
            step_assign_expand_df "asset" "assets" "frequencies";
            step_explode "asset";
            step_drop ["frequencies"];
            step_reset_index;
            step_convert_catalog_dtypes]
  | OnMarkets => None
  end.

(** The step joins with the suffix. *)
Definition joins_with (suffix : string) (s : step) : bool :=
  match s with
  | step_join_expanded _ suffix' => String.eqb suffix' suffix
  | _ => false
  end.

End Catalogs.

(** ** The example exporters *)

(** [x or y] on an optional string: [None] and the empty string are false,
    and [y] is evaluated only then. *)
Definition py_or (x : option string) (y : result string) : result string :=
  match x with
  | Some EmptyString => y
  | Some s => Ok s
  | None => y
  end.

(** [sys.argv[i]]. *)
Definition sys_argv_item (argv : list string) (i : nat) : result string :=
  match argv !! i with
  | Some a => Ok a
  | None => Err (Propagated IndexError)
  end.

(** The truth value of an object, which [if v:], [any] and [in] take: [None],
    [False], zero and an empty string, list or dict are false, and
    [pandas.NA] has no truth value. *)
Definition py_bool (v : value) : result bool :=
  match v with
  | VNone => Ok false
  | VNaN => Ok true
  | VNA => Err (Propagated TypeError)
  | VBool b => Ok b
  | VNum n => Ok (negb (n =? 0)%Z)
  | VStr s => Ok (negb (String.eqb s EmptyString))
  | VList [] => Ok false
  | VList _ => Ok true
  | VDict [] => Ok false
  | VDict _ => Ok true
  | VDatetime _ => Ok true
  end.

(** [for x in v]: the items of a list, the characters of a string, the keys
    of a dict; the other objects are not iterable. *)
Definition py_iter (v : value) : result (list value) :=
  match v with
  | VList items => Ok items
  | VStr s => Ok (map (fun c => VStr (String c EmptyString)) (String.list_ascii_of_string s))
  | VDict entries => Ok (map (fun kv => VStr (fst kv)) entries)
  | _ => Err (Propagated TypeError)
  end.

(** The truth value of [v == s] for a string [s]: only an equal string is
    equal to it, and [pandas.NA == s] is [pandas.NA]. *)
Definition py_eq_truth (v : value) (s : string) : result bool :=
  match v with
  | VStr t => Ok (String.eqb t s)
  | VNA => Err (Propagated TypeError)
  | _ => Ok false
  end.

(** [s in items] for a list [items]: the items are compared in their order,
    up to the first that is equal. *)
Fixpoint py_in (s : string) (items : list value) : result bool :=
  match items with
  | [] => Ok false
  | item :: rest =>
      found ← py_eq_truth item s;
      if (found : bool) then Ok true else py_in s rest
  end.

(** [hash(v)], which a set takes of its members and a dict of its keys: a
    list and a dict have none. *)
Definition py_hash (v : value) : result unit :=
  match v with
  | VList _ | VDict _ => Err (Propagated TypeError)
  | _ => Ok tt
  end.

(** The strings among some objects, as a set. *)
Definition strings_of (vs : list value) : gset string :=
  list_to_set (omap (fun v => match v with VStr s => Some s | _ => None end) vs).

(** What the main process of an exporter does, as seen from outside. *)
Inductive event :=
| logger_warning (msg : string)
| Pool_enter (processes : nat)
| apply_async (asset : string)
| task_get (asset : string)
| logger_info_processed (i n : nat)
| Pool_exit.

Definition script := state_result (list event).

Definition emit (e : event) : script unit :=
  log ← get_state; put_state (log ++ [e])%list.

(** [with Pool(n) as pool: body]: the pool is left when [body] raises, too. *)
Definition with_Pool {A} (processes : nat) (body : script A) : script A :=
  _ ← emit (Pool_enter processes);
  StateResult (fun log =>
    let '(r, log') := run body log in
    (r, (log' ++ [Pool_exit])%list)).

Module reference_rates_json_exporter.

Definition api_key (environ : gmap string string) (argv : list string) : result string :=
  py_or (environ !! "CM_API_KEY") (sys_argv_item argv 1).

Definition ASSETS_TO_EXPORT : gset string := {[ "btc"; "eth" ]}.

(** [for asset in ...: tasks.append(pool.apply_async(export_asset_data, (asset,)))].
    A task is named by the asset it was submitted for. *)
Fixpoint submit_tasks (assets : list string) (tasks : list string) : script (list string) :=
  match assets with
  | [] => mret tasks
  | asset :: rest =>
      _ ← emit (apply_async asset);
      submit_tasks rest (tasks ++ [asset])%list
  end.

(** [for i, task in enumerate(tasks, i): task.get(); logger.info(...)], where
    [task.get()] raises what the task raised in its worker. *)
Fixpoint get_tasks (export_asset_data : string -> result unit)
    (i n : nat) (tasks : list string) : script unit :=
  match tasks with
  | [] => mret tt
  | task :: rest =>
      _ ← emit (task_get task);
      _ ← from_result (export_asset_data task);
      _ ← emit (logger_info_processed i n);
      get_tasks export_asset_data (S i) n rest
  end.

(** [export_data].  A Python set is iterated in an order that the program does
    not fix: [iteration] is the order in which [ASSETS_TO_EXPORT] is walked.
    [export_asset_data] is the outcome of the export of one asset. *)
Definition export_data (iteration : list string)
    (export_asset_data : string -> result unit) : script unit :=
  let processes_count := 2 in
  _ ← (if (2 <? processes_count)%nat
       then emit (logger_warning
         "Using more than two parallel processes will likely not result into faster export.")
       else mret tt);
  with_Pool processes_count
    (tasks ← submit_tasks iteration [];
     get_tasks export_asset_data 1 (length tasks) tasks).

Definition REFERENCE_RATES : gset string := {[ "ReferenceRateUSD" ]}.

Definition FREQUENCY : string := "1h".

(** [any(frequency_info["frequency"] == FREQUENCY for frequency_info in
    frequencies)]: the generator is consumed up to its first true item. *)
Fixpoint any_frequency (frequencies : list value) : result bool :=
  match frequencies with
  | [] => Ok false
  | frequency_info :: rest =>
      frequency ← py_getitem frequency_info "frequency";
      found ← py_eq_truth frequency FREQUENCY;
      if (found : bool) then Ok true else any_frequency rest
  end.

(** The list comprehension of [export_asset_data] over the metrics of the
    first record of the catalog response. *)
Fixpoint metric_names_of (metrics : list value) : result (list value) :=
  match metrics with
  | [] => Ok []
  | metric_info :: rest =>
      frequencies ← py_getitem metric_info "frequencies";
      frequencies ← py_iter frequencies;
      keep ← any_frequency frequencies;
      if (keep : bool)
      then name ← py_getitem metric_info "metric";
           names ← metric_names_of rest;
           Ok (name :: names)
      else metric_names_of rest
  end.

(** [metric_names], as [export_asset_data] computes it from
    [catalog_response], the list of records that [client.catalog_assets]
    returned. *)
Definition metric_names (catalog_response : list record) : result (list value) :=
  first ← match catalog_response with
          | [] => Err (Propagated IndexError)
          | first :: _ => Ok first
          end;
  metrics ← py_getitem (VDict first) "metrics";
  metrics ← py_iter metrics;
  metric_names_of metrics.

(** [set(metric_names) & REFERENCE_RATES], the set that [list] then lists in
    [available_metrics]: [set] hashes every name, and only a string can be in
    the intersection with a set of strings. *)
Definition available_metrics (metric_names : list value) : result (gset string) :=
  _ ← list_map_result py_hash metric_names;
  Ok (strings_of metric_names ∩ REFERENCE_RATES).

End reference_rates_json_exporter.

(** The events of a log by their kind. *)
Definition is_Pool_enter (e : event) : bool :=
  match e with
  | Pool_enter _ => true
  | _ => false
  end.

Definition is_apply_async (e : event) : bool :=
  match e with
  | apply_async _ => true
  | _ => false
  end.

Definition is_logger_warning (e : event) : bool :=
  match e with
  | logger_warning _ => true
  | _ => false
  end.

Definition is_task_event (e : event) : bool :=
  match e with
  | task_get _ | logger_info_processed _ _ => true
  | _ => false
  end.

Definition submitted_for (asset : string) (e : event) : bool :=
  match e with
  | apply_async a => String.eqb asset a
  | _ => false
  end.

(** The events of the tasks that [export_data] has awaited with success:
    [task.get()] and the line it logs, numbered from [i] out of [n]. *)
Fixpoint awaited (i n : nat) (tasks : list string) : list event :=
  match tasks with
  | [] => []
  | task :: rest => task_get task :: logger_info_processed i n :: awaited (S i) n rest
  end.

(** A frequency entry and a metric of a catalog response as the API
    documents them: a metric is a dict with a name and a list of frequency
    entries, each a dict with a frequency. *)
Definition frequency_info_ok (frequency_info : value) : bool :=
  match frequency_info with
  | VDict d =>
      match dict_get d "frequency" with
      | Some (VStr _) => true
      | _ => false
      end
  | _ => false
  end.

Definition metric_info_ok (metric_info : value) : bool :=
  match metric_info with
  | VDict d =>
      match dict_get d "metric", dict_get d "frequencies" with
      | Some (VStr _), Some (VList frequencies) => forallb frequency_info_ok frequencies
      | _, _ => false
      end
  | _ => false
  end.

(** The metric lists the frequency among its frequencies. *)
Definition offers (frequency : string) (metric_info : value) : bool :=
  match field "frequencies" metric_info with
  | VList frequencies =>
      existsb (fun frequency_info =>
                 match field "frequency" frequency_info with
                 | VStr s => String.eqb s frequency
                 | _ => false
                 end)
              frequencies
  | _ => false
  end.

(** The metrics of a record: the items of its list "metrics". *)
Definition metrics_of (r : record) : list value :=
  match dict_get r "metrics" with
  | Some (VList metrics) => metrics
  | _ => []
  end.

(** A record of the catalog of exchanges as the API documents it: the name
    of the exchange, and no metrics or a list of metrics. *)
Definition exchange_record_ok (r : record) : bool :=
  match dict_get r "exchange" with
  | Some (VStr _) => true
  | _ => false
  end &&
  match dict_get r "metrics" with
  | None => true
  | Some (VList metrics) => forallb metric_info_ok metrics
  | Some _ => false
  end.

(** The names of the metrics of a record that offer the frequency. *)
Definition filtered_metrics (frequency : string) (r : record) : list value :=
  map (field "metric") (List.filter (offers frequency) (metrics_of r)).

(** A dict under construction whose keys are any hashable objects, kept as
    the assignments [d[key] = v] in the order in which they ran: whether two
    keys that are not strings are the same key is not decided here.  [d[s]]
    for a string [s] is what was assigned last under the key [s]. *)
Definition assignments := list (value * list value).

Fixpoint assigned (d : assignments) (s : string) : option (list value) :=
  match d with
  | [] => None
  | (key, v) :: d' =>
      match assigned d' s with
      | Some w => Some w
      | None =>
          match key with
          | VStr t => if String.eqb t s then Some v else None
          | _ => None
          end
      end
  end.

Module exchange_metrics_json_exporter.

Definition api_key (environ : gmap string string) (argv : list string) : result string :=
  py_or (environ !! "CM_API_KEY") (sys_argv_item argv 1).

(** [[frequency_metadata['frequency'] for frequency_metadata in
    metric['frequencies']]]. *)
Definition supported_frequencies (metric : value) : result (list value) :=
  frequencies ← py_getitem metric "frequencies";
  frequencies ← py_iter frequencies;
  list_map_result (fun frequency_metadata => py_getitem frequency_metadata "frequency")
                  frequencies.

(** The loop [for metric in exchange_metrics] that appends to
    [metrics_filtered]. *)
Fixpoint filter_metrics (frequency : string) (exchange_metrics metrics_filtered : list value)
    : result (list value) :=
  match exchange_metrics with
  | [] => Ok metrics_filtered
  | metric :: rest =>
      supported ← supported_frequencies metric;
      found ← py_in frequency supported;
      if (found : bool)
      then name ← py_getitem metric "metric";
           filter_metrics frequency rest (metrics_filtered ++ [name])%list
      else filter_metrics frequency rest metrics_filtered
  end.

(** The loop [for data in exchange_data] that fills [result_dict]. *)
Fixpoint for_exchange_data (frequency : string) (exchange_data : list record)
    (result_dict : assignments) : result assignments :=
  match exchange_data with
  | [] => Ok result_dict
  | data :: rest =>
      let exchange_metrics := default VNone (dict_get data "metrics") in
      nonempty ← py_bool exchange_metrics;
      if (nonempty : bool)
      then exchange_metrics ← py_iter exchange_metrics;
           metrics_filtered ← filter_metrics frequency exchange_metrics [];
           key ← py_getitem (VDict data) "exchange";
           _ ← py_hash key;
           for_exchange_data frequency rest (result_dict ++ [(key, metrics_filtered)])%list
      else for_exchange_data frequency rest result_dict
  end.

(** [get_exchange_metrics_mapping]; [catalog_exchanges] is the method of the
    API client, which returns the list of the records of the exchanges or
    raises. *)
Definition get_exchange_metrics_mapping
    (catalog_exchanges : list string -> result (list record))
    (exchanges : list string) (frequency : string) : result assignments :=
  let result_dict := [] in
  exchange_data ← catalog_exchanges exchanges;
  for_exchange_data frequency exchange_data result_dict.

End exchange_metrics_json_exporter.

(** ** A library instance that computes

    One way to fill [Library], on which the definitions above run: an ISO
    parser for the forms [YYYY-MM-DD] and [YYYY-MM-DDTHH:MM:SS], the second
    with an optional fraction of the second and an optional [Z], which reads
    them as dateutil does and rejects every other string, also the other
    forms that dateutil reads; the exceptions of dateutil on the objects that
    are not strings; a dtype conversion that writes [pandas.NA] into the
    missing cells of a column of strings; and positional versions of
    [apply(pd.Series)], [join] and [merge], which agree with pandas on
    columns that are not empty and hold dicts with string keys or missing
    cells. *)

Definition digit_of (c : ascii) : option Z :=
  let n := nat_of_ascii c in
  if ((48 <=? n) && (n <=? 57))%nat then Some (Z.of_nat n - 48)%Z else None.

Fixpoint digits_of (s : string) (acc : Z) : option Z :=
  match s with
  | EmptyString => Some acc
  | String c s' =>
      match digit_of c with
      | Some d => digits_of s' (10 * acc + d)%Z
      | None => None
      end
  end.

(** The days of a month of the Gregorian calendar. *)
Definition days_in_month (y m : Z) : Z :=
  if (m =? 2)%Z then
    if ((y mod 4 =? 0) && (negb (y mod 100 =? 0) || (y mod 400 =? 0)))%Z then 29%Z
    else 28%Z
  else if ((m =? 4) || (m =? 6) || (m =? 9) || (m =? 11))%Z then 30%Z
  else 31%Z.

(** The date [YYYY-MM-DD] at the head of a string of ten characters or more. *)
Definition sample_date (s : string) : option (Z * Z * Z) :=
  match digits_of (String.substring 0 4 s) 0,
        digits_of (String.substring 5 2 s) 0,
        digits_of (String.substring 8 2 s) 0 with
  | Some y, Some m, Some d =>
      if String.eqb (String.substring 4 1 s) "-" && String.eqb (String.substring 7 1 s) "-"
         && (1 <=? y)%Z && (1 <=? m)%Z && (m <=? 12)%Z
         && (1 <=? d)%Z && (d <=? days_in_month y m)%Z
      then Some (y, m, d)
      else None
  | _, _, _ => None
  end.

(** The digits at the head of a string, and what follows them. *)
Fixpoint leading_digits (s : string) : list Z * string :=
  match s with
  | EmptyString => ([], EmptyString)
  | String c s' =>
      match digit_of c with
      | Some d => let '(ds, rest) := leading_digits s' in (d :: ds, rest)
      | None => ([], s)
      end
  end.

(** The microseconds of a fraction of a second: its first six digits, with
    zeros for the digits that it lacks. *)
Definition microseconds (ds : list Z) : Z :=
  let six := take 6 ds in
  (fold_left (fun acc d => 10 * acc + d) six 0 * 10 ^ Z.of_nat (6 - length six))%Z.

(** What may follow the seconds: a fraction, then [Z] for UTC. *)
Definition sample_zone (s : string) : option (option Z) :=
  if String.eqb s "" then Some None
  else if String.eqb s "Z" || String.eqb s "z" then Some (Some 0%Z)
  else None.

Definition sample_fraction (s : string) : option (Z * option Z) :=
  match s with
  | String c s' =>
      if Ascii.eqb c "."%char || Ascii.eqb c ","%char then
        match leading_digits s' with
        | ([], _) => None
        | (ds, rest) =>
            match sample_zone rest with
            | Some zone => Some (microseconds ds, zone)
            | None => None
            end
        end
      else
        match sample_zone s with
        | Some zone => Some (0%Z, zone)
        | None => None
        end
  | EmptyString => Some (0%Z, None)
  end.

(** The time [HH:MM:SS], with what may follow it. *)
Definition sample_time (t : string) : option (Z * Z * Z * Z * option Z) :=
  match digits_of (String.substring 0 2 t) 0,
        digits_of (String.substring 3 2 t) 0,
        digits_of (String.substring 6 2 t) 0 with
  | Some h, Some mi, Some sec =>
      if (8 <=? String.length t)%nat
         && String.eqb (String.substring 2 1 t) ":" && String.eqb (String.substring 5 1 t) ":"
         && (h <=? 23)%Z && (mi <=? 59)%Z && (sec <=? 59)%Z
      then
        match sample_fraction (String.substring 8 (String.length t - 8) t) with
        | Some (us, zone) => Some (h, mi, sec, us, zone)
        | None => None
        end
      else None
  | _, _, _ => None
  end.

Definition sample_isoparse_str (s : string) : option datetime :=
  if (String.length s <? 10)%nat then None else
  match sample_date s with
  | Some (y, m, d) =>
      if (String.length s =? 10)%nat then Some (mk_datetime y m d 0 0 0 0 None)
      else
        match sample_time (String.substring 11 (String.length s - 11) s) with
        | Some (h, mi, sec, us, zone) => Some (mk_datetime y m d h mi sec us zone)
        | None => None
        end
  | None => None
  end.

(** What dateutil raises on an object that is not a string.  It takes [len]
    of its argument first, which the objects that are no containers lack
    ([TypeError]); it refuses fewer than four items ("ISO string too short",
    [ValueError]); and it cannot make an [int] of the first four items of a
    longer list ([TypeError], as is the slice of a dict where a slice has no
    hash). *)
Definition sample_isoparse_nonstr (v : value) : exn_class :=
  match v with
  | VList items => if (length items <? 4)%nat then ValueError else TypeError
  | VDict entries => if (length entries <? 4)%nat then ValueError else TypeError
  | _ => TypeError
  end.

Definition sample_convert_dtypes_column (vs : list value) : list value :=
  if forallb (fun v => is_missing v || is_str v) vs
  then map (fun v => if is_missing v then VNA else v) vs
  else vs.

Definition sample_apply_pd_Series (idx : list nat) (cells : list value)
    : exn_class + DataFrame :=
  let labels :=
    fold_left add_label
      (flat_map (fun v => match v with VDict d => map fst d | _ => ["0"] end) cells) [] in
  inr (mk_df
        (map (fun c =>
                (c, map (fun v =>
                           match v with
                           | VDict d => default VNaN (dict_get d c)
                           | _ => if String.eqb c "0" then v else VNaN
                           end) cells))
             labels)
        idx).

Definition sample_join_rsuffix (rsuffix : string) (df other : DataFrame)
    : exn_class + DataFrame :=
  inr (mk_df
        (data df ++
         map (fun kv => (if has_label (fst kv) df then String.append (fst kv) rsuffix else fst kv, snd kv))
             (data other))%list
        (index df)).

Definition key_eqb (a b : value) : bool :=
  match a, b with
  | VStr s, VStr t => String.eqb s t
  | VNum n, VNum m => Z.eqb n m
  | VBool x, VBool y => Bool.eqb x y
  | VNone, VNone | VNaN, VNaN | VNA, VNA => true
  | _, _ => false
  end.

Definition cell_at (vs : list value) (i : nat) : value := default VNaN (vs !! i).

(** The rows [(i, j)] of a left join: row [i] of the left frame with each row
    [j] of the right frame that has its keys, or with none. *)
Definition left_join_rows (on : list string) (left right : DataFrame)
    : list (nat * option nat) :=
  let key_of (df : DataFrame) (i : nat) :=
    map (fun c => cell_at (default [] (get_col c (data df))) i) on in
  let same (i j : nat) :=
    forallb (fun ab => key_eqb (fst ab) (snd ab)) (zip (key_of left i) (key_of right j)) in
  flat_map (fun i =>
              match List.filter (same i) (seq 0 (nrows right)) with
              | [] => [(i, None)]
              | js => map (fun j => (i, Some j)) js
              end)
           (seq 0 (nrows left)).

Definition sample_merge_left (on : list string) (left right : DataFrame)
    : exn_class + DataFrame :=
  if negb (forallb (fun c => has_label c left && has_label c right) on)
  then inl KeyError
  else
    let rows := left_join_rows on left right in
    let is_key (c : string) := existsb (String.eqb c) on in
    let left_cols :=
      map (fun kv =>
             (if negb (is_key (fst kv)) && has_label (fst kv) right
              then String.append (fst kv) "_x" else fst kv,
              map (fun r => cell_at (snd kv) (fst r)) rows))
          (data left) in
    let right_cols :=
      map (fun kv =>
             (if has_label (fst kv) left then String.append (fst kv) "_y" else fst kv,
              map (fun r => match snd r with
                            | Some j => cell_at (snd kv) j
                            | None => VNaN
                            end) rows))
          (List.filter (fun kv => negb (is_key (fst kv))) (data right)) in
    inr (mk_df (left_cols ++ right_cols)%list (seq 0 (length rows))).

(** Two more ways to fill [Library], alike but for [join]: [join] as above, or
    a [join] that refuses the suffix "_funding_rates".  Their dtype conversion
    leaves every cell as it is. *)
Definition refusing_join_rsuffix (rsuffix : string) (df other : DataFrame)
    : exn_class + DataFrame :=
  if String.eqb rsuffix "_funding_rates" then inl ValueError
  else sample_join_rsuffix rsuffix df other.

Definition library_with_join
    (join : string -> DataFrame -> DataFrame -> exn_class + DataFrame) : Library := {|
  isoparse_str := sample_isoparse_str;
  isoparse_nonstr := sample_isoparse_nonstr;
  isoparse_missing := ltac:(intros [] H; try discriminate H; reflexivity);
  convert_dtypes_column := fun vs => vs;
  convert_dtypes_length := fun _ => eq_refl;
  convert_dtypes_str := fun _ _ _ H => H;
  convert_dtypes_missing := fun _ _ v H Hm => ex_intro _ v (conj H Hm);
  apply_pd_Series := sample_apply_pd_Series;
  merge_left := sample_merge_left;
  join_rsuffix := join
|}.

(** * Properties *)

(** ** The computing instance meets the contract of [Library] *)

Lemma sample_isoparse_missing (v : value) :
  is_missing v = true -> sample_isoparse_nonstr v = TypeError.
Proof. destruct v; try discriminate; reflexivity. Qed.

Lemma sample_convert_dtypes_length (vs : list value) :
  length (sample_convert_dtypes_column vs) = length vs.
Proof.
  unfold sample_convert_dtypes_column.
  destruct (forallb _ vs); [apply length_map | reflexivity].
Qed.

Lemma sample_convert_dtypes_str (vs : list value) (i : nat) (s : string) :
  vs !! i = Some (VStr s) -> sample_convert_dtypes_column vs !! i = Some (VStr s).
Proof.
  intros H. unfold sample_convert_dtypes_column.
  destruct (forallb _ vs); [| exact H].
  rewrite list_lookup_fmap, H. reflexivity.
Qed.

Lemma sample_convert_dtypes_missing (vs : list value) (i : nat) (v : value) :
  vs !! i = Some v -> is_missing v = true ->
  exists v', sample_convert_dtypes_column vs !! i = Some v' /\ is_missing v' = true.
Proof.
  intros H Hm. unfold sample_convert_dtypes_column.
  destruct (forallb _ vs).
  - exists VNA. rewrite list_lookup_fmap, H. simpl. rewrite Hm. auto.
  - exists v. auto.
Qed.

#[export] Instance sample_library : Library := {|
  isoparse_str := sample_isoparse_str;
  isoparse_nonstr := sample_isoparse_nonstr;
  isoparse_missing := sample_isoparse_missing;
  convert_dtypes_column := sample_convert_dtypes_column;
  convert_dtypes_length := sample_convert_dtypes_length;
  convert_dtypes_str := sample_convert_dtypes_str;
  convert_dtypes_missing := sample_convert_dtypes_missing;
  apply_pd_Series := sample_apply_pd_Series;
  merge_left := sample_merge_left;
  join_rsuffix := sample_join_rsuffix
|}.

(** ** [_expand_df] and [_convert_utc] *)

Lemma assign_value_ok (key : string) (row : value) :
  _assign_value key row =
  Ok (match py_getitem row key with
      | Ok v => v
      | Err _ => VNone
      end).
Proof.
  unfold _assign_value, try_except, py_getitem.
  destruct row; try reflexivity.
  destruct (dict_get entries key); reflexivity.
Qed.

Lemma py_getitem_raises (row : value) (key : string) (e : exn) :
  py_getitem row key = Err e ->
  (e = Propagated KeyError /\ exists d, row = VDict d /\ dict_get d key = None) \/
  (e = Propagated TypeError /\ forall d, row <> VDict d).
Proof.
  unfold py_getitem. intros H.
  destruct row; try (right; split; [congruence | discriminate]).
  destruct (dict_get entries key) eqn:Hg; [discriminate |].
  left. split; [congruence | eauto].
Qed.

Lemma list_map_result_total {A B} (f : A -> result B) (g : A -> B) (l : list A) :
  (forall x, f x = Ok (g x)) -> list_map_result f l = Ok (map g l).
Proof.
  intros Hf. induction l as [| x l IH]; simpl; [reflexivity |].
  rewrite Hf. simpl. rewrite IH. reflexivity.
Qed.

(** C3.  For every key and every sequence of rows, [_expand_df] returns (it
    never raises) a list as long as the sequence; position [i] holds
    [rows[i][key]] when that lookup succeeds, and [None] when it raises, which
    it does only with [KeyError] (the row is a dict without the key) or with
    [TypeError] (the row is not a dict). *)
Theorem expand_df_never_raises (key : string) (rows : list value) :
  exists out,
    _expand_df key rows = Ok out /\
    length out = length rows /\
    forall i row, rows !! i = Some row ->
      match py_getitem row key with
      | Ok v => out !! i = Some v
      | Err e =>
          out !! i = Some VNone /\
          ((e = Propagated KeyError /\ exists d, row = VDict d /\ dict_get d key = None) \/
           (e = Propagated TypeError /\ forall d, row <> VDict d))
      end.
Proof.
  exists (map (fun row => match py_getitem row key with Ok v => v | Err _ => VNone end) rows).
  split; [| split].
  - apply list_map_result_total, assign_value_ok.
  - apply length_map.
  - intros i row Hi.
    rewrite list_lookup_fmap, Hi. simpl.
    destruct (py_getitem row key) eqn:Hg; [reflexivity |].
    split; [reflexivity | exact (py_getitem_raises _ _ _ Hg)].
Qed.

Section Conversion.

Context {lib : Library}.

Lemma convert_utc_str_valid (s : string) (d : datetime) :
  isoparse_str s = Some d -> _convert_utc (VStr s) = Ok (VDatetime d).
Proof. intros H. unfold _convert_utc, isoparse. rewrite H. reflexivity. Qed.

Lemma convert_utc_str_invalid (s : string) :
  isoparse_str s = None -> _convert_utc (VStr s) = Err (Propagated ValueError).
Proof. intros H. unfold _convert_utc, isoparse. rewrite H. reflexivity. Qed.

Lemma convert_utc_TypeError (v : value) :
  is_str v = false -> isoparse_nonstr v = TypeError -> _convert_utc v = Ok VNone.
Proof.
  intros Hs Ht. unfold _convert_utc, isoparse.
  destruct v; try discriminate; simpl; rewrite Ht; reflexivity.
Qed.

Lemma convert_utc_missing (v : value) :
  is_missing v = true -> _convert_utc v = Ok VNone.
Proof.
  intros Hm. apply convert_utc_TypeError.
  - destruct v; try discriminate; reflexivity.
  - apply isoparse_missing, Hm.
Qed.

(** [None] is returned in the place of a [TypeError] of the parser, and of
    nothing else. *)
Lemma convert_utc_None (v : value) :
  _convert_utc v = Ok VNone <-> is_str v = false /\ isoparse_nonstr v = TypeError.
Proof.
  split.
  - unfold _convert_utc, isoparse.
    destruct v as [| | | b | n | s | items | entries | d]; simpl;
      try (destruct (isoparse_nonstr _) eqn:E; simpl; try discriminate;
           intros _; split; reflexivity).
    destruct (isoparse_str s); simpl; discriminate.
  - intros [Hs Ht]. apply convert_utc_TypeError; assumption.
Qed.

Lemma convert_utc_propagates (v : value) :
  is_str v = false -> isoparse_nonstr v <> TypeError ->
  _convert_utc v = Err (Propagated (isoparse_nonstr v)).
Proof.
  intros Hs Ht. unfold _convert_utc, isoparse.
  destruct v; try discriminate; simpl;
    destruct (isoparse_nonstr _) eqn:E; simpl; congruence.
Qed.

(** What a successful [_convert_utc] returns: the parsed timestamp, or [None]
    in the place of a [TypeError] of the parser. *)
Lemma convert_utc_inv (v w : value) :
  _convert_utc v = Ok w ->
  (exists d, isoparse v = Ok d /\ w = VDatetime d) \/
  (exists e, isoparse v = Err e /\ class_of e = TypeError /\ w = VNone).
Proof.
  unfold _convert_utc. destruct (isoparse v) as [d | e] eqn:Hi; simpl.
  - intros [= <-]. left. eauto.
  - destruct e as [c msg | c]; destruct c; simpl; try discriminate;
      intros [= <-]; right; eexists; eauto.
Qed.

End Conversion.

(** ** Columns addressed by their label *)

Lemma get_col_set_col_eq (c : string) (vs : list value) cols :
  get_col c (set_col c vs cols) = Some vs.
Proof.
  induction cols as [| [k old] cols IH]; simpl.
  - rewrite String.eqb_refl. reflexivity.
  - destruct (String.eqb k c) eqn:E; simpl.
    + rewrite String.eqb_refl. reflexivity.
    + rewrite E. exact IH.
Qed.

Lemma get_col_set_col_ne (c c' : string) (vs : list value) cols :
  c <> c' -> get_col c' (set_col c vs cols) = get_col c' cols.
Proof.
  intros Hne. induction cols as [| [k old] cols IH]; simpl.
  - destruct (String.eqb c c') eqn:E; [apply String.eqb_eq in E; contradiction | reflexivity].
  - destruct (String.eqb k c) eqn:E; simpl.
    + apply String.eqb_eq in E. subst k.
      destruct (String.eqb c c') eqn:E'; [apply String.eqb_eq in E'; contradiction | reflexivity].
    + destruct (String.eqb k c'); [reflexivity | exact IH].
Qed.

Lemma get_col_Some_In (c : string) cols (vs : list value) :
  get_col c cols = Some vs -> (c, vs) ∈ cols.
Proof.
  induction cols as [| [k old] cols IH]; simpl; [discriminate |].
  destruct (String.eqb k c) eqn:E.
  - apply String.eqb_eq in E. intros [= ->]. subst. left.
  - intros H. right. auto.
Qed.

Lemma get_col_None (c : string) (cols : list (string * list value)) :
  get_col c cols = None <-> c ∉ map fst cols.
Proof.
  induction cols as [| [k old] cols IH]; simpl.
  - split; [intros _; apply not_elem_of_nil | reflexivity].
  - destruct (String.eqb k c) eqn:E.
    + apply String.eqb_eq in E. subst. split; [discriminate |].
      intros H. exfalso. apply H. left.
    + apply String.eqb_neq in E. rewrite IH, not_elem_of_cons. split; [auto | tauto].
Qed.

Lemma set_col_labels (c : string) (vs old : list value) cols :
  get_col c cols = Some old -> map fst (set_col c vs cols) = map fst cols.
Proof.
  induction cols as [| [k o] cols IH]; simpl; [discriminate |].
  destruct (String.eqb k c) eqn:E; simpl.
  - apply String.eqb_eq in E. subst. reflexivity.
  - intros H. rewrite IH by exact H. reflexivity.
Qed.

Lemma set_col_labels_new (c : string) (vs : list value) cols :
  get_col c cols = None -> map fst (set_col c vs cols) = (map fst cols ++ [c])%list.
Proof.
  induction cols as [| [k o] cols IH]; simpl; [reflexivity |].
  destruct (String.eqb k c) eqn:E; simpl; [discriminate |].
  intros H. rewrite IH by exact H. reflexivity.
Qed.

(** Writing the only column labelled [c] changes that column and no other. *)
Lemma set_col_once (c : string) (vs old : list value) cols :
  get_col c cols = Some old ->
  NoDup (List.filter (String.eqb c) (map fst cols)) ->
  Forall2 (fun before after =>
             fst after = fst before /\
             (fst before = c -> snd before = old /\ snd after = vs) /\
             (fst before <> c -> snd after = snd before))
          cols (set_col c vs cols).
Proof.
  induction cols as [| [k o] cols IH]; simpl; [discriminate |].
  destruct (String.eqb k c) eqn:E.
  - apply String.eqb_eq in E. subst k. intros [= ->] Hnd.
    rewrite String.eqb_refl in Hnd. apply NoDup_cons in Hnd as [Hnot _].
    constructor; [simpl; tauto |].
    apply Forall2_same_length_lookup. split; [reflexivity |].
    intros i x y Hx Hy. rewrite Hx in Hy. injection Hy as <-.
    split; [reflexivity |]. split; [| reflexivity].
    intros Hc. exfalso. apply Hnot.
    apply list_elem_of_In, filter_In. split; [| apply String.eqb_refl].
    apply list_elem_of_In, list_elem_of_fmap. exists x. split; [auto |].
    eapply list_elem_of_lookup_2, Hx.
  - intros Hg Hnd.
    assert (Hck : String.eqb c k = false)
      by (rewrite String.eqb_sym; exact E).
    rewrite Hck in Hnd.
    constructor; [| apply IH; assumption].
    simpl. apply String.eqb_neq in E. split; [reflexivity |]. split; [contradiction | reflexivity].
Qed.

Lemma list_map_result_Forall2 {A B} (f : A -> result B) (l : list A) (out : list B) :
  list_map_result f l = Ok out -> Forall2 (fun x y => f x = Ok y) l out.
Proof.
  revert out. induction l as [| x l IH]; simpl; intros out.
  - intros [= <-]. constructor.
  - destruct (f x) as [y |] eqn:Hx; simpl; [| discriminate].
    destruct (list_map_result f l) as [ys |] eqn:Hl; simpl; [| discriminate].
    intros [= <-]. constructor; auto.
Qed.

Lemma list_map_result_returns {A B} (f : A -> result B) (l : list A) :
  Forall (fun x => exists y, f x = Ok y) l -> exists out, list_map_result f l = Ok out.
Proof.
  induction 1 as [| x l [y Hy] _ [ys IH]]; simpl.
  - eauto.
  - rewrite Hy. simpl. rewrite IH. simpl. eauto.
Qed.

Lemma list_map_result_raises {A B} (f : A -> result B) (l : list A) (x : A) (e : exn) :
  x ∈ l -> f x = Err e -> exists e', list_map_result f l = Err e'.
Proof.
  intros Hin Hx. induction l as [| a l IH]; [inversion Hin |].
  simpl. apply elem_of_cons in Hin as [<- | Hin].
  - rewrite Hx. simpl. eauto.
  - destruct (f a); simpl; [| eauto].
    destruct (IH Hin) as [e' ->]. simpl. eauto.
Qed.

Section DatetimeColumns.

Context {lib : Library}.

Lemma convert_dtypes_columns (df : DataFrame) :
  columns (convert_dtypes df) = columns df.
Proof.
  unfold columns, convert_dtypes. simpl. rewrite map_map. reflexivity.
Qed.

(** The loop over the datetime columns, when each of them labels one column:
    these columns are converted cell by cell and the others are kept. *)
Lemma convert_datetime_cols_spec (cols : list string) (df out : DataFrame) :
  NoDup cols ->
  (forall c, c ∈ cols -> NoDup (List.filter (String.eqb c) (columns df))) ->
  convert_datetime_cols cols df = Ok out ->
  index out = index df /\
  Forall2 (fun before after =>
             fst after = fst before /\
             (fst before ∈ cols ->
              Forall2 (fun v w => _convert_utc v = Ok w) (snd before) (snd after)) /\
             (fst before ∉ cols -> snd after = snd before))
          (data df) (data out).
Proof.
  revert df. induction cols as [| col rest IH]; simpl; intros df Hnd Hone.
  - intros [= <-]. split; [reflexivity |].
    apply Forall2_same_length_lookup. split; [reflexivity |].
    intros i x y Hx Hy. rewrite Hx in Hy. injection Hy as <-.
    split; [reflexivity |]. split; [| reflexivity].
    intros Hin. inversion Hin.
  - unfold getitem.
    destruct (get_col col (data df)) as [series |] eqn:Hg; simpl; [| discriminate].
    unfold Series_apply.
    destruct (list_map_result _convert_utc series) as [converted |] eqn:Hc; simpl;
      [| discriminate].
    intros Hrun. apply NoDup_cons in Hnd as [Hnot Hnd].
    assert (Hlabels : columns (setitem col converted df) = columns df)
      by (unfold columns, setitem; simpl; eapply set_col_labels, Hg).
    apply IH in Hrun as [Hidx Hrel]; [| exact Hnd |].
    2:{ intros c Hin. rewrite Hlabels. apply Hone. right. exact Hin. }
    split; [exact Hidx |].
    pose proof (set_col_once col converted series (data df) Hg
                  (Hone col (list_elem_of_here _ _))) as Hset.
    apply list_map_result_Forall2 in Hc.
    eapply Forall2_trans; [| exact Hset | exact Hrel].
    simpl. intros b m a (Hm1 & Hm2 & Hm3) (Ha1 & Ha2 & Ha3).
    split; [congruence |]. rewrite Hm1 in Ha2, Ha3.
    destruct (decide (fst b = col)) as [Heq | Hne].
    + destruct (Hm2 Heq) as [Hb Hm]. split.
      * intros _. rewrite Ha3 by (rewrite Heq; exact Hnot). rewrite Hb, Hm. exact Hc.
      * intros Habs. exfalso. apply Habs. rewrite Heq. left.
    + rewrite (Hm3 Hne) in Ha2, Ha3. split.
      * intros Hin. apply elem_of_cons in Hin as [? | Hin]; [contradiction | auto].
      * intros Hout. apply Ha3. intros Hin. apply Hout. right. exact Hin.
Qed.

Lemma convert_datetime_cols_returns (cols : list string) (df : DataFrame) :
  NoDup cols ->
  (forall c, c ∈ cols ->
     exists vs, get_col c (data df) = Some vs /\
                Forall (fun v => exists w, _convert_utc v = Ok w) vs) ->
  exists out, convert_datetime_cols cols df = Ok out.
Proof.
  revert df. induction cols as [| col rest IH]; simpl; intros df Hnd Hok; [eauto |].
  apply NoDup_cons in Hnd as [Hnot Hnd].
  destruct (Hok col (list_elem_of_here _ _)) as (series & Hg & Hall).
  unfold getitem, Series_apply. rewrite Hg. simpl.
  destruct (list_map_result_returns _ _ Hall) as [converted ->]. simpl.
  apply IH; [exact Hnd |].
  intros c Hin. destruct (Hok c) as (vs & Hgc & Hvs); [right; exact Hin |].
  exists vs. split; [| exact Hvs].
  unfold setitem. simpl. rewrite get_col_set_col_ne; [exact Hgc |].
  intros ->. contradiction.
Qed.

(** A cell of a datetime column that [_convert_utc] raises on makes the loop
    raise, whatever the other cells are. *)
Lemma convert_datetime_cols_raises (cols : list string) (df : DataFrame)
    (c : string) (vs : list value) (v : value) (e : exn) :
  c ∈ cols -> get_col c (data df) = Some vs -> v ∈ vs -> _convert_utc v = Err e ->
  exists e', convert_datetime_cols cols df = Err e'.
Proof.
  revert df. induction cols as [| col rest IH]; simpl; intros df Hin Hg Hv He;
    [inversion Hin |].
  unfold getitem, Series_apply.
  destruct (decide (col = c)) as [-> | Hne].
  - rewrite Hg. simpl.
    destruct (list_map_result_raises _ _ _ _ Hv He) as [e' ->]. simpl. eauto.
  - destruct (get_col col (data df)) as [series |]; simpl; [| eauto].
    destruct (list_map_result _convert_utc series) as [converted |]; simpl; [| eauto].
    apply IH; [| | exact Hv | exact He].
    + apply elem_of_cons in Hin as [? | ?]; [congruence | assumption].
    + unfold setitem. simpl. rewrite get_col_set_col_ne by exact Hne. exact Hg.
Qed.

End DatetimeColumns.

(** ** [endswith] *)

Lemma append_cons (c : ascii) (p s : string) :
  String.append (String c p) s = String c (String.append p s).
Proof. reflexivity. Qed.

Lemma length_append (p s : string) :
  String.length (String.append p s) = String.length p + String.length s.
Proof.
  induction p as [| c p IH]; [reflexivity |].
  rewrite append_cons. simpl. rewrite IH. reflexivity.
Qed.

Lemma substring_all (s : string) : String.substring 0 (String.length s) s = s.
Proof. induction s as [| c s IH]; simpl; [reflexivity | rewrite IH; reflexivity]. Qed.

Lemma substring_skip (p s : string) (m : nat) :
  String.substring (String.length p) m (String.append p s) = String.substring 0 m s.
Proof.
  induction p as [| c p IH]; [reflexivity |].
  rewrite append_cons. simpl. exact IH.
Qed.

Lemma substring_split (s : string) (k m : nat) :
  k + m = String.length s ->
  String.append (String.substring 0 k s) (String.substring k m s) = s.
Proof.
  revert k m. induction s as [| c s IH]; intros k m H; simpl in H.
  - destruct k, m; try discriminate. reflexivity.
  - destruct k as [| k]; simpl.
    + destruct m as [| m]; [discriminate |]. simpl in H. injection H as ->.
      rewrite substring_all. reflexivity.
    + rewrite append_cons, IH by lia. reflexivity.
Qed.

Lemma endswith_spec (s suffix : string) :
  endswith s suffix = true <-> exists p, s = String.append p suffix.
Proof.
  unfold endswith. split.
  - destruct (String.length suffix <=? String.length s)%nat eqn:Hle; [| discriminate].
    apply Nat.leb_le in Hle. intros H. apply String.eqb_eq in H.
    exists (String.substring 0 (String.length s - String.length suffix) s).
    pose proof (substring_split s (String.length s - String.length suffix)
                  (String.length suffix)) as Hsplit.
    rewrite H in Hsplit. symmetry. apply Hsplit. lia.
  - intros [p ->]. rewrite length_append.
    replace (String.length suffix <=? String.length p + String.length suffix)%nat
      with true by (symmetry; apply Nat.leb_le; lia).
    replace (String.length p + String.length suffix - String.length suffix)
      with (String.length p) by lia.
    rewrite substring_skip, substring_all. apply String.eqb_refl.
Qed.

Lemma is_datetime_col_spec (c : string) :
  is_datetime_col c = true <-> c = "time" \/ exists p, c = String.append p "_time".
Proof.
  unfold is_datetime_col. rewrite orb_true_iff, endswith_spec, String.eqb_eq. tauto.
Qed.

Section ConvertCatalogDtypes.

Context {lib : Library}.

Lemma filter_label_once (P : string -> bool) (labels : list string) (c : string) :
  NoDup (List.filter P labels) -> P c = true ->
  NoDup (List.filter (String.eqb c) labels).
Proof.
  intros Hnd Hc.
  replace (List.filter (String.eqb c) labels)
    with (List.filter (String.eqb c) (List.filter P labels)).
  - apply NoDup_ListNoDup, List.NoDup_filter, NoDup_ListNoDup, Hnd.
  - clear Hnd. induction labels as [| k labels IH]; simpl; [reflexivity |].
    destruct (P k) eqn:Hk; simpl.
    + rewrite IH. reflexivity.
    + destruct (String.eqb c k) eqn:E; [| exact IH].
      apply String.eqb_eq in E. congruence.
Qed.

(** The effect of [convert_catalog_dtypes] on a frame in which each datetime
    label names one column. *)
Lemma convert_catalog_dtypes_spec (df : DataFrame) :
  NoDup (List.filter is_datetime_col (columns df)) ->
  (forall out, convert_catalog_dtypes df = Ok out ->
     index out = index df /\
     Forall2 (fun before after =>
                fst after = fst before /\
                if is_datetime_col (fst before)
                then Forall2 (fun v w =>
                                _convert_utc v = Ok w /\
                                ((exists d, isoparse v = Ok d /\ w = VDatetime d) \/
                                 w = VNone))
                             (snd before) (snd after)
                else snd after = snd before)
             (data (convert_dtypes df)) (data out)) /\
  ((exists out, convert_catalog_dtypes df = Ok out) <->
   (forall c vs v, (c, vs) ∈ data (convert_dtypes df) -> is_datetime_col c = true ->
                   v ∈ vs -> exists w, _convert_utc v = Ok w)).
Proof.
  intros Hnd.
  set (df1 := convert_dtypes df).
  set (cols := List.filter is_datetime_col (columns df1)).
  assert (Hcols : NoDup cols)
    by (unfold cols, df1; rewrite convert_dtypes_columns; exact Hnd).
  assert (Hin : forall c, c ∈ cols <-> c ∈ columns df1 /\ is_datetime_col c = true).
  { intros c. unfold cols. rewrite !list_elem_of_In, filter_In. reflexivity. }
  assert (Hone : forall c, c ∈ cols ->
                   NoDup (List.filter (String.eqb c) (columns df1))).
  { intros c Hc. apply Hin in Hc as [_ Hc].
    apply (filter_label_once is_datetime_col); [exact Hcols | exact Hc]. }
  assert (Hspec : forall out, convert_catalog_dtypes df = Ok out ->
     index out = index df /\
     Forall2 (fun before after =>
                fst after = fst before /\
                if is_datetime_col (fst before)
                then Forall2 (fun v w =>
                                _convert_utc v = Ok w /\
                                ((exists d, isoparse v = Ok d /\ w = VDatetime d) \/
                                 w = VNone))
                             (snd before) (snd after)
                else snd after = snd before)
             (data df1) (data out)).
  { intros out Hout.
    apply (convert_datetime_cols_spec cols df1 out Hcols Hone) in Hout as [Hidx Hrel].
    split; [exact Hidx |].
    apply Forall2_same_length_lookup. split; [eapply Forall2_length, Hrel |].
    intros i b a Hb Ha.
    destruct (Forall2_lookup_lr _ _ _ _ _ _ Hrel Hb Ha) as (H1 & H2 & H3).
    split; [exact H1 |].
    assert (Hlab : fst b ∈ columns df1).
    { apply list_elem_of_fmap. exists b. split; [reflexivity |].
      eapply list_elem_of_lookup_2, Hb. }
    destruct (is_datetime_col (fst b)) eqn:Hdt.
    - eapply Forall2_impl; [apply H2, Hin; split; [exact Hlab | exact Hdt] |].
      simpl. intros v w Hvw. split; [exact Hvw |].
      destruct (convert_utc_inv v w Hvw) as [(d & ? & ?) | (e & ? & ? & ?)]; eauto.
    - apply H3. intros Hc. apply Hin in Hc as [_ Hc]. congruence. }
  split; [exact Hspec |].
  split.
  - intros [out Hout] c vs v Hcvs Hdt Hv.
    destruct (Hspec out Hout) as [_ Hrel].
    apply list_elem_of_lookup_1 in Hcvs as [i Hi].
    destruct (Forall2_lookup_l _ _ _ _ _ Hrel Hi) as (a & Ha & _ & Hconv).
    simpl in Hconv. rewrite Hdt in Hconv.
    apply list_elem_of_lookup_1 in Hv as [j Hj].
    destruct (Forall2_lookup_l _ _ _ _ _ Hconv Hj) as (w & _ & Hw & _). eauto.
  - intros Hall. apply convert_datetime_cols_returns; [exact Hcols |].
    intros c Hc. apply Hin in Hc as [Hlab Hdt].
    destruct (get_col c (data df1)) as [vs |] eqn:Hg.
    + exists vs. split; [exact Hg |]. apply Forall_forall. intros v Hv.
      eapply Hall; [apply get_col_Some_In, Hg | exact Hdt | exact Hv].
    + apply get_col_None in Hg. contradiction.
Qed.

(** C4.  [convert_catalog_dtypes] coerces exactly the columns named "time" or
    ending in "_time".  On a frame in which each of these labels names one
    column: when the call returns, the frame keeps its labels and its index,
    every cell of such a column is replaced by what [_convert_utc] returns for
    it, that is its parsed timestamp or [None], and every other column is the
    column that [convert_dtypes] returned, unchanged; and the call returns
    exactly when [_convert_utc] returns for every cell of these columns. *)
Theorem convert_catalog_dtypes_datetime_columns (df : DataFrame) :
  NoDup (List.filter is_datetime_col (columns df)) ->
  (forall c, is_datetime_col c = true <->
             c = "time" \/ exists p, c = String.append p "_time") /\
  (forall out, convert_catalog_dtypes df = Ok out ->
     index out = index df /\
     Forall2 (fun before after =>
                fst after = fst before /\
                if is_datetime_col (fst before)
                then Forall2 (fun v w =>
                                _convert_utc v = Ok w /\
                                ((exists d, isoparse v = Ok d /\ w = VDatetime d) \/
                                 w = VNone))
                             (snd before) (snd after)
                else snd after = snd before)
             (data (convert_dtypes df)) (data out)) /\
  ((exists out, convert_catalog_dtypes df = Ok out) <->
   (forall c vs v, (c, vs) ∈ data (convert_dtypes df) -> is_datetime_col c = true ->
                   v ∈ vs -> exists w, _convert_utc v = Ok w)).
Proof.
  intros Hnd.
  destruct (convert_catalog_dtypes_spec df Hnd) as [Hframe Hreturns].
  split; [exact is_datetime_col_spec |].
  split; [exact Hframe | exact Hreturns].
Qed.


(** C5.  [_convert_utc] returns the parsed datetime for a string that the ISO
    parser accepts.  It returns [None] exactly for the objects that are not
    strings and on which the parser raises [TypeError], as it does on [None],
    [nan] and [pandas.NA].  Every other exception of the parser comes out of
    [_convert_utc]: the [ValueError] for a string that the parser rejects,
    and what the parser raises on an object that is not a string when that is
    not [TypeError].  So [convert_catalog_dtypes] raises on a frame that
    holds a string that the parser rejects in a column named "time" or ending
    in "_time". *)
Theorem convert_utc_substitutes_only_on_TypeError :
  (forall s d, isoparse_str s = Some d -> _convert_utc (VStr s) = Ok (VDatetime d)) /\
  (forall s, isoparse_str s = None ->
             _convert_utc (VStr s) = Err (Propagated ValueError)) /\
  (forall v, _convert_utc v = Ok VNone <->
             is_str v = false /\ isoparse_nonstr v = TypeError) /\
  (forall v, is_missing v = true -> _convert_utc v = Ok VNone) /\
  (forall v, is_str v = false -> isoparse_nonstr v <> TypeError ->
             _convert_utc v = Err (Propagated (isoparse_nonstr v))) /\
  (forall df c vs s,
     get_col c (data df) = Some vs -> is_datetime_col c = true ->
     VStr s ∈ vs -> isoparse_str s = None ->
     exists e, convert_catalog_dtypes df = Err e).
Proof.
  split; [exact convert_utc_str_valid |].
  split; [exact convert_utc_str_invalid |].
  split; [exact convert_utc_None |].
  split; [exact convert_utc_missing |].
  split; [exact convert_utc_propagates |].
  intros df c vs s Hg Hdt Hs Hbad.
  unfold convert_catalog_dtypes.
  apply list_elem_of_lookup_1 in Hs as [i Hi].
  eapply (convert_datetime_cols_raises _ _ c (convert_dtypes_column vs) (VStr s)).
  - rewrite list_elem_of_In. apply filter_In. split; [| exact Hdt].
    rewrite convert_dtypes_columns. apply list_elem_of_In.
    apply get_col_Some_In in Hg.
    apply list_elem_of_fmap. exists (c, vs). split; [reflexivity | exact Hg].
  - unfold convert_dtypes. simpl. clear -Hg.
    induction (data df) as [| [k o] cols IH]; simpl in *; [discriminate |].
    destruct (String.eqb k c); [congruence | auto].
  - eapply list_elem_of_lookup_2, convert_dtypes_str, Hi.
  - apply convert_utc_str_invalid, Hbad.
Qed.

End ConvertCatalogDtypes.

Lemma convert_catalog_dtypes_datetime_columns_witness :
  let df := mk_df [("asset", [VStr "btc"; VStr "eth"]);
                   ("max_time", [VStr "2021-06-30"; VNaN])] [0; 1] in
  let out := mk_df [("asset", [VStr "btc"; VStr "eth"]);
                    ("max_time", [VDatetime (mk_datetime 2021 6 30 0 0 0 0 None); VNone])]
                   [0; 1] in
  is_datetime_col "max_time" = true /\
  convert_catalog_dtypes df = Ok out /\
  index out = index df.
Proof.
  intros df out.
  destruct (convert_catalog_dtypes_datetime_columns (lib := sample_library) df)
    as (Hname & Hframe & _).
  - apply NoDup_singleton.
  - split; [apply Hname; right; exists "max"; reflexivity |].
    split; [reflexivity |].
    exact (proj1 (Hframe out eq_refl)).
Defined.

Lemma convert_utc_substitutes_only_on_TypeError_witness :
  _convert_utc (VStr "2021-06-30") = Ok (VDatetime (mk_datetime 2021 6 30 0 0 0 0 None)) /\
  _convert_utc VNaN = Ok VNone /\
  _convert_utc (VStr "30 June 2021") = Err (Propagated ValueError) /\
  _convert_utc (VList []) = Err (Propagated ValueError) /\
  exists e, convert_catalog_dtypes
              (mk_df [("time", [VStr "2021-06-30"; VStr "30 June 2021"])] [0; 1]) = Err e.
Proof.
  destruct (convert_utc_substitutes_only_on_TypeError (lib := sample_library))
    as (Hvalid & Hinvalid & _ & Hmissing & Hother & Hframe).
  split; [apply Hvalid; reflexivity |].
  split; [apply Hmissing; reflexivity |].
  split; [apply Hinvalid; reflexivity |].
  split; [apply (Hother (VList [])); [reflexivity | discriminate] |].
  apply (Hframe _ "time" [VStr "2021-06-30"; VStr "30 June 2021"] "30 June 2021").
  - reflexivity.
  - reflexivity.
  - right. left.
  - reflexivity.
Defined.

(** A frame with a string that is no date in its column "time": the call
    raises, and no value is replaced. *)
Lemma convert_catalog_dtypes_raises_on_unparsable :
  ~ (forall (lib : Library) (df : DataFrame),
       exists out,
         convert_catalog_dtypes df = Ok out /\
         forall c vs, (c, vs) ∈ data out -> is_datetime_col c = true ->
           Forall (fun w => is_missing w = true \/ exists d, w = VDatetime d) vs).
Proof.
  intros H.
  destruct (H sample_library (mk_df [("time", [VStr "30 June 2021"])] [0]))
    as (out & Hout & _).
  vm_compute in Hout. discriminate.
Qed.

(** An empty list is not a string, and [_convert_utc] raises on it: the ISO
    parser finds it too short, which is a [ValueError]. *)
Lemma convert_utc_raises_on_empty_list :
  ~ (forall (lib : Library) (v : value), is_str v = false -> _convert_utc v = Ok VNone).
Proof.
  intros H. specialize (H sample_library (VList []) eq_refl).
  vm_compute in H. discriminate.
Qed.

(** ** The frame of a list of records *)

Lemma add_labels_elem (ks acc : list string) (c : string) :
  c ∈ fold_left add_label ks acc <-> c ∈ acc \/ c ∈ ks.
Proof.
  revert acc. induction ks as [| k ks IH]; simpl; intros acc.
  - rewrite elem_of_nil. tauto.
  - rewrite IH, elem_of_cons. unfold add_label.
    destruct (existsb (String.eqb k) acc) eqn:E.
    + apply existsb_exists in E as (x & Hx & Hk). apply String.eqb_eq in Hk. subst x.
      apply list_elem_of_In in Hx. split; [tauto |].
      intros [? | [-> | ?]]; tauto.
    + rewrite elem_of_app, list_elem_of_singleton. tauto.
Qed.

Lemma add_labels_NoDup (ks acc : list string) :
  NoDup acc -> NoDup (fold_left add_label ks acc).
Proof.
  revert acc. induction ks as [| k ks IH]; simpl; intros acc Hnd; [exact Hnd |].
  apply IH. unfold add_label.
  destruct (existsb (String.eqb k) acc) eqn:E; [exact Hnd |].
  apply NoDup_app. split; [exact Hnd |]. split; [| apply NoDup_singleton].
  intros x Hx Hk. apply list_elem_of_singleton in Hk. subst x.
  assert (Hex : existsb (String.eqb k) acc = true); [| congruence].
  apply existsb_exists. exists k. split; [apply list_elem_of_In, Hx | apply String.eqb_refl].
Qed.

Lemma union_keys_elem (records : list record) (c : string) :
  c ∈ union_keys records <-> exists r, r ∈ records /\ c ∈ map fst r.
Proof.
  unfold union_keys. rewrite add_labels_elem, elem_of_nil.
  rewrite list_elem_of_In, in_flat_map.
  split.
  - intros [[] | (r & Hr & Hc)]. exists r. rewrite !list_elem_of_In. auto.
  - intros (r & Hr & Hc). right. exists r. rewrite <- !list_elem_of_In. auto.
Qed.

Lemma union_keys_NoDup (records : list record) : NoDup (union_keys records).
Proof. apply add_labels_NoDup, NoDup_nil_2. Qed.

Lemma dict_get_key (r : record) (c : string) :
  c ∈ map fst r <-> exists v, dict_get r c = Some v.
Proof.
  induction r as [| [k v] r IH]; simpl.
  - rewrite elem_of_nil. split; [tauto | intros [? ?]; discriminate].
  - rewrite elem_of_cons. destruct (String.eqb k c) eqn:E.
    + apply String.eqb_eq in E. subst. split; eauto.
    + apply String.eqb_neq in E. rewrite IH. split; [| tauto].
      intros [? | ?]; [congruence | assumption].
Qed.

Lemma get_col_build (f : string -> list value) (labels : list string) (c : string) :
  c ∈ labels -> get_col c (map (fun k => (k, f k)) labels) = Some (f c).
Proof.
  induction labels as [| k labels IH]; simpl; [intros H; inversion H |].
  intros H. destruct (String.eqb k c) eqn:E.
  - apply String.eqb_eq in E. subst. reflexivity.
  - apply String.eqb_neq in E. apply elem_of_cons in H as [? | H]; [congruence | auto].
Qed.

Lemma pd_DataFrame_columns (records : list record) :
  columns (pd_DataFrame records) = union_keys records.
Proof.
  unfold columns, pd_DataFrame. simpl. rewrite map_map. simpl. apply map_id.
Qed.

Lemma pd_DataFrame_get_col (records : list record) (c : string) :
  c ∈ union_keys records ->
  get_col c (data (pd_DataFrame records)) =
  Some (map (fun r => default VNaN (dict_get r c)) records).
Proof.
  intros H. unfold pd_DataFrame. simpl.
  apply (get_col_build (fun c => map (fun r => default VNaN (dict_get r c)) records)), H.
Qed.

Lemma pd_DataFrame_cells (records : list record) (c : string) (vs : list value) :
  (c, vs) ∈ data (pd_DataFrame records) ->
  vs = map (fun r => default VNaN (dict_get r c)) records.
Proof.
  unfold pd_DataFrame. simpl. intros H.
  apply list_elem_of_fmap in H as (k & [= -> ->] & _). reflexivity.
Qed.

(** ** Columns through the reshaping operations *)

Lemma pd_DataFrame_rectangular (records : list record) :
  rectangular (pd_DataFrame records).
Proof.
  unfold rectangular, pd_DataFrame, nrows. simpl.
  apply Forall_forall. intros [c vs] H.
  apply list_elem_of_fmap in H as (k & [= -> ->] & _). simpl.
  rewrite length_map, length_seq. reflexivity.
Qed.

Lemma get_col_map (g : string -> list value -> list value)
    (cols : list (string * list value)) (c : string) :
  get_col c (map (fun kv => (fst kv, g (fst kv) (snd kv))) cols) =
  g c <$> get_col c cols.
Proof.
  induction cols as [| [k vs] cols IH]; simpl; [reflexivity |].
  destruct (String.eqb k c) eqn:E; [| exact IH].
  apply String.eqb_eq in E. subst. reflexivity.
Qed.

Lemma get_col_without (labels : list string) (cols : list (string * list value))
    (c : string) :
  get_col c (without labels cols) =
  if existsb (String.eqb c) labels then None else get_col c cols.
Proof.
  unfold without. induction cols as [| [k vs] cols IH]; simpl.
  - destruct (existsb _ labels); reflexivity.
  - destruct (existsb (String.eqb k) labels) eqn:Ek; simpl.
    + rewrite IH. destruct (String.eqb k c) eqn:E; [| reflexivity].
      apply String.eqb_eq in E. subst. rewrite Ek. reflexivity.
    + destruct (String.eqb k c) eqn:E; [| exact IH].
      apply String.eqb_eq in E. subst. rewrite Ek. reflexivity.
Qed.

Lemma without_labels (labels : list string) (cols : list (string * list value)) :
  map fst (without labels cols) =
  List.filter (fun k => negb (existsb (String.eqb k) labels)) (map fst cols).
Proof.
  unfold without. induction cols as [| [k vs] cols IH]; simpl; [reflexivity |].
  destruct (existsb (String.eqb k) labels); simpl; rewrite IH; reflexivity.
Qed.

Lemma without_elem (labels : list string) (cols : list (string * list value)) kv :
  kv ∈ without labels cols -> kv ∈ cols.
Proof.
  unfold without. rewrite !list_elem_of_In, filter_In. tauto.
Qed.

Lemma set_col_elem (c : string) (vs : list value) cols kv :
  kv ∈ set_col c vs cols -> kv = (c, vs) \/ kv ∈ cols.
Proof.
  induction cols as [| [k o] cols IH]; simpl.
  - rewrite list_elem_of_singleton. tauto.
  - destruct (String.eqb k c); rewrite !elem_of_cons; [tauto |].
    intros [? | H]; [tauto |]. apply IH in H. tauto.
Qed.

Lemma set_col_NoDup (c : string) (vs : list value) cols :
  NoDup (map fst cols) -> NoDup (map fst (set_col c vs cols)).
Proof.
  intros Hnd. destruct (get_col c cols) as [old |] eqn:Hg.
  - rewrite (set_col_labels _ _ _ _ Hg). exact Hnd.
  - rewrite (set_col_labels_new _ _ _ Hg).
    apply get_col_None in Hg.
    apply NoDup_app. split; [exact Hnd |]. split; [| apply NoDup_singleton].
    intros x Hx Hc. apply list_elem_of_singleton in Hc. subst. contradiction.
Qed.

Lemma flat_map_length {A B} (f : A -> list B) (l : list A) :
  length (flat_map f l) = sum_list (map (fun x => length (f x)) l).
Proof.
  induction l as [| x l IH]; simpl; [reflexivity |].
  rewrite length_app, IH. reflexivity.
Qed.

Lemma repeat_each_length {A} (counts : list nat) (xs : list A) :
  length counts = length xs -> length (repeat_each counts xs) = sum_list counts.
Proof.
  revert xs. induction counts as [| n counts IH]; intros [| x xs]; simpl;
    try discriminate; [reflexivity |].
  intros [= H]. rewrite length_app, length_replicate, IH by exact H. reflexivity.
Qed.

Lemma repeat_each_Forall {A} (P : A -> Prop) (counts : list nat) (xs : list A) :
  Forall P xs -> Forall P (repeat_each counts xs).
Proof.
  intros H. revert counts. induction H as [| x xs Hx _ IH]; intros [| n counts]; simpl;
    try constructor.
  apply Forall_app. split; [| apply IH].
  apply Forall_forall. intros y Hy. apply elem_of_replicate in Hy as [-> _]. exact Hx.
Qed.

Lemma In_get_col (c : string) (vs : list value) cols :
  NoDup (map fst cols) -> (c, vs) ∈ cols -> get_col c cols = Some vs.
Proof.
  induction cols as [| [k o] cols IH]; simpl; intros Hnd Hin; [inversion Hin |].
  apply NoDup_cons in Hnd as [Hk Hnd].
  apply elem_of_cons in Hin as [[= -> ->] | Hin].
  - rewrite String.eqb_refl. reflexivity.
  - destruct (String.eqb k c) eqn:E; [| auto].
    apply String.eqb_eq in E. subst. exfalso. apply Hk.
    apply list_elem_of_fmap. exists (c, vs). auto.
Qed.

Lemma pd_DataFrame_well_formed (records : list record) :
  well_formed (pd_DataFrame records).
Proof.
  split; [| apply pd_DataFrame_rectangular].
  rewrite pd_DataFrame_columns. apply union_keys_NoDup.
Qed.

Lemma well_formed_length (df : DataFrame) (c : string) (vs : list value) :
  well_formed df -> get_col c (data df) = Some vs -> length vs = nrows df.
Proof.
  intros [_ Hrect] Hg. apply get_col_Some_In in Hg.
  unfold rectangular in Hrect. rewrite Forall_forall in Hrect.
  exact (Hrect _ Hg).
Qed.

(** [explode] on a well-formed frame: the column is unfolded, the others are
    repeated, and the frame stays well formed. *)
Lemma explode_spec (column : string) (df : DataFrame) (cells : list value) :
  well_formed df ->
  get_col column (data df) = Some cells ->
  exists out,
    explode column df = Ok out /\
    columns out = columns df /\
    well_formed out /\
    nrows out = length (flat_map explode_cell cells) /\
    get_col column (data out) = Some (flat_map explode_cell cells) /\
    forall c vs, (c, vs) ∈ data out -> c <> column ->
      exists old, (c, old) ∈ data df /\
                  vs = repeat_each (map (fun v => length (explode_cell v)) cells) old.
Proof.
  intros Hwf Hg.
  pose proof (well_formed_length _ _ _ Hwf Hg) as Hlen.
  destruct Hwf as [Hnd Hrect].
  destruct (explode column df) as [out |] eqn:Hex; unfold explode in Hex;
    rewrite Hg in Hex; [| discriminate].
  injection Hex as Hout. exists out. split; [reflexivity |].
  set (counts := map (fun v => length (explode_cell v)) cells) in *.
  assert (Hcounts : length counts = length cells)
    by (unfold counts; apply length_map).
  assert (Hrows : nrows out = length (flat_map explode_cell cells)).
  { subst out. unfold nrows. simpl.
    rewrite repeat_each_length by (rewrite Hcounts; exact Hlen).
    rewrite flat_map_length. reflexivity. }
  assert (Hcols : columns out = columns df).
  { subst out. unfold columns. simpl. rewrite map_map.
    apply map_ext. intros kv. destruct (String.eqb (fst kv) column); reflexivity. }
  split; [exact Hcols |].
  split; [| split; [exact Hrows | split]].
  - split; [rewrite Hcols; exact Hnd |].
    unfold rectangular. rewrite Hrows. subst out. simpl.
    apply Forall_forall. intros kv' Hin.
    apply list_elem_of_fmap in Hin as (kv & -> & Hkv).
    destruct (String.eqb (fst kv) column) eqn:E; simpl.
    + apply String.eqb_eq in E. destruct kv as [k o]. simpl in *. subst k.
      rewrite (In_get_col _ _ _ Hnd Hkv) in Hg. congruence.
    + rewrite repeat_each_length, flat_map_length; [reflexivity |].
      unfold rectangular in Hrect. rewrite Forall_forall in Hrect.
      rewrite (Hrect _ Hkv), Hcounts. exact Hlen.
  - subst out. simpl. clear -Hg.
    induction (data df) as [| [k o] cols IH]; simpl in *; [discriminate |].
    destruct (String.eqb k column) eqn:E; simpl.
    + rewrite E. congruence.
    + rewrite E. auto.
  - subst out. simpl. intros c vs Hin Hne.
    apply list_elem_of_fmap in Hin as ([k o] & Heq & Hkv). simpl in Heq.
    destruct (String.eqb k column) eqn:E.
    + apply String.eqb_eq in E. injection Heq as -> _. contradiction.
    + injection Heq as -> ->. eauto.
Qed.

Lemma expand_df_returns (key : string) (iterable : list value) :
  _expand_df key iterable = Ok (map (field key) iterable).
Proof.
  unfold _expand_df. apply list_map_result_total. intros row.
  rewrite assign_value_ok. reflexivity.
Qed.

Lemma setitem_well_formed (c : string) (vs : list value) (df : DataFrame) :
  well_formed df -> length vs = nrows df -> well_formed (setitem c vs df).
Proof.
  intros [Hnd Hrect] Hlen. split.
  - apply set_col_NoDup, Hnd.
  - unfold rectangular, setitem, nrows in *. simpl.
    rewrite Forall_forall in *. intros kv Hin.
    apply set_col_elem in Hin as [-> | Hin]; [exact Hlen | auto].
Qed.

(** [assign_expand_df] on a frame that has the source column: the new column
    holds the field of each cell of the source. *)
Lemma assign_expand_df_spec (name key source : string) (df : DataFrame)
    (iterable : list value) :
  well_formed df ->
  get_col source (data df) = Some iterable ->
  assign_expand_df name key source df = Ok (setitem name (map (field key) iterable) df) /\
  well_formed (setitem name (map (field key) iterable) df).
Proof.
  intros Hwf Hg.
  pose proof (well_formed_length _ _ _ Hwf Hg) as Hlen.
  unfold assign_expand_df, getattr. rewrite Hg. simpl.
  rewrite expand_df_returns. simpl. unfold assign.
  rewrite length_map, Hlen, Nat.eqb_refl. split; [reflexivity |].
  apply setitem_well_formed; [exact Hwf | rewrite length_map; exact Hlen].
Qed.

Lemma reset_index_well_formed (df : DataFrame) :
  well_formed df -> well_formed (reset_index df).
Proof.
  intros [Hnd Hrect]. split; [exact Hnd |].
  unfold rectangular, reset_index, nrows in *. simpl. rewrite length_seq. exact Hrect.
Qed.

Lemma has_label_get_col (c : string) (df : DataFrame) (vs : list value) :
  get_col c (data df) = Some vs -> has_label c df = true.
Proof.
  intros Hg. unfold has_label. apply existsb_exists. exists c.
  split; [| apply String.eqb_refl].
  apply list_elem_of_In, list_elem_of_fmap. exists (c, vs).
  split; [reflexivity | apply get_col_Some_In, Hg].
Qed.

Lemma drop_ignore_well_formed (labels : list string) (df : DataFrame) :
  well_formed df -> well_formed (drop_ignore labels df).
Proof.
  intros [Hnd Hrect]. split.
  - unfold columns, drop_ignore. simpl. rewrite without_labels.
    apply NoDup_ListNoDup, List.NoDup_filter, NoDup_ListNoDup, Hnd.
  - unfold rectangular, drop_ignore, nrows in *. simpl.
    rewrite Forall_forall in *. intros kv Hin. apply without_elem in Hin. auto.
Qed.

(** ** The datetime coercion on the frames the catalog classes build *)

Section Coercion.

Context {lib : Library}.

Lemma iso_or_missing_cases (v : value) :
  iso_or_missing v = true ->
  is_missing v = true \/ exists s d, v = VStr s /\ isoparse_str s = Some d.
Proof.
  destruct v; simpl; auto.
  destruct (isoparse_str s) as [d |] eqn:E; [| discriminate]. eauto.
Qed.

Lemma is_missing_iso_or_missing (v : value) :
  is_missing v = true -> iso_or_missing v = true.
Proof. destruct v; simpl; auto; discriminate. Qed.

Lemma get_col_Forall2 (R : string -> list value -> list value -> Prop)
    (l l' : list (string * list value)) (c : string) (vs : list value) :
  Forall2 (fun b a => fst a = fst b /\ R (fst b) (snd b) (snd a)) l l' ->
  get_col c l = Some vs ->
  exists vs', get_col c l' = Some vs' /\ R c vs vs'.
Proof.
  induction 1 as [| [k o] [k' n] l l' [Hk HR] _ IH]; simpl; [discriminate |].
  simpl in Hk, HR. subst k'.
  destruct (String.eqb k c) eqn:E; [| exact IH].
  apply String.eqb_eq in E. subst. intros [= ->]. eauto.
Qed.

Lemma Forall2_labels (R : string * list value -> string * list value -> Prop)
    (l l' : list (string * list value)) :
  Forall2 (fun b a => fst a = fst b /\ R b a) l l' -> map fst l' = map fst l.
Proof.
  induction 1 as [| b a l l' [Hk _] _ IH]; simpl; [reflexivity |].
  rewrite Hk, IH. reflexivity.
Qed.

(** On a frame with distinct labels whose datetime cells are all accepted,
    [convert_catalog_dtypes] returns; in a datetime column a string gives its
    timestamp and a missing cell gives [None]; in the other columns a string
    stays and a missing cell stays missing. *)
Lemma convert_catalog_dtypes_ok (df : DataFrame) :
  NoDup (columns df) ->
  datetime_cells_ok df ->
  exists out,
    convert_catalog_dtypes df = Ok out /\
    index out = index df /\
    columns out = columns df /\
    forall c vs, get_col c (data df) = Some vs ->
      exists vs', get_col c (data out) = Some vs' /\
        forall i v, vs !! i = Some v ->
          (forall s, v = VStr s ->
             if is_datetime_col c
             then exists d, isoparse_str s = Some d /\ vs' !! i = Some (VDatetime d)
             else vs' !! i = Some (VStr s)) /\
          (is_missing v = true ->
             if is_datetime_col c
             then vs' !! i = Some VNone
             else exists m, vs' !! i = Some m /\ is_missing m = true).
Proof.
  intros Hnd Hok.
  assert (Hnd' : NoDup (List.filter is_datetime_col (columns df)))
    by (apply NoDup_ListNoDup, List.NoDup_filter, NoDup_ListNoDup, Hnd).
  destruct (convert_catalog_dtypes_spec df Hnd') as (Hspec & Hret).
  assert (Hcell : forall c vs i v,
            (c, vs) ∈ data df -> is_datetime_col c = true ->
            convert_dtypes_column vs !! i = Some v -> iso_or_missing v = true).
  { intros c vs i v Hin Hdt Hi.
    assert (Hlt : i < length vs).
    { rewrite <- convert_dtypes_length. eapply lookup_lt_Some, Hi. }
    apply lookup_lt_is_Some_2 in Hlt as [v0 Hv0].
    pose proof (Hok c vs Hin Hdt) as Hall. rewrite Forall_forall in Hall.
    destruct (iso_or_missing_cases v0 (Hall v0 (list_elem_of_lookup_2 _ _ _ Hv0)))
      as [Hm | (s & d & -> & Hs)].
    - destruct (convert_dtypes_missing vs i v0 Hv0 Hm) as (v' & Hv' & Hm').
      rewrite Hi in Hv'. injection Hv' as <-. apply is_missing_iso_or_missing, Hm'.
    - rewrite (convert_dtypes_str vs i s Hv0) in Hi. injection Hi as <-.
      simpl. rewrite Hs. reflexivity. }
  destruct Hret as [_ Hret]. destruct Hret as [out Hout].
  { intros c vs' v Hin Hdt Hv.
    unfold convert_dtypes in Hin. simpl in Hin.
    apply list_elem_of_fmap in Hin as ([k vs] & [= -> ->] & Hin). simpl in *.
    apply list_elem_of_lookup_1 in Hv as [i Hi].
    pose proof (Hcell k vs i v Hin Hdt Hi) as Hv.
    destruct (iso_or_missing_cases v Hv) as [Hm | (s & d & -> & Hs)].
    - exists VNone. apply convert_utc_missing, Hm.
    - exists (VDatetime d). apply convert_utc_str_valid, Hs. }
  exists out. split; [exact Hout |].
  destruct (Hspec out Hout) as [Hidx Hrel].
  split; [exact Hidx |]. split.
  { rewrite <- (convert_dtypes_columns df). unfold columns.
    apply (Forall2_labels
             (fun b a =>
                if is_datetime_col (fst b)
                then Forall2 (fun v w =>
                                _convert_utc v = Ok w /\
                                ((exists d, isoparse v = Ok d /\ w = VDatetime d) \/
                                 w = VNone)) (snd b) (snd a)
                else snd a = snd b)).
    exact Hrel. }
  intros c vs Hg.
  assert (Hg1 : get_col c (data (convert_dtypes df)) = Some (convert_dtypes_column vs)).
  { unfold convert_dtypes. simpl.
    rewrite (get_col_map (fun _ => convert_dtypes_column)), Hg. reflexivity. }
  destruct (get_col_Forall2
              (fun k b a =>
                 if is_datetime_col k
                 then Forall2 (fun v w =>
                                 _convert_utc v = Ok w /\
                                 ((exists d, isoparse v = Ok d /\ w = VDatetime d) \/
                                  w = VNone)) b a
                 else a = b)
              _ _ c _ Hrel Hg1) as (vs' & Hg' & Hc).
  exists vs'. split; [exact Hg' |].
  intros i v Hi.
  destruct (is_datetime_col c) eqn:Hdt.
  - split.
    + intros s ->.
      pose proof (convert_dtypes_str vs i s Hi) as Hi1.
      destruct (Forall2_lookup_l _ _ _ _ _ Hc Hi1) as (w & Hw & Hconv & _).
      pose proof (Hcell c vs i (VStr s) (get_col_Some_In _ _ _ Hg) Hdt Hi1) as Hv.
      simpl in Hv. destruct (isoparse_str s) as [d |] eqn:Hs; [| discriminate].
      exists d. split; [reflexivity |].
      rewrite (convert_utc_str_valid s d Hs) in Hconv. congruence.
    + intros Hm.
      destruct (convert_dtypes_missing vs i v Hi Hm) as (v' & Hv' & Hm').
      destruct (Forall2_lookup_l _ _ _ _ _ Hc Hv') as (w & Hw & Hconv & _).
      rewrite (convert_utc_missing v' Hm') in Hconv. congruence.
  - subst vs'. split.
    + intros s ->. apply convert_dtypes_str, Hi.
    + intros Hm. apply (convert_dtypes_missing vs i v Hi Hm).
Qed.

Lemma dict_get_In (r : record) (k : string) (v : value) :
  dict_get r k = Some v -> In (k, v) r.
Proof.
  induction r as [| [k' v'] r IH]; simpl; [discriminate |].
  destruct (String.eqb k' k) eqn:E; [| auto].
  apply String.eqb_eq in E. intros [= ->]. subst. auto.
Qed.

Lemma pd_DataFrame_datetime_cells_ok (records : list record) :
  datetime_fields_ok records = true -> datetime_cells_ok (pd_DataFrame records).
Proof.
  intros Hok c vs Hin Hdt.
  apply pd_DataFrame_cells in Hin. subst vs.
  apply Forall_forall. intros v Hv.
  apply list_elem_of_fmap in Hv as (r & -> & Hr).
  destruct (dict_get r c) as [v |] eqn:Hg; simpl; [| reflexivity].
  unfold datetime_fields_ok in Hok. rewrite forallb_forall in Hok.
  specialize (Hok r (proj1 (list_elem_of_In _ _) Hr)).
  rewrite forallb_forall in Hok.
  specialize (Hok (c, v) (dict_get_In _ _ _ Hg)). simpl in Hok.
  rewrite Hdt in Hok. exact Hok.
Qed.

Lemma setitem_datetime_cells_ok (c : string) (vs : list value) (df : DataFrame) :
  datetime_cells_ok df ->
  (is_datetime_col c = true -> Forall (fun v => iso_or_missing v = true) vs) ->
  datetime_cells_ok (setitem c vs df).
Proof.
  intros Hok Hvs k ws Hin Hdt. unfold setitem in Hin. simpl in Hin.
  apply set_col_elem in Hin as [[= -> ->] | Hin]; [auto | eapply Hok; eauto].
Qed.

Lemma without_datetime_cells_ok (labels : list string) (df : DataFrame) (idx : list nat) :
  datetime_cells_ok df ->
  datetime_cells_ok (mk_df (without labels (data df)) idx).
Proof.
  intros Hok k ws Hin Hdt. simpl in Hin. apply without_elem in Hin. eapply Hok; eauto.
Qed.

End Coercion.

(** ** [CatalogIndexesData.to_dataframe] *)

Section Indexes.

Context {lib : Library}.

Lemma explode_datetime_cells_ok (column : string) (df out : DataFrame)
    (cells : list value) :
  is_datetime_col column = false ->
  datetime_cells_ok df ->
  (forall c vs, (c, vs) ∈ data out -> c <> column ->
     exists old, (c, old) ∈ data df /\
                 vs = repeat_each (map (fun v => length (explode_cell v)) cells) old) ->
  datetime_cells_ok out.
Proof.
  intros Hcol Hok Hother c vs Hin Hdt.
  destruct (Hother c vs Hin) as (old & Hold & ->); [congruence |].
  apply repeat_each_Forall. eapply Hok; eauto.
Qed.

Lemma drop_spec (labels : list string) (df : DataFrame) :
  forallb (fun l => has_label l df) labels = true ->
  drop labels df = Ok (drop_ignore labels df).
Proof. intros H. unfold drop. rewrite H. reflexivity. Qed.

(** The chain of [CatalogIndexesData] and [CatalogMarketCandlesData] on a
    well-formed frame that has a column "frequencies". *)
Lemma explode_frequencies_spec (df : DataFrame) (cells : list value) :
  well_formed df ->
  datetime_cells_ok df ->
  get_col "frequencies" (data df) = Some cells ->
  Forall (fun e => iso_or_missing (field "min_time" e) = true /\
                   iso_or_missing (field "max_time" e) = true)
         (flat_map explode_cell cells) ->
  exists out,
    explode_frequencies df = Ok out /\
    well_formed out /\
    datetime_cells_ok out /\
    nrows out = length (flat_map explode_cell cells) /\
    get_col "frequencies" (data out) = None /\
    forall k, k = "frequency" \/ k = "min_time" \/ k = "max_time" ->
      get_col k (data out) = Some (map (field k) (flat_map explode_cell cells)).
Proof.
  intros Hwf Hok Hg Htimes.
  set (entries := flat_map explode_cell cells) in *.
  destruct (explode_spec "frequencies" df cells Hwf Hg)
    as (df1 & Hex & _ & Hwf1 & Hrows1 & Hg1 & Hother).
  assert (Hok1 : datetime_cells_ok df1)
    by (apply (explode_datetime_cells_ok "frequencies" df df1 cells);
        [reflexivity | exact Hok | exact Hother]).
  fold entries in Hrows1, Hg1.
  destruct (assign_expand_df_spec "frequency" "frequency" "frequencies" df1 entries
              Hwf1 Hg1) as [Ha2 Hwf2].
  set (df2 := setitem "frequency" (map (field "frequency") entries) df1) in *.
  assert (Hg2 : get_col "frequencies" (data df2) = Some entries)
    by (unfold df2, setitem; simpl; rewrite get_col_set_col_ne by discriminate; exact Hg1).
  destruct (assign_expand_df_spec "min_time" "min_time" "frequencies" df2 entries
              Hwf2 Hg2) as [Ha3 Hwf3].
  set (df3 := setitem "min_time" (map (field "min_time") entries) df2) in *.
  assert (Hg3 : get_col "frequencies" (data df3) = Some entries)
    by (unfold df3, setitem; simpl; rewrite get_col_set_col_ne by discriminate; exact Hg2).
  destruct (assign_expand_df_spec "max_time" "max_time" "frequencies" df3 entries
              Hwf3 Hg3) as [Ha4 Hwf4].
  set (df4 := setitem "max_time" (map (field "max_time") entries) df3) in *.
  assert (Hg4 : get_col "frequencies" (data df4) = Some entries)
    by (unfold df4, setitem; simpl; rewrite get_col_set_col_ne by discriminate; exact Hg3).
  exists (drop_ignore ["frequencies"] (reset_index df4)).
  split; [| split; [| split; [| split; [| split]]]].
  - unfold explode_frequencies. rewrite Hex. simpl.
    rewrite Ha2. simpl. rewrite Ha3. simpl. rewrite Ha4. simpl.
    apply drop_spec. simpl. rewrite andb_true_r.
    apply (has_label_get_col _ (reset_index df4) entries). exact Hg4.
  - apply drop_ignore_well_formed, reset_index_well_formed, Hwf4.
  - apply without_datetime_cells_ok.
    unfold df4, df3, df2.
    apply setitem_datetime_cells_ok; [apply setitem_datetime_cells_ok;
      [apply setitem_datetime_cells_ok; [exact Hok1 | discriminate] |] |]; intros _.
    + apply Forall_fmap. eapply Forall_impl; [exact Htimes |]. simpl. tauto.
    + apply Forall_fmap. eapply Forall_impl; [exact Htimes |]. simpl. tauto.
  - unfold nrows, drop_ignore, reset_index. simpl. rewrite length_seq.
    unfold df4, df3, df2, setitem, nrows. simpl. exact Hrows1.
  - unfold drop_ignore. simpl. rewrite get_col_without. reflexivity.
  - intros k Hk. unfold drop_ignore. simpl. rewrite get_col_without.
    unfold df4, df3, df2, setitem. simpl.
    destruct Hk as [-> | [-> | ->]]; simpl.
    + rewrite !get_col_set_col_ne by discriminate. apply get_col_set_col_eq.
    + rewrite get_col_set_col_ne by discriminate. apply get_col_set_col_eq.
    + apply get_col_set_col_eq.
Qed.

Lemma exploded_frame_column (column : string) (self : list record) :
  flat_map explode_cell (map (fun r => default VNaN (dict_get r column)) self) =
  exploded column self.
Proof.
  unfold exploded. induction self as [| r self IH]; simpl; [reflexivity |].
  rewrite IH. reflexivity.
Qed.

Lemma get_col_None_label (c : string) (df : DataFrame) :
  get_col c (data df) = None -> c ∉ columns df.
Proof. intros H. apply get_col_None, H. Qed.

(** The rows of the frame of [CatalogIndexesData.to_dataframe]. *)
Lemma indexes_to_dataframe_spec (self : list record) :
  (exists r, r ∈ self /\ "frequencies" ∈ map fst r) ->
  datetime_fields_ok self = true ->
  (forall e, e ∈ exploded "frequencies" self ->
     iso_or_missing (field "min_time" e) = true /\
     iso_or_missing (field "max_time" e) = true) ->
  exists out,
    returned CatalogIndexesData_to_dataframe self = Ok out /\
    nrows out = length (exploded "frequencies" self) /\
    ("frequencies" ∉ columns out) /\
    forall i e, exploded "frequencies" self !! i = Some e ->
      (forall s, field "frequency" e = VStr s ->
         cell out "frequency" i = Some (VStr s)) /\
      (is_missing (field "frequency" e) = true ->
         exists m, cell out "frequency" i = Some m /\ is_missing m = true) /\
      (forall k, k = "min_time" \/ k = "max_time" ->
         (forall s, field k e = VStr s ->
            exists d, isoparse_str s = Some d /\ cell out k i = Some (VDatetime d)) /\
         (is_missing (field k e) = true -> cell out k i = Some VNone)).
Proof.
  intros Hkey Hfields Htimes.
  assert (Hlab : "frequencies" ∈ union_keys self) by (apply union_keys_elem, Hkey).
  pose proof (pd_DataFrame_get_col self "frequencies" Hlab) as Hg.
  destruct (explode_frequencies_spec (pd_DataFrame self) _
              (pd_DataFrame_well_formed self)
              (pd_DataFrame_datetime_cells_ok self Hfields) Hg)
    as (df & Hrun & Hwf & Hok & Hrows & Hnone & Hcols).
  { rewrite exploded_frame_column. apply Forall_forall, Htimes. }
  rewrite exploded_frame_column in Hrows, Hcols.
  destruct (convert_catalog_dtypes_ok df (proj1 Hwf) Hok)
    as (out & Hout & Hidx & Hlabels & Hcells).
  exists out. split; [| split; [| split]].
  - unfold returned, CatalogIndexesData_to_dataframe. simpl.
    rewrite Hrun. simpl. exact Hout.
  - unfold nrows in *. rewrite Hidx. exact Hrows.
  - rewrite Hlabels. apply get_col_None_label, Hnone.
  - intros i e Hi.
    assert (Hcell : forall k, k = "frequency" \/ k = "min_time" \/ k = "max_time" ->
              exists vs', get_col k (data out) = Some vs' /\
                (forall s, field k e = VStr s ->
                   if is_datetime_col k
                   then exists d, isoparse_str s = Some d /\ vs' !! i = Some (VDatetime d)
                   else vs' !! i = Some (VStr s)) /\
                (is_missing (field k e) = true ->
                   if is_datetime_col k
                   then vs' !! i = Some VNone
                   else exists m, vs' !! i = Some m /\ is_missing m = true)).
    { intros k Hk. destruct (Hcells k _ (Hcols k Hk)) as (vs' & Hg' & Hv).
      exists vs'. split; [exact Hg' |].
      destruct (Hv i (field k e)) as [Hs Hm].
      - rewrite list_lookup_fmap, Hi. reflexivity.
      - split; [intros s Hf; apply Hs, Hf | exact Hm]. }
    split; [| split].
    + intros s Hs. destruct (Hcell "frequency") as (vs' & Hg' & H1 & _); [tauto |].
      unfold cell. rewrite Hg'. exact (H1 s Hs).
    + intros Hm. destruct (Hcell "frequency") as (vs' & Hg' & _ & H2); [tauto |].
      unfold cell. rewrite Hg'. exact (H2 Hm).
    + intros k Hk. destruct (Hcell k) as (vs' & Hg' & H1 & H2); [tauto |].
      unfold cell. rewrite Hg'.
      destruct Hk as [-> | ->]; (split; [exact H1 | exact H2]).
Qed.

End Indexes.

Section IndexesRows.

Context {lib : Library}.

Lemma frequency_rows_exploded (self : list record) :
  carries_frequency_dicts self = true ->
  exploded "frequencies" self = flat_map frequency_rows self.
Proof.
  unfold carries_frequency_dicts, exploded.
  induction self as [| r self IH]; simpl; [reflexivity |].
  intros H. apply andb_true_iff in H as [Hr H]. rewrite IH by exact H.
  f_equal. unfold frequency_rows, frequency_entries.
  destruct (dict_get r "frequencies") as [[] |]; try discriminate.
  destruct items; reflexivity.
Qed.

Lemma frequency_rows_count (self : list record) :
  length (flat_map frequency_rows self) =
  length (flat_map frequency_entries self) + length (List.filter has_no_entries self).
Proof.
  induction self as [| r self IH]; simpl; [reflexivity |].
  rewrite !length_app, IH. unfold frequency_rows, has_no_entries.
  destruct (frequency_entries r); simpl; lia.
Qed.

Lemma frequency_rows_times (self : list record) (e : value) :
  frequency_times_ok self = true ->
  e ∈ flat_map frequency_rows self ->
  iso_or_missing (field "min_time" e) = true /\
  iso_or_missing (field "max_time" e) = true.
Proof.
  intros Hok He. apply list_elem_of_In, in_flat_map in He as (r & Hr & He).
  unfold frequency_times_ok in Hok. rewrite forallb_forall in Hok.
  specialize (Hok r Hr). rewrite forallb_forall in Hok.
  unfold frequency_rows in He. destruct (frequency_entries r) as [| e0 es].
  - destruct He as [<- | []]. split; reflexivity.
  - apply andb_true_iff, Hok, He.
Qed.

(** C1, as the code has it.  For every non-empty list of index records that
    each carry a list of frequency dictionaries, whose datetime fields are
    strings that the ISO parser reads or are missing, the method returns a
    frame with one row per (record, frequency entry) pair and one more row for
    every record whose list is empty; in the row of an entry the column
    "frequency" holds the field of the entry (a missing value when the entry
    has none) and the columns "min_time" and "max_time" hold the timestamps
    parsed from its fields ([None] when the entry has none); the row of a
    record without entries has no value in the three columns; and the column
    "frequencies" is dropped. *)
Theorem indexes_to_dataframe_rows (self : list record) :
  self <> [] ->
  carries_frequency_dicts self = true ->
  datetime_fields_ok self = true ->
  frequency_times_ok self = true ->
  exists out,
    returned CatalogIndexesData_to_dataframe self = Ok out /\
    nrows out = length (flat_map frequency_rows self) /\
    nrows out = length (flat_map frequency_entries self) +
                length (List.filter has_no_entries self) /\
    ("frequencies" ∉ columns out) /\
    forall i e, flat_map frequency_rows self !! i = Some e ->
      (forall s, field "frequency" e = VStr s ->
         cell out "frequency" i = Some (VStr s)) /\
      (is_missing (field "frequency" e) = true ->
         exists m, cell out "frequency" i = Some m /\ is_missing m = true) /\
      (forall k, k = "min_time" \/ k = "max_time" ->
         (forall s, field k e = VStr s ->
            exists d, isoparse_str s = Some d /\ cell out k i = Some (VDatetime d)) /\
         (is_missing (field k e) = true -> cell out k i = Some VNone)).
Proof.
  intros Hne Hcarries Hfields Htimes.
  pose proof (frequency_rows_exploded self Hcarries) as Hrows.
  destruct (indexes_to_dataframe_spec self) as (out & Hout & Hn & Hdrop & Hcells).
  - destruct self as [| r self]; [contradiction |].
    exists r. split; [left |].
    unfold carries_frequency_dicts in Hcarries. simpl in Hcarries.
    apply andb_true_iff in Hcarries as [Hr _].
    apply dict_get_key.
    destruct (dict_get r "frequencies"); [eauto | discriminate].
  - exact Hfields.
  - rewrite Hrows. intros e He. exact (frequency_rows_times self e Htimes He).
  - rewrite Hrows in Hn, Hcells.
    exists out. split; [exact Hout |]. split; [exact Hn |].
    split; [rewrite Hn; apply frequency_rows_count |].
    split; [exact Hdrop | exact Hcells].
Qed.

End IndexesRows.

(** C1, as it is worded, fails: a record whose list of frequencies is empty
    has no (record, frequency entry) pair, and yet it has a row. *)
Lemma indexes_to_dataframe_row_without_entry :
  ~ (forall (lib : Library) (self : list record) (out : DataFrame),
       carries_frequency_dicts self = true ->
       returned CatalogIndexesData_to_dataframe self = Ok out ->
       nrows out = length (flat_map frequency_entries self)).
Proof.
  intros H.
  specialize (H sample_library [[("index", VStr "X"); ("frequencies", VList [])]]).
  specialize (H _ eq_refl eq_refl).
  vm_compute in H. discriminate.
Qed.

Lemma indexes_to_dataframe_rows_witness :
  exists out,
    returned CatalogIndexesData_to_dataframe
      [[("index", VStr "X");
        ("frequencies",
         VList [VDict [("frequency", VStr "1d"); ("min_time", VStr "2020-01-01");
                       ("max_time", VStr "2021-06-30")];
                VDict [("frequency", VStr "1h")]])];
       [("index", VStr "Y"); ("frequencies", VList [])]] = Ok out /\
    nrows out = 3.
Proof.
  destruct (indexes_to_dataframe_rows (lib := sample_library)
      [[("index", VStr "X");
        ("frequencies",
         VList [VDict [("frequency", VStr "1d"); ("min_time", VStr "2020-01-01");
                       ("max_time", VStr "2021-06-30")];
                VDict [("frequency", VStr "1h")]])];
       [("index", VStr "Y"); ("frequencies", VList [])]])
    as (out & Hout & Hn & _).
  - discriminate.
  - reflexivity.
  - reflexivity.
  - reflexivity.
  - exists out. split; [exact Hout | exact Hn].
Defined.

(** ** The branch "markets" of [CatalogAssetsData.to_dataframe] *)

Lemma split_dash_0_spec (s : string) : before_first_dash s (split_dash_0 s).
Proof.
  unfold before_first_dash. induction s as [| c s [IHno IHsplit]]; simpl.
  - split; [tauto | left; reflexivity].
  - destruct (Ascii.eqb c "-") eqn:E; simpl.
    + apply Ascii.eqb_eq in E. subst c. split; [tauto |]. right. exists s. reflexivity.
    + apply Ascii.eqb_neq in E. split.
      * intros [H | H]; [congruence | contradiction].
      * destruct IHsplit as [H | [rest H]].
        -- left. congruence.
        -- right. exists rest. rewrite append_cons. congruence.
Qed.

Lemma has_key_elem (key : string) (r : record) :
  has_key key r = true <-> key ∈ map fst r.
Proof.
  unfold has_key. rewrite existsb_exists, list_elem_of_In. split.
  - intros (k & Hk & E). apply String.eqb_eq in E. subst. exact Hk.
  - intros H. exists key. split; [exact H | apply String.eqb_refl].
Qed.

Lemma exists_key_label (key : string) (records : list record) :
  existsb (has_key key) records = true -> key ∈ union_keys records.
Proof.
  rewrite existsb_exists. intros (r & Hr & Hk).
  apply union_keys_elem. exists r. split; [apply list_elem_of_In, Hr |].
  apply has_key_elem, Hk.
Qed.

Lemma no_key_label (key : string) (records : list record) :
  forallb (fun r => negb (has_key key r)) records = true -> key ∉ union_keys records.
Proof.
  rewrite forallb_forall. intros H Hin.
  apply union_keys_elem in Hin as (r & Hr & Hk).
  apply list_elem_of_In, H in Hr. apply has_key_elem in Hk. rewrite Hk in Hr. discriminate.
Qed.

Lemma NoDup_count_once (c : string) (labels : list string) :
  NoDup labels -> c ∈ labels -> length (List.filter (String.eqb c) labels) = 1.
Proof.
  induction labels as [| k labels IH]; intros Hnd Hin; [inversion Hin |].
  apply NoDup_cons in Hnd as [Hk Hnd]. simpl.
  destruct (String.eqb c k) eqn:E.
  - apply String.eqb_eq in E. subst k. simpl. f_equal.
    apply length_zero_iff_nil.
    destruct (List.filter (String.eqb c) labels) as [| x l] eqn:Hf; [reflexivity |].
    exfalso. assert (Hx : In x (List.filter (String.eqb c) labels))
      by (rewrite Hf; left; reflexivity).
    apply filter_In in Hx as [Hx Ex]. apply String.eqb_eq in Ex. subst x.
    apply Hk, list_elem_of_In, Hx.
  - apply String.eqb_neq in E. apply elem_of_cons in Hin as [? | Hin]; [congruence | auto].
Qed.

Section Renaming.

Variables (old new : string).
Variable cols : list (string * list value).
Hypothesis new_fresh : new ∉ map fst cols.
Hypothesis labels_distinct : NoDup (map fst cols).

Let renamed := map (fun kv : string * list value =>
                      (if String.eqb (fst kv) old then new else fst kv, snd kv)) cols.

Lemma rename_get_col_new (vs : list value) :
  get_col old cols = Some vs -> get_col new renamed = Some vs.
Proof.
  unfold renamed. clear labels_distinct.
  induction cols as [| [k o] l IH]; simpl in *; [discriminate |].
  destruct (String.eqb k old) eqn:E.
  - rewrite String.eqb_refl. auto.
  - destruct (String.eqb k new) eqn:E'.
    + apply String.eqb_eq in E'. subst. exfalso. apply new_fresh. left.
    + apply IH. intros H. apply new_fresh. right. exact H.
Qed.

Lemma rename_labels_NoDup : NoDup (map fst renamed).
Proof.
  unfold renamed.
  replace (map fst (map (fun kv : string * list value =>
                           (if String.eqb (fst kv) old then new else fst kv, snd kv)) cols))
    with ((fun k => if String.eqb k old then new else k) <$> map fst cols)
    by (rewrite !map_map; reflexivity).
  apply NoDup_fmap_2_strong; [| exact labels_distinct].
  intros x y Hx Hy.
  destruct (String.eqb x old) eqn:Ex, (String.eqb y old) eqn:Ey;
    try apply String.eqb_eq in Ex; try apply String.eqb_eq in Ey; intros H; subst; auto.
  - contradiction.
  - contradiction.
Qed.

Lemma rename_elem (c : string) (vs : list value) :
  (c, vs) ∈ renamed -> (c = new /\ (old, vs) ∈ cols) \/ (c <> old /\ (c, vs) ∈ cols).
Proof.
  unfold renamed. intros H.
  apply list_elem_of_fmap in H as ([k o] & [= -> ->] & Hin). simpl.
  destruct (String.eqb k old) eqn:E.
  - apply String.eqb_eq in E. subst. auto.
  - apply String.eqb_neq in E. auto.
Qed.

Lemma rename_old_gone : old <> new -> old ∉ map fst renamed.
Proof.
  intros Hne H. apply list_elem_of_fmap in H as ([c vs] & Hc & Hin). simpl in Hc. subst c.
  apply rename_elem in Hin as [[? _] | [? _]]; congruence.
Qed.

End Renaming.

Lemma fillna_get_col (column : string) (fill : value) (df : DataFrame) (c : string) :
  get_col c (data (fillna column fill df)) =
  (fun vs => if String.eqb c column
             then map (fun v => if is_missing v then fill else v) vs
             else vs) <$> get_col c (data df).
Proof.
  unfold fillna. simpl.
  induction (data df) as [| [k vs] cols IH]; simpl; [reflexivity |].
  destruct (String.eqb k column) eqn:Ek; simpl; destruct (String.eqb k c) eqn:E;
    try exact IH; apply String.eqb_eq in E; subst; rewrite Ek; reflexivity.
Qed.

Lemma fillna_columns (column : string) (fill : value) (df : DataFrame) :
  columns (fillna column fill df) = columns df.
Proof.
  unfold columns, fillna. simpl. rewrite map_map. apply map_ext.
  intros kv. destruct (String.eqb (fst kv) column); reflexivity.
Qed.

Lemma fillna_elem (column : string) (fill : value) (df : DataFrame) c vs :
  (c, vs) ∈ data (fillna column fill df) ->
  exists old, (c, old) ∈ data df /\ length vs = length old /\ (c <> column -> vs = old).
Proof.
  unfold fillna. simpl. intros H.
  apply list_elem_of_fmap in H as ([k o] & Heq & Hin). simpl in Heq.
  destruct (String.eqb k column) eqn:E.
  - apply String.eqb_eq in E. injection Heq as -> ->. exists o.
    split; [exact Hin |]. split; [apply length_map | congruence].
  - injection Heq as -> ->. exists o. auto.
Qed.

Lemma get_col_reset_drop (labels : list string) (df : DataFrame) (c : string) :
  get_col c (data (reset_index (drop_ignore labels df))) =
  if existsb (String.eqb c) labels then None else get_col c (data df).
Proof. unfold reset_index, drop_ignore. simpl. apply get_col_without. Qed.

Lemma get_col_setitem_eq (c : string) (vs : list value) (df : DataFrame) :
  get_col c (data (setitem c vs df)) = Some vs.
Proof. apply get_col_set_col_eq. Qed.

Lemma get_col_setitem_ne (c c' : string) (vs : list value) (df : DataFrame) :
  c <> c' -> get_col c' (data (setitem c vs df)) = get_col c' (data df).
Proof. apply get_col_set_col_ne. Qed.

Section AssetsMarkets.

Context {lib : Library}.

Lemma Series_apply_split_exchange (cells : list value) :
  Series_apply split_exchange
    (map (fun v => if is_missing v then VStr "" else v) cells) =
  if forallb (fun v => is_str v || is_missing v) cells
  then Ok (map (fun v => VStr (split_dash_0 (market_of v))) cells)
  else Series_apply split_exchange
         (map (fun v => if is_missing v then VStr "" else v) cells).
Proof.
  destruct (forallb _ cells) eqn:Hall; [| reflexivity].
  unfold Series_apply. induction cells as [| v cells IH]; simpl in *; [reflexivity |].
  apply andb_true_iff in Hall as [Hv Hall]. rewrite IH by exact Hall.
  destruct v; try discriminate; reflexivity.
Qed.

(** The frame of the branch "markets", before the dtype conversion. *)
Lemma assets_markets_spec (self : list record) :
  markets_ok self = true ->
  datetime_fields_ok self = true ->
  exists df,
    assets_markets (pd_DataFrame self) = Ok df /\
    well_formed df /\
    datetime_cells_ok df /\
    nrows df = length (exploded "markets" self) /\
    ("markets" ∉ columns df) /\
    ("exchanges" ∉ columns df) /\
    get_col "market" (data df) =
      Some (map (fun v => VStr (market_of v)) (exploded "markets" self)) /\
    get_col "exchange" (data df) =
      Some (map (fun v => VStr (split_dash_0 (market_of v))) (exploded "markets" self)).
Proof.
  unfold markets_ok. intros Hok Hfields.
  apply andb_true_iff in Hok as [Hok Hcells].
  apply andb_true_iff in Hok as [Hok Hnomarket].
  apply andb_true_iff in Hok as [Hmarkets Hexchanges].
  apply exists_key_label in Hmarkets, Hexchanges.
  apply no_key_label in Hnomarket.
  set (M := exploded "markets" self) in *.
  pose proof (pd_DataFrame_get_col self "markets" Hmarkets) as Hg.
  destruct (explode_spec "markets" (pd_DataFrame self) _
              (pd_DataFrame_well_formed self) Hg)
    as (df1 & Hex & Hcols1 & Hwf1 & Hrows1 & Hg1 & Hother).
  rewrite exploded_frame_column in Hrows1, Hg1. fold M in Hrows1, Hg1.
  assert (Hok1 : datetime_cells_ok df1).
  { eapply (explode_datetime_cells_ok "markets" (pd_DataFrame self) df1);
      [reflexivity | apply pd_DataFrame_datetime_cells_ok, Hfields | exact Hother]. }
  rewrite pd_DataFrame_columns in Hcols1.
  set (filled := map (fun v => if is_missing v then VStr "" else v) M).
  set (df2 := fillna "markets" (VStr "") df1).
  assert (Hg2 : get_col "markets" (data df2) = Some filled)
    by (unfold df2; rewrite fillna_get_col, Hg1; reflexivity).
  assert (Hcols2 : columns df2 = union_keys self)
    by (unfold df2; rewrite fillna_columns; exact Hcols1).
  set (df3 := rename "markets" "market" df2).
  assert (Hfresh : "market" ∉ map fst (data df2))
    by (fold (columns df2); rewrite Hcols2; exact Hnomarket).
  assert (Hnd2 : NoDup (map fst (data df2)))
    by (fold (columns df2); rewrite Hcols2; apply union_keys_NoDup).
  assert (Hg3 : get_col "market" (data df3) = Some filled)
    by (apply rename_get_col_new; assumption).
  assert (Hnd3 : NoDup (columns df3))
    by (apply rename_labels_NoDup; assumption).
  assert (Hsplit : market_exchange df3 =
                   Ok (map (fun v => VStr (split_dash_0 (market_of v))) M)).
  { unfold market_exchange, count_label.
    rewrite (NoDup_count_once "market" (columns df3) Hnd3).
    - simpl. unfold getitem. rewrite Hg3. simpl.
      unfold filled. rewrite Series_apply_split_exchange. fold M. rewrite Hcells.
      reflexivity.
    - apply list_elem_of_fmap. exists ("market", filled).
      split; [reflexivity | apply get_col_Some_In, Hg3]. }
  set (E := map (fun v => VStr (split_dash_0 (market_of v))) M) in *.
  set (df4 := setitem "exchange" E df3).
  assert (Hrect3 : rectangular df3).
  { unfold rectangular. apply Forall_forall. intros [c vs] Hin.
    apply (rename_elem "markets" "market") in Hin.
    assert (Hsome : exists k, (k, vs) ∈ data df2) by (destruct Hin as [[_ ?] | [_ ?]]; eauto).
    destruct Hsome as [k Hk].
    apply fillna_elem in Hk as (old & Hold & Hlen & _).
    destruct Hwf1 as [_ Hrect1]. unfold rectangular in Hrect1.
    rewrite Forall_forall in Hrect1. specialize (Hrect1 _ Hold).
    simpl in *. unfold nrows in *. simpl. congruence. }
  assert (Hwf4 : well_formed df4).
  { apply setitem_well_formed; [split; assumption |].
    unfold E. rewrite length_map. unfold nrows, df3, df2. simpl. exact (eq_sym Hrows1). }
  assert (Hexch : has_label "exchanges" df4 = true).
  { destruct (get_col "exchanges" (data df4)) as [vs |] eqn:Hge;
      [eapply has_label_get_col, Hge |].
    exfalso. apply get_col_None in Hge. apply Hge.
    unfold df4, setitem. simpl.
    assert (Hin3 : "exchanges" ∈ map fst (data df3)).
    { unfold df3, rename. simpl. rewrite map_map. simpl.
      apply list_elem_of_fmap. 
      assert (Hin2 : "exchanges" ∈ columns df2) by (rewrite Hcols2; exact Hexchanges).
      apply list_elem_of_fmap in Hin2 as ([k vs] & Hk & Hin2). simpl in Hk. subst k.
      exists ("exchanges", vs). split; [reflexivity | exact Hin2]. }
    destruct (get_col "exchange" (data df3)) as [old |] eqn:Hold.
    - rewrite (set_col_labels _ _ _ _ Hold). exact Hin3.
    - rewrite (set_col_labels_new _ _ _ Hold). apply elem_of_app. left. exact Hin3. }
  exists (reset_index (drop_ignore ["exchanges"] df4)).
  split; [| split; [| split; [| split; [| split; [| split; [| split]]]]]].
  - unfold assets_markets. rewrite Hex. simpl.
    fold df2. fold df3. rewrite Hsplit. simpl. fold df4.
    rewrite drop_spec by (simpl; rewrite Hexch; reflexivity). reflexivity.
  - apply reset_index_well_formed, drop_ignore_well_formed, Hwf4.
  - apply without_datetime_cells_ok.
    apply setitem_datetime_cells_ok; [| discriminate].
    intros c vs Hin Hdt.
    apply (rename_elem "markets" "market") in Hin as [[-> _] | [Hne Hin]]; [discriminate |].
    apply fillna_elem in Hin as (old & Hold & _ & Heq).
    rewrite (Heq Hne). eapply Hok1; eauto.
  - unfold nrows, reset_index, drop_ignore. simpl. rewrite length_seq.
    unfold nrows. simpl. exact Hrows1.
  - unfold columns, reset_index, drop_ignore. simpl. intros Hin.
    apply list_elem_of_fmap in Hin as ([c vs] & Hc & Hin). simpl in Hc. subst c.
    apply without_elem, set_col_elem in Hin as [[= ?] | Hin].
    apply (rename_old_gone "markets" "market" (data df2)); [discriminate |].
    apply list_elem_of_fmap. exists ("markets", vs). split; [reflexivity | exact Hin].
  - apply get_col_None. rewrite get_col_reset_drop. reflexivity.
  - rewrite get_col_reset_drop. cbn [existsb String.eqb Ascii.eqb Bool.eqb orb].
    unfold df4. rewrite get_col_setitem_ne by discriminate.
    rewrite Hg3. unfold filled. f_equal.
    apply map_ext_in. intros v Hv.
    rewrite forallb_forall in Hcells. specialize (Hcells v Hv).
    destruct v; try discriminate; reflexivity.
  - rewrite get_col_reset_drop. cbn [existsb String.eqb Ascii.eqb Bool.eqb orb].
    unfold df4. apply get_col_setitem_eq.
Qed.

End AssetsMarkets.

Lemma exploded_app (column : string) (l1 l2 : list record) :
  exploded column (l1 ++ l2) = (exploded column l1 ++ exploded column l2)%list.
Proof. unfold exploded. apply flat_map_app. Qed.

Lemma exploded_row (column : string) (before after : list record) (r : record) (j : nat) :
  j < length (explode_cell (default VNaN (dict_get r column))) ->
  exploded column (before ++ r :: after) !! (length (exploded column before) + j) =
  explode_cell (default VNaN (dict_get r column)) !! j.
Proof.
  intros Hj. rewrite exploded_app.
  rewrite lookup_app_r by lia.
  replace (length (exploded column before) + j - length (exploded column before)) with j by lia.
  change (exploded column (r :: after))
    with (explode_cell (default VNaN (dict_get r column)) ++ exploded column after)%list.
  apply lookup_app_l, Hj.
Qed.

Section AssetsMarketsRows.

Context {lib : Library}.

(** C6, as the code has it.  When some record of the list has a field
    "markets" and some record a field "exchanges", no record has a field
    "market", every market is a string or null, and the datetime fields of
    the records are strings that the ISO parser reads or are missing, the
    method with [secondary_level="markets"] returns a frame with one row per
    market of each record, and one row for a record whose "markets" is
    missing or empty; the column "market" of that row is the empty string;
    in every row the column "exchange" is the part of "market" before its
    first "-"; and the columns "markets" and "exchanges" are not in the
    frame. *)
Theorem assets_markets_rows (self : list record) :
  markets_ok self = true ->
  datetime_fields_ok self = true ->
  exists out,
    returned (CatalogAssetsData_to_dataframe (Some "markets")) self = Ok out /\
    nrows out = length (exploded "markets" self) /\
    ("markets" ∉ columns out) /\
    ("exchanges" ∉ columns out) /\
    (forall i v, exploded "markets" self !! i = Some v ->
       cell out "market" i = Some (VStr (market_of v)) /\
       cell out "exchange" i = Some (VStr (split_dash_0 (market_of v))) /\
       before_first_dash (market_of v) (split_dash_0 (market_of v))) /\
    (forall before r after, self = (before ++ r :: after)%list ->
       (dict_get r "markets" = None \/ dict_get r "markets" = Some (VList []) ->
        cell out "market" (length (exploded "markets" before)) = Some (VStr "") /\
        cell out "exchange" (length (exploded "markets" before)) = Some (VStr "")) /\
       (forall ms j m, dict_get r "markets" = Some (VList ms) ->
          ms !! j = Some (VStr m) ->
          cell out "market" (length (exploded "markets" before) + j) = Some (VStr m))).
Proof.
  intros Hok Hfields.
  destruct (assets_markets_spec self Hok Hfields)
    as (df & Hrun & Hwf & Hdt & Hrows & Hmarkets & Hexchanges & Hmarket & Hexchange).
  destruct (convert_catalog_dtypes_ok df (proj1 Hwf) Hdt)
    as (out & Hout & Hidx & Hlabels & Hcells).
  assert (Hrow : forall i v, exploded "markets" self !! i = Some v ->
            cell out "market" i = Some (VStr (market_of v)) /\
            cell out "exchange" i = Some (VStr (split_dash_0 (market_of v)))).
  { intros i v Hi. unfold cell.
    destruct (Hcells _ _ Hmarket) as (vm & -> & Hm).
    destruct (Hcells _ _ Hexchange) as (ve & -> & He).
    split.
    - refine (proj1 (Hm i (VStr (market_of v)) _) _ eq_refl).
      rewrite list_lookup_fmap, Hi. reflexivity.
    - refine (proj1 (He i (VStr (split_dash_0 (market_of v))) _) _ eq_refl).
      rewrite list_lookup_fmap, Hi. reflexivity. }
  exists out. split; [| split; [| split; [| split; [| split]]]].
  - unfold returned, CatalogAssetsData_to_dataframe. simpl.
    rewrite Hrun. simpl. exact Hout.
  - unfold nrows in *. rewrite Hidx. exact Hrows.
  - rewrite Hlabels. exact Hmarkets.
  - rewrite Hlabels. exact Hexchanges.
  - intros i v Hi. destruct (Hrow i v Hi) as [H1 H2].
    split; [exact H1 |]. split; [exact H2 | apply split_dash_0_spec].
  - intros before r after ->. split.
    + intros Hr.
      assert (Hcell : explode_cell (default VNaN (dict_get r "markets")) = [VNaN])
        by (destruct Hr as [-> | ->]; reflexivity).
      pose proof (exploded_row "markets" before after r 0) as Hi.
      rewrite Hcell, Nat.add_0_r in Hi. specialize (Hi (Nat.lt_0_succ 0)).
      exact (Hrow _ _ Hi).
    + intros ms j m Hr Hj.
      assert (Hcell : explode_cell (default VNaN (dict_get r "markets")) = ms).
      { rewrite Hr. simpl. destruct ms; [discriminate | reflexivity]. }
      pose proof (exploded_row "markets" before after r j) as Hi.
      rewrite Hcell in Hi. specialize (Hi (lookup_lt_Some _ _ _ Hj)).
      rewrite Hj in Hi. exact (proj1 (Hrow _ _ Hi)).
Qed.

End AssetsMarketsRows.

(** C6, as it is worded, fails: when no record of the list has a field
    "markets", the frame has no column to explode and the call raises
    [KeyError] instead of giving the record a row with an empty market. *)
Lemma assets_markets_all_missing :
  ~ (forall (lib : Library) (self : list record) (r : record),
       r ∈ self -> dict_get r "markets" = None ->
       exists out i,
         returned (CatalogAssetsData_to_dataframe (Some "markets")) self = Ok out /\
         cell out "market" i = Some (VStr "")).
Proof.
  intros H.
  destruct (H sample_library
              [[("asset", VStr "btc"); ("exchanges", VList [VStr "binance"])]]
              [("asset", VStr "btc"); ("exchanges", VList [VStr "binance"])])
    as (out & i & Hout & _).
  - left.
  - reflexivity.
  - vm_compute in Hout. discriminate.
Qed.

Lemma assets_markets_rows_witness :
  exists out,
    returned (CatalogAssetsData_to_dataframe (Some "markets"))
      [[("asset", VStr "btc"); ("exchanges", VList [VStr "binance"]);
        ("markets", VList [VStr "binance-btc-usdt-spot"; VStr "kraken-btc-usd-spot"])];
       [("asset", VStr "xyz")]] = Ok out /\
    nrows out = 3 /\
    cell out "exchange" 1 = Some (VStr "kraken") /\
    cell out "market" 2 = Some (VStr "").
Proof.
  destruct (assets_markets_rows (lib := sample_library)
      [[("asset", VStr "btc"); ("exchanges", VList [VStr "binance"]);
        ("markets", VList [VStr "binance-btc-usdt-spot"; VStr "kraken-btc-usd-spot"])];
       [("asset", VStr "xyz")]])
    as (out & Hout & Hn & _ & _ & Hrow & _).
  - reflexivity.
  - reflexivity.
  - exists out. split; [exact Hout |]. split; [exact Hn |]. split.
    + exact (proj1 (proj2 (Hrow 1 (VStr "kraken-btc-usd-spot") eq_refl))).
    + exact (proj1 (Hrow 2 VNaN eq_refl)).
Defined.

(** ** Where the exceptions come from *)

Lemma propagated_Ok {A} (a : A) : propagated_only (Ok a).
Proof. intros c msg. discriminate. Qed.

Lemma propagated_Err {A} (c : exn_class) : propagated_only (@Err A (Propagated c)).
Proof. intros c' msg. discriminate. Qed.

Lemma propagated_bind {A B} (m : result A) (f : A -> result B) :
  propagated_only m -> (forall a, propagated_only (f a)) -> propagated_only (m ≫= f).
Proof.
  intros Hm Hf c msg. destruct m as [a | e]; simpl.
  - apply Hf.
  - intros [= ->]. exact (Hm c msg eq_refl).
Qed.

Lemma propagated_from_library {A} (r : exn_class + A) : propagated_only (from_library r).
Proof. destruct r; intros c msg; discriminate. Qed.

Lemma propagated_try_except {A} (body handler : result A) (caught : list exn_class) :
  propagated_only body -> propagated_only handler ->
  propagated_only (try_except body caught handler).
Proof.
  intros Hb Hh c msg. unfold try_except. destruct body as [a | e]; [discriminate |].
  destruct (existsb _ caught); [apply Hh | apply Hb].
Qed.

Lemma propagated_list_map_result {A B} (f : A -> result B) (l : list A) :
  (forall x, propagated_only (f x)) -> propagated_only (list_map_result f l).
Proof.
  intros Hf. induction l as [| x l IH]; simpl; [apply propagated_Ok |].
  apply propagated_bind; [apply Hf |]. intros y.
  apply propagated_bind; [exact IH |]. intros ys. apply propagated_Ok.
Qed.

Lemma propagated_py_getitem (row : value) (key : string) :
  propagated_only (py_getitem row key).
Proof.
  unfold py_getitem. destruct row; try apply propagated_Err.
  destruct (dict_get entries key); [apply propagated_Ok | apply propagated_Err].
Qed.

Lemma propagated_getitem (c : string) (df : DataFrame) : propagated_only (getitem c df).
Proof.
  unfold getitem. destruct (get_col c (data df)); [apply propagated_Ok | apply propagated_Err].
Qed.

Lemma propagated_getattr (c : string) (df : DataFrame) : propagated_only (getattr c df).
Proof.
  unfold getattr. destruct (get_col c (data df)); [apply propagated_Ok | apply propagated_Err].
Qed.

Lemma propagated_assign (name : string) (vals : list value) (df : DataFrame) :
  propagated_only (assign name vals df).
Proof.
  unfold assign. destruct (Nat.eqb _ _); [apply propagated_Ok | apply propagated_Err].
Qed.

Lemma propagated_explode (column : string) (df : DataFrame) :
  propagated_only (explode column df).
Proof.
  unfold explode. destruct (get_col column (data df));
    [apply propagated_Ok | apply propagated_Err].
Qed.

Lemma propagated_drop (labels : list string) (df : DataFrame) :
  propagated_only (drop labels df).
Proof.
  unfold drop. destruct (forallb _ labels); [apply propagated_Ok | apply propagated_Err].
Qed.

Lemma propagated_dropna (column : string) (df : DataFrame) :
  propagated_only (dropna column df).
Proof.
  unfold dropna. destruct (get_col column (data df));
    [apply propagated_Ok | apply propagated_Err].
Qed.

Lemma propagated_expand_df (key : string) (iterable : list value) :
  propagated_only (_expand_df key iterable).
Proof. rewrite expand_df_returns. apply propagated_Ok. Qed.

Lemma propagated_split_exchange (row : value) : propagated_only (split_exchange row).
Proof. destruct row; first [apply propagated_Ok | apply propagated_Err]. Qed.

Lemma propagated_assign_metric (x : value) : propagated_only (_assign_metric x).
Proof.
  apply propagated_try_except; [apply propagated_py_getitem | apply propagated_Ok].
Qed.

Create HintDb propagated.

#[local] Hint Resolve propagated_Ok propagated_Err propagated_from_library
  propagated_py_getitem propagated_getitem propagated_getattr propagated_assign
  propagated_explode propagated_drop propagated_dropna propagated_expand_df
  propagated_split_exchange propagated_assign_metric : propagated.

(** Every step of a chain is a library call or a helper that raises nothing
    of its own. *)
Ltac propagated_chain :=
  repeat first
    [ solve [auto with propagated]
    | apply propagated_bind; [| intros ?]
    | apply propagated_list_map_result; intros ? ].

Section RaisedByTheCheck.

Context {lib : Library}.

Lemma propagated_convert_utc (x : value) : propagated_only (_convert_utc x).
Proof.
  apply propagated_try_except; [| apply propagated_Ok].
  apply propagated_bind; [| intros d; apply propagated_Ok].
  unfold isoparse. destruct x; try apply propagated_Err.
  destruct (isoparse_str s); [apply propagated_Ok | apply propagated_Err].
Qed.

Lemma propagated_convert_datetime_cols (cols : list string) (df : DataFrame) :
  propagated_only (convert_datetime_cols cols df).
Proof.
  revert df. induction cols as [| col rest IH]; intros df; simpl; [apply propagated_Ok |].
  apply propagated_bind; [apply propagated_getitem | intros series].
  apply propagated_bind; [| intros converted; apply IH].
  apply propagated_list_map_result, propagated_convert_utc.
Qed.

Lemma propagated_convert_catalog_dtypes (df : DataFrame) :
  propagated_only (convert_catalog_dtypes df).
Proof. apply propagated_convert_datetime_cols. Qed.

Lemma propagated_assign_expand_df (name key source : string) (df : DataFrame) :
  propagated_only (assign_expand_df name key source df).
Proof. unfold assign_expand_df. propagated_chain. Qed.

Lemma propagated_market_exchange (x : DataFrame) : propagated_only (market_exchange x).
Proof.
  unfold market_exchange. destruct (_ <? _)%nat; [apply propagated_Err |].
  unfold Series_apply. propagated_chain.
Qed.

Lemma propagated_assets_markets (df : DataFrame) : propagated_only (assets_markets df).
Proof.
  unfold assets_markets. pose proof propagated_market_exchange. propagated_chain.
Qed.

Lemma propagated_assets_metrics (df : DataFrame) : propagated_only (assets_metrics df).
Proof.
  unfold assets_metrics, Series_apply. pose proof propagated_assign_expand_df.
  propagated_chain.
Qed.

Lemma propagated_explode_metrics_frequencies (df : DataFrame) :
  propagated_only (explode_metrics_frequencies df).
Proof.
  unfold explode_metrics_frequencies. pose proof propagated_assign_expand_df.
  propagated_chain.
Qed.

(** What the two methods with a [secondary_level] return: the branch chosen
    by the check, then the dtype conversion. *)
Lemma assets_to_dataframe_returned (secondary_level : option string)
    (self : list record) :
  returned (CatalogAssetsData_to_dataframe secondary_level) self =
  (df_assets ←
     (if is_None secondary_level then Ok (pd_DataFrame self)
      else if py_eq_str secondary_level "markets" then assets_markets (pd_DataFrame self)
      else if py_eq_str secondary_level "metrics" then assets_metrics (pd_DataFrame self)
      else Err (Raise ValueError
                  "secondary_level must be one of None, 'markets' or 'metrics"));
   convert_catalog_dtypes df_assets).
Proof.
  unfold returned, CatalogAssetsData_to_dataframe. simpl.
  destruct (is_None secondary_level); simpl; [reflexivity |].
  destruct (py_eq_str secondary_level "markets"); simpl.
  { destruct (assets_markets (pd_DataFrame self)); reflexivity. }
  destruct (py_eq_str secondary_level "metrics"); simpl; [| reflexivity].
  destruct (assets_metrics (pd_DataFrame self)); reflexivity.
Qed.

Lemma exchanges_to_dataframe_returned (secondary_level : option string)
    (self : list record) :
  returned (CatalogExchangesData_to_dataframe secondary_level) self =
  (df_exchanges ←
     (if is_None secondary_level then Ok (pd_DataFrame self)
      else if py_eq_str secondary_level "markets" then
        df ← explode "markets" (pd_DataFrame self); Ok (rename "markets" "market" df)
      else if py_eq_str secondary_level "metrics" then
        explode_metrics_frequencies (pd_DataFrame self)
      else Err (Raise ValueError "secondary_level must be one of 'markets' or 'metrics"));
   convert_catalog_dtypes df_exchanges).
Proof.
  unfold returned, CatalogExchangesData_to_dataframe. simpl.
  destruct (is_None secondary_level); simpl; [reflexivity |].
  destruct (py_eq_str secondary_level "markets"); simpl.
  { destruct (explode "markets" (pd_DataFrame self)); reflexivity. }
  destruct (py_eq_str secondary_level "metrics"); simpl; [| reflexivity].
  destruct (explode_metrics_frequencies (pd_DataFrame self)); reflexivity.
Qed.

Lemma not_recognized (secondary_level : option string) :
  ~ recognized secondary_level ->
  is_None secondary_level = false /\
  py_eq_str secondary_level "markets" = false /\
  py_eq_str secondary_level "metrics" = false.
Proof.
  unfold recognized. intros H.
  destruct secondary_level as [s |]; simpl; [| tauto].
  split; [reflexivity |]. split; apply String.eqb_neq; intros ->; tauto.
Qed.

(** C2.  [CatalogAssetsData.to_dataframe] and
    [CatalogExchangesData.to_dataframe] raise the [ValueError] of their
    parameter check exactly when [secondary_level] is none of [None],
    "markets" and "metrics": for every other value both raise it, whatever
    the records are, and for these three values neither raises a
    [ValueError] of its own (an exception can then only come out of pandas or
    dateutil). *)
Theorem secondary_level_ValueError (self : list record)
    (secondary_level : option string) :
  (~ recognized secondary_level ->
   returned (CatalogAssetsData_to_dataframe secondary_level) self =
     Err (Raise ValueError "secondary_level must be one of None, 'markets' or 'metrics") /\
   returned (CatalogExchangesData_to_dataframe secondary_level) self =
     Err (Raise ValueError "secondary_level must be one of 'markets' or 'metrics")) /\
  (recognized secondary_level ->
   forall c msg,
     returned (CatalogAssetsData_to_dataframe secondary_level) self <> Err (Raise c msg) /\
     returned (CatalogExchangesData_to_dataframe secondary_level) self <> Err (Raise c msg)).
Proof.
  rewrite assets_to_dataframe_returned, exchanges_to_dataframe_returned.
  split.
  - intros H. destruct (not_recognized _ H) as (-> & -> & ->). split; reflexivity.
  - pose proof propagated_convert_catalog_dtypes as Hconv.
    pose proof propagated_assets_markets as Hmarkets.
    pose proof propagated_assets_metrics as Hmetrics.
    pose proof propagated_explode_metrics_frequencies as Hfreq.
    intros Hrec c msg.
    split; refine (_ c msg); (apply propagated_bind; [| intros ?; apply Hconv]);
      destruct Hrec as [-> | [-> | ->]]; simpl; propagated_chain.
Qed.

End RaisedByTheCheck.

Lemma secondary_level_ValueError_witness :
  returned (CatalogAssetsData_to_dataframe (Some "market")) [[("asset", VStr "btc")]] =
    Err (Raise ValueError "secondary_level must be one of None, 'markets' or 'metrics") /\
  returned (CatalogExchangesData_to_dataframe (Some "assets"))
    [[("exchange", VStr "kraken")]] =
    Err (Raise ValueError "secondary_level must be one of 'markets' or 'metrics") /\
  returned (CatalogAssetsData_to_dataframe None) [[("asset", VStr "btc")]] <>
    Err (Raise ValueError "secondary_level must be one of None, 'markets' or 'metrics").
Proof.
  split; [| split].
  - apply (secondary_level_ValueError (lib := sample_library)
             [[("asset", VStr "btc")]] (Some "market")).
    unfold recognized. intros [H | [H | H]]; discriminate.
  - apply (secondary_level_ValueError (lib := sample_library)
             [[("exchange", VStr "kraken")]] (Some "assets")).
    unfold recognized. intros [H | [H | H]]; discriminate.
  - apply (secondary_level_ValueError (lib := sample_library)
             [[("asset", VStr "btc")]] None).
    left. reflexivity.
Defined.

(** ** The methods as sequences of steps *)

Ltac run_chain :=
  cbn [run_steps run_step mbind result_bind];
  repeat first
    [ reflexivity
    | match goal with
      | |- context [explode ?c ?d] => destruct (explode c d)
      | |- context [assign_expand_df ?a ?b ?c ?d] => destruct (assign_expand_df a b c d)
      | |- context [drop ?l ?d] => destruct (drop l d)
      | |- context [market_exchange ?d] => destruct (market_exchange d)
      | |- context [convert_catalog_dtypes ?d] => destruct (convert_catalog_dtypes d)
      end; cbn [run_steps run_step mbind result_bind] ].

Section FixedSequence.

Context {lib : Library}.

Lemma explode_metrics_frequencies_steps (df : DataFrame) :
  (df' ← explode_metrics_frequencies df; convert_catalog_dtypes df') =
  run_steps metrics_steps df.
Proof. unfold explode_metrics_frequencies, metrics_steps. run_chain. Qed.

Lemma explode_frequencies_steps (df : DataFrame) :
  (df' ← explode_frequencies df; convert_catalog_dtypes df') =
  run_steps frequencies_steps df.
Proof. unfold explode_frequencies, frequencies_steps. run_chain. Qed.

(** A call that has a sequence of steps is that sequence, applied to the
    frame of the records. *)
Lemma to_dataframe_steps (c : to_dataframe_call) (steps : list step)
    (self : list record) :
  steps_of c = Some steps ->
  returned (to_dataframe c) self = run_steps steps (pd_DataFrame self).
Proof.
  destruct c as [secondary_level | | | secondary_level | | | | | | |];
    cbn [steps_of to_dataframe].
  - rewrite assets_to_dataframe_returned.
    destruct (is_None secondary_level); [intros [= <-]; run_chain |].
    destruct (py_eq_str secondary_level "markets"); [| discriminate].
    intros [= <-]. unfold assets_markets. run_chain.
  - intros [= <-]. change (returned CatalogAssetAlertsData_to_dataframe self)
      with (df ← explode "constituents" (pd_DataFrame self); convert_catalog_dtypes df).
    run_chain.
  - intros [= <-]. exact (explode_metrics_frequencies_steps (pd_DataFrame self)).
  - rewrite exchanges_to_dataframe_returned.
    destruct (is_None secondary_level); [intros [= <-]; run_chain |].
    destruct (py_eq_str secondary_level "markets"); [intros [= <-]; run_chain |].
    destruct (py_eq_str secondary_level "metrics"); [| discriminate].
    intros [= <-]. exact (explode_metrics_frequencies_steps (pd_DataFrame self)).
  - intros [= <-]. exact (explode_metrics_frequencies_steps (pd_DataFrame self)).
  - intros [= <-]. exact (explode_frequencies_steps (pd_DataFrame self)).
  - intros [= <-]. exact (explode_metrics_frequencies_steps (pd_DataFrame self)).
  - discriminate.
  - intros [= <-]. change (returned CatalogMetricsData_to_dataframe self)
      with (df ← explode "frequencies" (pd_DataFrame self);
            df ← assign_expand_df "frequency" "frequency" "frequencies" df;
            df ← assign_expand_df "asset" "assets" "frequencies" df;
            df ← explode "asset" df;
            df ← drop ["frequencies"] df;
            convert_catalog_dtypes (reset_index df)).
    run_chain.
  - intros [= <-]. exact (explode_metrics_frequencies_steps (pd_DataFrame self)).
  - intros [= <-]. exact (explode_frequencies_steps (pd_DataFrame self)).
Qed.

End FixedSequence.

(** ** The receiver of [to_dataframe] *)

Lemma leaves_state_ret {S A} (a : A) : leaves_state (mret a : state_result S A).
Proof. intros st. reflexivity. Qed.

Lemma leaves_state_bind {S A B} (m : state_result S A) (f : A -> state_result S B) :
  leaves_state m -> (forall a, leaves_state (f a)) -> leaves_state (m ≫= f).
Proof.
  intros Hm Hf st. simpl. specialize (Hm st).
  destruct (run m st) as [[a | e] st']; simpl in *; subst st'; [apply Hf | reflexivity].
Qed.

Lemma leaves_state_get {S} : leaves_state (get_state : state_result S S).
Proof. intros st. reflexivity. Qed.

Lemma leaves_state_raise {S A} (e : exn) : leaves_state (raise e : state_result S A).
Proof. intros st. reflexivity. Qed.

Lemma leaves_state_from_result {S A} (r : result A) :
  leaves_state (from_result r : state_result S A).
Proof. intros st. reflexivity. Qed.

Ltac leaves_state_chain :=
  repeat first
    [ apply leaves_state_ret
    | apply leaves_state_get
    | apply leaves_state_raise
    | apply leaves_state_from_result
    | apply leaves_state_bind; [| intros ?]
    | match goal with
      | |- leaves_state (if ?b then _ else _) => destruct b
      end ].

Section Receiver.

Context {lib : Library}.

Lemma pd_DataFrame_self_leaves_state : leaves_state pd_DataFrame_self.
Proof. unfold pd_DataFrame_self. leaves_state_chain. Qed.

Lemma to_dataframe_leaves_state (c : to_dataframe_call) : leaves_state (to_dataframe c).
Proof.
  pose proof pd_DataFrame_self_leaves_state as Hself.
  destruct c; simpl;
    unfold CatalogAssetsData_to_dataframe, CatalogAssetAlertsData_to_dataframe,
      CatalogAssetPairsData_to_dataframe, CatalogExchangesData_to_dataframe,
      CatalogExchangeAssetsData_to_dataframe, CatalogIndexesData_to_dataframe,
      CatalogInstitutionsData_to_dataframe, CatalogMarketsData_to_dataframe,
      CatalogMetricsData_to_dataframe, CatalogMarketMetricsData_to_dataframe,
      CatalogMarketCandlesData_to_dataframe;
    (apply leaves_state_bind; [exact Hself | intros ?]); leaves_state_chain.
Qed.

(** C8.  Every [to_dataframe] leaves its receiver as it found it: for every
    list of records and every argument, the list after the call is the list
    before it, also when the call raises, be it the [ValueError] of the
    parameter check or an exception out of pandas or dateutil. *)
Theorem to_dataframe_keeps_receiver (c : to_dataframe_call) (self : list record) :
  receiver_after (to_dataframe c) self = self /\
  (forall e, returned (to_dataframe c) self = Err e ->
             receiver_after (to_dataframe c) self = self).
Proof.
  split; [| intros e _]; apply to_dataframe_leaves_state.
Qed.

(** The frame that [to_dataframe] returns depends on the receiver through
    [pd.DataFrame(self)] only. *)
Lemma to_dataframe_reads_frame (c : to_dataframe_call) (self1 self2 : list record) :
  pd_DataFrame self1 = pd_DataFrame self2 ->
  returned (to_dataframe c) self1 = returned (to_dataframe c) self2.
Proof.
  intros H. unfold returned.
  destruct c; simpl; rewrite H; try reflexivity.
  - destruct (is_None secondary_level); simpl; [reflexivity |].
    destruct (py_eq_str secondary_level "markets"); simpl.
    { destruct (assets_markets (pd_DataFrame self2)); reflexivity. }
    destruct (py_eq_str secondary_level "metrics"); simpl; [| reflexivity].
    destruct (assets_metrics (pd_DataFrame self2)); reflexivity.
  - destruct (is_None secondary_level); simpl; [reflexivity |].
    destruct (py_eq_str secondary_level "markets"); simpl.
    { destruct (explode "markets" (pd_DataFrame self2)); reflexivity. }
    destruct (py_eq_str secondary_level "metrics"); simpl; [| reflexivity].
    destruct (explode_metrics_frequencies (pd_DataFrame self2)); reflexivity.
Qed.

(** C7.  Every [to_dataframe] is a function of the records of its receiver,
    which it leaves as they are: a call returns what it would have returned
    before any other call on the object, and the records matter through
    [pd.DataFrame(self)] only.  A call that has a sequence of steps (every
    method and level but [CatalogMarketsData] and the level "metrics" of
    [CatalogAssetsData]) is that sequence, the same for every input, applied
    to the frame of the records.  [CatalogMarketsData] joins the expansion of
    "trades", then for each of "funding_rates", "openinterest" and
    "liquidations" joins the expansion of the column if the frame has it and
    passes on if not, then drops the nested columns and coerces. *)
Theorem to_dataframe_fixed_sequence (c : to_dataframe_call) (self : list record) :
  (forall c', returned (to_dataframe c) (receiver_after (to_dataframe c') self) =
              returned (to_dataframe c) self) /\
  (forall self', pd_DataFrame self = pd_DataFrame self' ->
     returned (to_dataframe c) self = returned (to_dataframe c) self') /\
  (forall steps, steps_of c = Some steps ->
     returned (to_dataframe c) self = run_steps steps (pd_DataFrame self)) /\
  (c = OnMarkets ->
     returned (to_dataframe c) self =
       (df ← run_step (step_join_expanded "trades" "_trades") (pd_DataFrame self);
        df ← join_metadata ["funding_rates"; "openinterest"; "liquidations"] df;
        run_steps [step_drop_ignore ["trades"; "funding_rates"; "openinterest";
                                     "liquidations"];
                   step_convert_catalog_dtypes] df) /\
     forall col rest df,
       join_metadata (col :: rest) df =
       if has_label col df
       then df' ← run_step (step_join_expanded col ("_" ++ col)) df;
            join_metadata rest df'
       else join_metadata rest df).
Proof.
  split; [| split; [| split]].
  - intros c'. unfold receiver_after.
    rewrite (to_dataframe_leaves_state c' self). reflexivity.
  - intros self'. apply to_dataframe_reads_frame.
  - intros steps. apply to_dataframe_steps.
  - intros ->. split; [| reflexivity].
    change (returned (to_dataframe OnMarkets) self)
      with (df ← join_expanded "trades" "_trades" (pd_DataFrame self);
            df ← join_metadata ["funding_rates"; "openinterest"; "liquidations"] df;
            convert_catalog_dtypes
              (drop_ignore ["trades"; "funding_rates"; "openinterest"; "liquidations"] df)).
    cbn [run_step].
    destruct (join_expanded "trades" "_trades" (pd_DataFrame self)) as [df1 |];
      cbn [mbind result_bind]; [| reflexivity].
    destruct (join_metadata ["funding_rates"; "openinterest"; "liquidations"] df1)
      as [df2 |]; cbn [mbind result_bind]; [| reflexivity].
    run_chain.
Qed.

End Receiver.

Lemma to_dataframe_fixed_sequence_witness :
  returned (to_dataframe (OnExchanges (Some "markets")))
    [[("exchange", VStr "kraken"); ("markets", VList [VStr "kraken-btc-usd-spot"])]] =
  run_steps [step_explode "markets"; step_rename "markets" "market";
             step_convert_catalog_dtypes]
    (pd_DataFrame
       [[("exchange", VStr "kraken"); ("markets", VList [VStr "kraken-btc-usd-spot"])]]).
Proof.
  destruct (to_dataframe_fixed_sequence (lib := sample_library)
              (OnExchanges (Some "markets"))
              [[("exchange", VStr "kraken");
                ("markets", VList [VStr "kraken-btc-usd-spot"])]])
    as (_ & _ & Hsteps & _).
  apply Hsteps. reflexivity.
Defined.

(** ** [CatalogMarketsData.to_dataframe] is no sequence of steps *)

(** With a [join] that refuses the suffix, a sequence that has a join with
    that suffix among its steps raises on every frame. *)
Lemma run_steps_refused (steps : list step) (df : DataFrame) :
  existsb (joins_with "_funding_rates") steps = true ->
  exists e, run_steps (lib := library_with_join refusing_join_rsuffix) steps df = Err e.
Proof.
  revert df. induction steps as [| s rest IH]; intros df; [discriminate |].
  cbn [existsb run_steps]. intros H. apply orb_true_iff in H as [Hs | Hrest].
  - destruct s as [column | name key source | column fill | old new | | | labels | labels | col suffix |]; try discriminate.
    cbn [joins_with] in Hs.
    apply String.eqb_eq in Hs. subst suffix.
    cbn [run_step]. unfold join_expanded.
    destruct (getitem col df) as [series |]; cbn [mbind result_bind]; [| eauto].
    destruct (from_library _) as [expanded |]; cbn [mbind result_bind]; [| eauto].
    eexists. reflexivity.
  - destruct (run_step s df) as [df' |]; cbn [mbind result_bind]; [| eauto].
    apply IH, Hrest.
Qed.

(** A sequence without such a join does not tell the two libraries apart. *)
Lemma run_steps_same_join (steps : list step) (df : DataFrame) :
  existsb (joins_with "_funding_rates") steps = false ->
  run_steps (lib := library_with_join refusing_join_rsuffix) steps df =
  run_steps (lib := library_with_join sample_join_rsuffix) steps df.
Proof.
  revert df. induction steps as [| s rest IH]; intros df; [reflexivity |].
  cbn [existsb run_steps]. intros H. apply orb_false_iff in H as [Hs Hrest].
  assert (Hstep : run_step (lib := library_with_join refusing_join_rsuffix) s df =
                  run_step (lib := library_with_join sample_join_rsuffix) s df).
  { destruct s as [column | name key source | column fill | old new | | | labels | labels | col suffix |];
      try reflexivity. cbn [joins_with] in Hs.
    cbn [run_step]. unfold join_expanded.
    destruct (getitem col df) as [series |]; cbn [mbind result_bind]; [| reflexivity].
    destruct (from_library _) as [expanded |]; cbn [mbind result_bind]; [| reflexivity].
    cbn [join_rsuffix library_with_join]. unfold refusing_join_rsuffix.
    rewrite Hs. reflexivity. }
  rewrite Hstep. clear Hstep.
  destruct (run_step (lib := library_with_join sample_join_rsuffix) s df) as [df' |];
    cbn [mbind result_bind]; [| reflexivity].
  apply IH, Hrest.
Qed.

(** No sequence of steps is [CatalogMarketsData.to_dataframe] on every catalog
    and for every [join].  A sequence with a join under the suffix
    "_funding_rates" raises, when [join] refuses that suffix, on a catalog
    without the column "funding_rates", where the method returns a frame: it
    finds no such column and passes on.  A sequence without such a join does
    not depend on what [join] does with that suffix, where the method does,
    on a catalog with the column. *)
Lemma markets_to_dataframe_not_fixed :
  ~ (exists steps : list step,
       forall (lib : Library) (self : list record),
         returned CatalogMarketsData_to_dataframe self =
         run_steps steps (pd_DataFrame self)).
Proof.
  intros [steps H].
  destruct (existsb (joins_with "_funding_rates") steps) eqn:Hjoin.
  - specialize (H (library_with_join refusing_join_rsuffix)
                  [[("market", VStr "kraken-btc-usd-spot");
                    ("trades", VDict [("min_time", VStr "2020-01-01")])]]).
    destruct (run_steps_refused steps
                (pd_DataFrame [[("market", VStr "kraken-btc-usd-spot");
                                ("trades", VDict [("min_time", VStr "2020-01-01")])]])
                Hjoin) as [e He].
    rewrite He in H. vm_compute in H. discriminate.
  - pose proof (H (library_with_join refusing_join_rsuffix)
                  [[("market", VStr "bitmex-XBTUSD-future");
                    ("trades", VDict [("min_time", VStr "2020-01-01")]);
                    ("funding_rates", VDict [("min_time", VStr "2020-01-02")])]]) as H1.
    pose proof (H (library_with_join sample_join_rsuffix)
                  [[("market", VStr "bitmex-XBTUSD-future");
                    ("trades", VDict [("min_time", VStr "2020-01-01")]);
                    ("funding_rates", VDict [("min_time", VStr "2020-01-02")])]]) as H2.
    rewrite run_steps_same_join in H1 by exact Hjoin.
    rewrite <- H2 in H1. vm_compute in H1. discriminate.
Qed.

(** ** The example exporters *)

(** C9.  Both exporters take their API key from the environment variable
    [CM_API_KEY] when it is set to a non-empty value, and otherwise from the
    first command-line argument, [sys.argv[1]]; without such an argument
    reading it raises [IndexError]. *)
Theorem api_key_source (environ : gmap string string) (argv : list string) :
  exchange_metrics_json_exporter.api_key environ argv =
    reference_rates_json_exporter.api_key environ argv /\
  (forall key, environ !! "CM_API_KEY" = Some key -> key <> "" ->
     reference_rates_json_exporter.api_key environ argv = Ok key) /\
  (environ !! "CM_API_KEY" = None \/ environ !! "CM_API_KEY" = Some "" ->
     (forall arg, argv !! 1 = Some arg ->
        reference_rates_json_exporter.api_key environ argv = Ok arg) /\
     (argv !! 1 = None ->
        reference_rates_json_exporter.api_key environ argv = Err (Propagated IndexError))).
Proof.
  unfold exchange_metrics_json_exporter.api_key, reference_rates_json_exporter.api_key.
  split; [reflexivity |]. split.
  - intros key -> Hne. destruct key; [contradiction | reflexivity].
  - intros Henv. unfold sys_argv_item.
    assert (Hor : forall y, py_or (environ !! "CM_API_KEY") y = y)
      by (intros y; destruct Henv as [-> | ->]; reflexivity).
    rewrite Hor. split.
    + intros arg ->. reflexivity.
    + intros ->. reflexivity.
Qed.

Lemma api_key_source_witness :
  reference_rates_json_exporter.api_key {[ "CM_API_KEY" := "secret" ]} ["exporter.py"] =
    Ok "secret" /\
  reference_rates_json_exporter.api_key ∅ ["exporter.py"; "from-argv"] = Ok "from-argv".
Proof.
  destruct (api_key_source {[ "CM_API_KEY" := "secret" ]} ["exporter.py"])
    as (_ & Henv & _).
  destruct (api_key_source ∅ ["exporter.py"; "from-argv"]) as (_ & _ & Hargv).
  split.
  - apply Henv; [apply lookup_singleton_eq | discriminate].
  - apply Hargv; [left; apply lookup_empty | reflexivity].
Defined.

Import reference_rates_json_exporter.

Lemma run_submit_tasks (assets tasks : list string) (log : list event) :
  run (submit_tasks assets tasks) log =
  (Ok (tasks ++ assets)%list, (log ++ map apply_async assets)%list).
Proof.
  revert tasks log. induction assets as [| asset rest IH]; intros tasks log; simpl.
  - rewrite !app_nil_r. reflexivity.
  - rewrite IH, <- !app_assoc. reflexivity.
Qed.

Lemma run_get_tasks (export_asset_data : string -> result unit) (tasks : list string)
    (i n : nat) (log : list event) :
  exists r events,
    run (get_tasks export_asset_data i n tasks) log = (r, (log ++ events)%list) /\
    forallb is_task_event events = true.
Proof.
  revert i log. induction tasks as [| task rest IH]; intros i log; simpl.
  - exists (Ok tt), []. rewrite app_nil_r. split; reflexivity.
  - destruct (export_asset_data task) as [[] | e]; simpl.
    + destruct (IH (S i) ((log ++ [task_get task]) ++ [logger_info_processed i n])%list)
        as (r & events & -> & Hev).
      exists r, (task_get task :: logger_info_processed i n :: events).
      rewrite <- !app_assoc. split; [reflexivity | exact Hev].
    + exists (Err e), [task_get task]. split; reflexivity.
Qed.

(** The log of [export_data]: the pool is entered, one task per asset of the
    iteration is submitted, the tasks are awaited, the pool is left. *)
Lemma export_data_log (iteration : list string)
    (export_asset_data : string -> result unit) :
  exists events,
    snd (run (export_data iteration export_asset_data) []) =
      (Pool_enter 2 :: map apply_async iteration ++ events ++ [Pool_exit])%list /\
    forallb is_task_event events = true.
Proof.
  unfold export_data, with_Pool. simpl.
  rewrite run_submit_tasks. simpl.
  destruct (run_get_tasks export_asset_data iteration 1 (length iteration)
              (Pool_enter 2 :: map apply_async iteration)) as (r & events & Hrun & Hev).
  rewrite Hrun. exists events. split; [| exact Hev].
  destruct r; simpl; rewrite <- app_assoc; reflexivity.
Qed.

Lemma filter_task_events (f : event -> bool) (events : list event) :
  (forall e, is_task_event e = true -> f e = false) ->
  forallb is_task_event events = true -> List.filter f events = [].
Proof.
  intros Hf. induction events as [| e events IH]; simpl; [reflexivity |].
  intros H. apply andb_true_iff in H as [He H]. rewrite (Hf e He). auto.
Qed.

Lemma filter_submitted (asset : string) (assets : list string) :
  List.filter (submitted_for asset) (map apply_async assets) =
  map apply_async (List.filter (String.eqb asset) assets).
Proof.
  induction assets as [| a assets IH]; simpl; [reflexivity |].
  destruct (String.eqb asset a); simpl; rewrite IH; reflexivity.
Qed.

Lemma filter_all_apply_async (assets : list string) :
  List.filter is_apply_async (map apply_async assets) = map apply_async assets.
Proof. induction assets as [| a assets IH]; simpl; [| rewrite IH]; reflexivity. Qed.

Lemma filter_none_apply_async (f : event -> bool) (assets : list string) :
  (forall a, f (apply_async a) = false) ->
  List.filter f (map apply_async assets) = [].
Proof.
  intros Hf. induction assets as [| a assets IH]; simpl; [reflexivity |].
  rewrite Hf. exact IH.
Qed.

(** C10.  [export_data] of the reference-rates exporter opens one pool, with
    two workers; it submits one task per asset of [ASSETS_TO_EXPORT], each
    with that asset as its only argument, in whatever order the set is
    walked; and it never logs the warning, since [processes_count] is 2. *)
Theorem export_data_pool (iteration : list string)
    (export_asset_data : string -> result unit) :
  NoDup iteration ->
  (forall asset, asset ∈ iteration <-> asset ∈ ASSETS_TO_EXPORT) ->
  let log := snd (run (export_data iteration export_asset_data) []) in
  List.filter is_Pool_enter log = [Pool_enter 2] /\
  List.filter is_apply_async log = map apply_async iteration /\
  (forall asset, asset ∈ ASSETS_TO_EXPORT ->
     length (List.filter (submitted_for asset) log) = 1) /\
  (forall asset, asset ∉ ASSETS_TO_EXPORT ->
     List.filter (submitted_for asset) log = []) /\
  List.filter is_logger_warning log = [].
Proof.
  intros Hnd Hset log.
  destruct (export_data_log iteration export_asset_data) as (events & Hlog & Hev).
  subst log. rewrite Hlog. clear Hlog.
  assert (Hfilter : forall f,
            List.filter f (Pool_enter 2 :: map apply_async iteration ++ events ++ [Pool_exit])%list =
            (List.filter f [Pool_enter 2] ++ List.filter f (map apply_async iteration) ++
             List.filter f events ++ List.filter f [Pool_exit])%list).
  { intros f. rewrite <- !List.filter_app. reflexivity. }
  rewrite !Hfilter.
  split; [| split; [| split; [| split]]].
  - rewrite (filter_none_apply_async is_Pool_enter) by reflexivity.
    rewrite (filter_task_events is_Pool_enter events) by (try exact Hev; intros []; easy).
    reflexivity.
  - rewrite filter_all_apply_async.
    rewrite (filter_task_events is_apply_async events) by (try exact Hev; intros []; easy).
    simpl. rewrite app_nil_r. reflexivity.
  - intros asset Hin. rewrite Hfilter.
    rewrite filter_submitted.
    rewrite (filter_task_events (submitted_for asset) events)
      by (try exact Hev; intros []; easy).
    simpl. rewrite app_nil_r, length_map.
    apply NoDup_count_once; [exact Hnd | apply Hset, Hin].
  - intros asset Hout. rewrite Hfilter.
    rewrite filter_submitted.
    rewrite (filter_task_events (submitted_for asset) events)
      by (try exact Hev; intros []; easy).
    simpl. rewrite app_nil_r.
    destruct (List.filter (String.eqb asset) iteration) as [| a l] eqn:Hf; [reflexivity |].
    exfalso. apply Hout, Hset.
    assert (Ha : In a (List.filter (String.eqb asset) iteration))
      by (rewrite Hf; left; reflexivity).
    apply filter_In in Ha as [Ha E]. apply String.eqb_eq in E. subst a.
    apply list_elem_of_In, Ha.
  - rewrite (filter_none_apply_async is_logger_warning) by reflexivity.
    rewrite (filter_task_events is_logger_warning events)
      by (try exact Hev; intros []; easy).
    reflexivity.
Qed.

Lemma export_data_pool_witness :
  List.filter is_apply_async
    (snd (run (export_data ["eth"; "btc"] (fun _ => Ok tt)) [])) =
  [apply_async "eth"; apply_async "btc"].
Proof.
  apply (export_data_pool ["eth"; "btc"] (fun _ => Ok tt)).
  - apply NoDup_cons. split; [| apply NoDup_singleton].
    intros H. apply list_elem_of_singleton in H. discriminate.
  - intros asset. unfold ASSETS_TO_EXPORT.
    rewrite elem_of_union, !elem_of_singleton, elem_of_cons, list_elem_of_singleton.
    tauto.
Defined.

(** * Further properties of the catalog classes *)

(** ** A catalog without the column a method needs *)

Lemma no_record_no_column (key : string) (self : list record) :
  no_record_has key self = true -> get_col key (data (pd_DataFrame self)) = None.
Proof.
  intros H. apply get_col_None. fold (columns (pd_DataFrame self)).
  rewrite pd_DataFrame_columns. apply no_key_label, H.
Qed.

Lemma explode_missing (column : string) (df : DataFrame) :
  get_col column (data df) = None -> explode column df = Err (Propagated KeyError).
Proof. intros H. unfold explode. rewrite H. reflexivity. Qed.

Section MissingColumn.

Context {lib : Library}.

(** X1.  A catalog in which no record has the field that a [to_dataframe]
    reads first (in particular an empty catalog) makes the call raise:
    [KeyError] for the methods that start with [explode] of "frequencies",
    "metrics", "markets" or "constituents" or with [df["trades"]], and
    [AttributeError] for [CatalogAssetsData] with "metrics", which starts with
    [df_assets.asset]. *)
Theorem to_dataframe_missing_column (c : to_dataframe_call) (self : list record)
    (column : string) (e : exn_class) :
  first_column c = Some (column, e) ->
  no_record_has column self = true ->
  returned (to_dataframe c) self = Err (Propagated e).
Proof.
  intros Hfirst Hno.
  pose proof (no_record_no_column column self Hno) as Hg.
  pose proof (explode_missing column (pd_DataFrame self) Hg) as Hex.
  unfold returned.
  destruct c; simpl in Hfirst;
    try (injection Hfirst as <- <-; simpl;
         unfold explode_metrics_frequencies, explode_frequencies, join_expanded, getitem;
         first [rewrite Hex | rewrite Hg]; reflexivity).
  - destruct (is_None secondary_level) eqn:Hn; [discriminate |].
    simpl. rewrite Hn.
    destruct (py_eq_str secondary_level "markets") eqn:Hm.
    + injection Hfirst as <- <-. simpl. unfold assets_markets. rewrite Hex. reflexivity.
    + destruct (py_eq_str secondary_level "metrics") eqn:Hme; [| discriminate].
      injection Hfirst as <- <-. simpl. unfold assets_metrics, getattr. rewrite Hg.
      reflexivity.
  - destruct (is_None secondary_level) eqn:Hn; [discriminate |].
    simpl. rewrite Hn.
    destruct (py_eq_str secondary_level "markets") eqn:Hm.
    + injection Hfirst as <- <-. simpl. rewrite Hex. reflexivity.
    + destruct (py_eq_str secondary_level "metrics") eqn:Hme; [| discriminate].
      injection Hfirst as <- <-. simpl. unfold explode_metrics_frequencies.
      rewrite Hex. reflexivity.
Qed.

End MissingColumn.

Lemma to_dataframe_missing_column_witness :
  returned (to_dataframe OnIndexes) [] = Err (Propagated KeyError) /\
  returned (to_dataframe (OnAssets (Some "metrics")))
    [[("full_name", VStr "Bitcoin")]] = Err (Propagated AttributeError).
Proof.
  split.
  - apply (to_dataframe_missing_column (lib := sample_library) OnIndexes [] "frequencies");
      reflexivity.
  - apply (to_dataframe_missing_column (lib := sample_library)
             (OnAssets (Some "metrics")) [[("full_name", VStr "Bitcoin")]] "asset");
      reflexivity.
Defined.

(** ** What the reshaping leaves of the records *)

Lemma explode_inv (column : string) (df out : DataFrame) :
  explode column df = Ok out ->
  exists cells,
    get_col column (data df) = Some cells /\
    index out = repeat_each (map (fun v => length (explode_cell v)) cells) (index df) /\
    forall c, c <> column ->
      get_col c (data out) =
      fmap (repeat_each (map (fun v => length (explode_cell v)) cells))
           (get_col c (data df)).
Proof.
  unfold explode. destruct (get_col column (data df)) as [cells |]; [| discriminate].
  intros [= <-]. exists cells. split; [reflexivity |]. split; [reflexivity |].
  intros c Hne. simpl.
  induction (data df) as [| [k vs] cols IH]; simpl; [reflexivity |].
  destruct (String.eqb k column) eqn:E; simpl.
  - apply String.eqb_eq in E. subst k.
    destruct (String.eqb column c) eqn:E'; [| exact IH].
    apply String.eqb_eq in E'. congruence.
  - destruct (String.eqb k c); [reflexivity | exact IH].
Qed.

Lemma set_col_label_elem (c k : string) (vs : list value) cols :
  c ∈ map fst (set_col k vs cols) <-> c = k \/ c ∈ map fst cols.
Proof.
  induction cols as [| [k' o] cols IH]; simpl.
  - rewrite list_elem_of_singleton, elem_of_nil. tauto.
  - destruct (String.eqb k' k) eqn:E; simpl; rewrite !elem_of_cons.
    + apply String.eqb_eq in E. subst. tauto.
    + rewrite IH. tauto.
Qed.

Lemma without_label_elem (labels : list string) (c : string) cols :
  c ∈ map fst (without labels cols) <-> (c ∉ labels) /\ c ∈ map fst cols.
Proof.
  rewrite without_labels, list_elem_of_In, filter_In, <- list_elem_of_In.
  rewrite negb_true_iff. split.
  - intros [Hin Hex]. split; [| exact Hin].
    intros Hl. assert (existsb (String.eqb c) labels = true); [| congruence].
    apply existsb_exists. exists c. split; [apply list_elem_of_In, Hl | apply String.eqb_refl].
  - intros [Hl Hin]. split; [exact Hin |].
    destruct (existsb (String.eqb c) labels) eqn:E; [| reflexivity].
    apply existsb_exists in E as (x & Hx & Ex). apply String.eqb_eq in Ex. subst x.
    exfalso. apply Hl, list_elem_of_In, Hx.
Qed.

Lemma exploded_with_snd (column : string) (self : list record) :
  map snd (exploded_with column self) = exploded column self.
Proof.
  unfold exploded_with, exploded. induction self as [| r self IH]; simpl; [reflexivity |].
  rewrite map_app, IH, map_map. simpl. rewrite map_id. reflexivity.
Qed.

Lemma exploded_with_length (column : string) (self : list record) :
  length (exploded_with column self) = length (exploded column self).
Proof. rewrite <- exploded_with_snd. symmetry. apply length_map. Qed.

Lemma replicate_map {A B} (l : list A) (x : B) :
  replicate (length l) x = map (fun _ => x) l.
Proof. induction l as [| a l IH]; simpl; [| rewrite IH]; reflexivity. Qed.

(** The cells of another column after [explode]: each row has the cell of
    the record it comes from. *)
Lemma repeat_each_records {B} (column : string) (g : record -> B) (self : list record) :
  repeat_each (explode_counts column self) (map g self) =
  map (fun re => g (fst re)) (exploded_with column self).
Proof.
  unfold explode_counts, exploded_with.
  induction self as [| r self IH]; simpl; [reflexivity |].
  rewrite IH, map_app, map_map. simpl. f_equal. apply replicate_map.
Qed.

Lemma explode_counts_cells (column : string) (self : list record) :
  map (fun v => length (explode_cell v))
      (map (fun r => default VNaN (dict_get r column)) self) =
  explode_counts column self.
Proof. unfold explode_counts. rewrite map_map. reflexivity. Qed.

Section FlatFrame.

Context {lib : Library}.

(** X2.  With [secondary_level=None], [CatalogAssetsData.to_dataframe] and
    [CatalogExchangesData.to_dataframe] return the frame of the records as
    they are: one row per record, numbered from 0; a column per key that some
    record has, in the order in which the keys are first met; a string field
    is kept, or replaced by its timestamp in a column named "time" or ending
    in "_time"; and a record without the key has a missing value there, which
    is [None] in such a datetime column.  The datetime fields must be strings
    that the ISO parser reads, or be missing. *)
Theorem to_dataframe_None_flat (self : list record) :
  datetime_fields_ok self = true ->
  exists out,
    returned (CatalogAssetsData_to_dataframe None) self = Ok out /\
    returned (CatalogExchangesData_to_dataframe None) self = Ok out /\
    index out = seq 0 (length self) /\
    columns out = union_keys self /\
    forall i r k, self !! i = Some r -> k ∈ union_keys self ->
      (forall s, dict_get r k = Some (VStr s) ->
         if is_datetime_col k
         then exists d, isoparse_str s = Some d /\ cell out k i = Some (VDatetime d)
         else cell out k i = Some (VStr s)) /\
      (dict_get r k = None ->
         if is_datetime_col k
         then cell out k i = Some VNone
         else exists m, cell out k i = Some m /\ is_missing m = true).
Proof.
  intros Hfields.
  destruct (convert_catalog_dtypes_ok (pd_DataFrame self)
              (proj1 (pd_DataFrame_well_formed self))
              (pd_DataFrame_datetime_cells_ok self Hfields))
    as (out & Hout & Hidx & Hlabels & Hcells).
  exists out. split; [| split; [| split; [| split]]].
  - unfold returned, CatalogAssetsData_to_dataframe. simpl. exact Hout.
  - unfold returned, CatalogExchangesData_to_dataframe. simpl. exact Hout.
  - rewrite Hidx. reflexivity.
  - rewrite Hlabels. apply pd_DataFrame_columns.
  - intros i r k Hi Hk.
    destruct (Hcells k _ (pd_DataFrame_get_col self k Hk)) as (vs' & Hg' & Hv).
    unfold cell. rewrite Hg'.
    destruct (Hv i (default VNaN (dict_get r k))) as [Hs Hm].
    { rewrite list_lookup_fmap, Hi. reflexivity. }
    split.
    + intros s Hr. apply Hs. rewrite Hr. reflexivity.
    + intros Hr. apply Hm. rewrite Hr. reflexivity.
Qed.

End FlatFrame.

Lemma to_dataframe_None_flat_witness :
  exists out,
    returned (CatalogExchangesData_to_dataframe None)
      [[("exchange", VStr "kraken"); ("min_time", VStr "2013-10-22")];
       [("exchange", VStr "bitmex")]] = Ok out /\
    index out = [0; 1] /\
    columns out = ["exchange"; "min_time"].
Proof.
  destruct (to_dataframe_None_flat (lib := sample_library)
              [[("exchange", VStr "kraken"); ("min_time", VStr "2013-10-22")];
               [("exchange", VStr "bitmex")]])
    as (out & _ & Hout & Hidx & Hcols & _).
  - reflexivity.
  - exists out. split; [exact Hout |]. split; [exact Hidx | exact Hcols].
Defined.

(** ** The two classes whose records carry "frequencies" *)

Lemma explode_keeps_columns (column : string) (df out : DataFrame) :
  explode column df = Ok out -> columns out = columns df.
Proof.
  unfold explode. destruct (get_col column (data df)); [| discriminate].
  intros [= <-]. unfold columns. simpl. rewrite map_map.
  apply map_ext. intros kv. destruct (String.eqb (fst kv) column); reflexivity.
Qed.

Lemma assign_expand_df_inv (name key source : string) (df out : DataFrame) :
  assign_expand_df name key source df = Ok out ->
  exists iterable,
    get_col source (data df) = Some iterable /\
    out = setitem name (map (field key) iterable) df.
Proof.
  unfold assign_expand_df, getattr.
  destruct (get_col source (data df)) as [iterable |]; simpl; [| discriminate].
  rewrite expand_df_returns. simpl. unfold assign.
  destruct (Nat.eqb _ _); [| discriminate].
  intros [= <-]. eauto.
Qed.

Lemma drop_inv (labels : list string) (df out : DataFrame) :
  drop labels df = Ok out -> out = drop_ignore labels df.
Proof.
  unfold drop. destruct (forallb _ labels); [| discriminate]. intros [= <-]. reflexivity.
Qed.

Lemma get_col_drop_reset (labels : list string) (df : DataFrame) (c : string) :
  get_col c (data (drop_ignore labels (reset_index df))) =
  if existsb (String.eqb c) labels then None else get_col c (data df).
Proof. unfold reset_index, drop_ignore. simpl. apply get_col_without. Qed.

Lemma bind_Ok_inv {A B} (m : result A) (f : A -> result B) (b : B) :
  m ≫= f = Ok b -> exists a, m = Ok a /\ f a = Ok b.
Proof. destruct m as [a | e]; simpl; [eauto | discriminate]. Qed.

(** What the chain on "frequencies" does to the index, the labels and the
    columns it does not write. *)
Lemma explode_frequencies_inv (df out : DataFrame) :
  explode_frequencies df = Ok out ->
  exists cells,
    get_col "frequencies" (data df) = Some cells /\
    index out =
      seq 0 (length (repeat_each (map (fun v => length (explode_cell v)) cells)
                                 (index df))) /\
    (forall c, c ∈ columns out <->
       c <> "frequencies" /\
       (c ∈ columns df \/ c = "frequency" \/ c = "min_time" \/ c = "max_time")) /\
    forall k, k <> "frequencies" -> k <> "frequency" -> k <> "min_time" ->
              k <> "max_time" ->
      get_col k (data out) =
      fmap (repeat_each (map (fun v => length (explode_cell v)) cells))
           (get_col k (data df)).
Proof.
  unfold explode_frequencies. intros H.
  apply bind_Ok_inv in H as (df1 & H1 & H).
  apply bind_Ok_inv in H as (df2 & H2 & H).
  apply bind_Ok_inv in H as (df3 & H3 & H).
  apply bind_Ok_inv in H as (df4 & H4 & H).
  apply drop_inv in H.
  pose proof (explode_keeps_columns _ _ _ H1) as Hcols1.
  apply explode_inv in H1 as (cells & Hg & Hidx1 & Hother1).
  apply assign_expand_df_inv in H2 as (it2 & _ & ->).
  apply assign_expand_df_inv in H3 as (it3 & _ & ->).
  apply assign_expand_df_inv in H4 as (it4 & _ & ->).
  subst out. exists cells. split; [exact Hg |]. split; [| split].
  - unfold drop_ignore, reset_index, nrows, setitem. simpl. rewrite Hidx1. reflexivity.
  - intros c. unfold columns, drop_ignore, reset_index, setitem. simpl.
    rewrite without_label_elem, !set_col_label_elem, list_elem_of_singleton.
    fold (columns df1). rewrite Hcols1. tauto.
  - intros k Hk1 Hk2 Hk3 Hk4. rewrite get_col_drop_reset.
    replace (existsb (String.eqb k) ["frequencies"]) with false.
    + rewrite !get_col_setitem_ne by congruence. apply Hother1, Hk1.
    + simpl. symmetry. rewrite orb_false_r. apply String.eqb_neq, Hk1.
Qed.

Section Frequencies.

Context {lib : Library}.

(** X3.  [CatalogMarketCandlesData.to_dataframe] and
    [CatalogIndexesData.to_dataframe] do the same to a catalog.  When some
    record has a field "frequencies" and the datetime fields are strings that
    the ISO parser reads or are missing, they return a frame whose rows are
    the exploded frequencies, numbered from 0; whose labels are pairwise
    distinct and are the keys of the records without "frequencies", with
    "frequency", "min_time" and "max_time"; in which a row has the
    "frequency" and the parsed "min_time" and "max_time" of its entry; and in
    which every other field of the record the row comes from is repeated:
    a string is kept (parsed in a datetime column), a field that the record
    lacks is missing. *)
Theorem frequencies_to_dataframe_rows (self : list record) :
  existsb (has_key "frequencies") self = true ->
  datetime_fields_ok self = true ->
  entry_times_ok (exploded "frequencies" self) = true ->
  exists out,
    returned CatalogMarketCandlesData_to_dataframe self = Ok out /\
    returned CatalogIndexesData_to_dataframe self = Ok out /\
    index out = seq 0 (length (exploded_with "frequencies" self)) /\
    NoDup (columns out) /\
    (forall c, c ∈ columns out <->
       c <> "frequencies" /\
       (c ∈ union_keys self \/ c = "frequency" \/ c = "min_time" \/ c = "max_time")) /\
    forall i r e, exploded_with "frequencies" self !! i = Some (r, e) ->
      (forall s, field "frequency" e = VStr s ->
         cell out "frequency" i = Some (VStr s)) /\
      (forall k s, k = "min_time" \/ k = "max_time" -> field k e = VStr s ->
         exists d, isoparse_str s = Some d /\ cell out k i = Some (VDatetime d)) /\
      (forall k, k = "min_time" \/ k = "max_time" -> is_missing (field k e) = true ->
         cell out k i = Some VNone) /\
      (forall k, k ∈ union_keys self ->
         k <> "frequencies" -> k <> "frequency" -> k <> "min_time" -> k <> "max_time" ->
         (forall s, dict_get r k = Some (VStr s) ->
            if is_datetime_col k
            then exists d, isoparse_str s = Some d /\ cell out k i = Some (VDatetime d)
            else cell out k i = Some (VStr s)) /\
         (dict_get r k = None ->
            if is_datetime_col k
            then cell out k i = Some VNone
            else exists m, cell out k i = Some m /\ is_missing m = true)).
Proof.
  intros Hkey Hfields Htimes.
  pose proof (exists_key_label _ _ Hkey) as Hlab.
  pose proof (pd_DataFrame_get_col self "frequencies" Hlab) as Hg.
  destruct (explode_frequencies_spec (pd_DataFrame self) _
              (pd_DataFrame_well_formed self)
              (pd_DataFrame_datetime_cells_ok self Hfields) Hg)
    as (df & Hrun & Hwf & Hok & Hrows & Hnone & Hentry).
  { rewrite exploded_frame_column. apply Forall_forall. intros e He.
    unfold entry_times_ok in Htimes. rewrite forallb_forall in Htimes.
    apply andb_true_iff, Htimes, list_elem_of_In, He. }
  rewrite exploded_frame_column in Hrows, Hentry.
  destruct (explode_frequencies_inv _ _ Hrun) as (cells & Hg' & Hidx & Hlabels & Hother).
  rewrite Hg in Hg'. injection Hg' as <-.
  rewrite explode_counts_cells in Hidx, Hother.
  destruct (convert_catalog_dtypes_ok df (proj1 Hwf) Hok)
    as (out & Hout & Hidx' & Hlabels' & Hcells).
  assert (Hrun' : returned CatalogIndexesData_to_dataframe self = Ok out).
  { unfold returned, CatalogIndexesData_to_dataframe. simpl. rewrite Hrun. exact Hout. }
  exists out. split; [exact Hrun' |]. split; [exact Hrun' |].
  split; [| split; [| split]].
  - rewrite Hidx', Hidx. f_equal.
    change (index (pd_DataFrame self)) with (seq 0 (length self)).
    rewrite <- (map_id (seq 0 (length self))).
    rewrite repeat_each_length by (unfold explode_counts; rewrite !length_map, length_seq;
                                    reflexivity).
    rewrite exploded_with_length. unfold exploded, explode_counts.
    rewrite flat_map_length. reflexivity.
  - rewrite Hlabels'. exact (proj1 Hwf).
  - intros c. rewrite Hlabels', Hlabels, pd_DataFrame_columns. reflexivity.
  - intros i r e Hi.
    assert (He : exploded "frequencies" self !! i = Some e).
    { rewrite <- exploded_with_snd, list_lookup_fmap, Hi. reflexivity. }
    assert (Hcell : forall k, k = "frequency" \/ k = "min_time" \/ k = "max_time" ->
              exists vs', get_col k (data out) = Some vs' /\
                (forall s, field k e = VStr s ->
                   if is_datetime_col k
                   then exists d, isoparse_str s = Some d /\ vs' !! i = Some (VDatetime d)
                   else vs' !! i = Some (VStr s)) /\
                (is_missing (field k e) = true ->
                   if is_datetime_col k
                   then vs' !! i = Some VNone
                   else exists m, vs' !! i = Some m /\ is_missing m = true)).
    { intros k Hk. destruct (Hcells k _ (Hentry k Hk)) as (vs' & Hg' & Hv).
      exists vs'. split; [exact Hg' |].
      destruct (Hv i (field k e)) as [Hs Hm].
      - rewrite list_lookup_fmap, He. reflexivity.
      - split; [intros s Hf; apply Hs, Hf | exact Hm]. }
    split; [| split; [| split]].
    + intros s Hs. destruct (Hcell "frequency") as (vs' & Hg' & H1 & _); [tauto |].
      unfold cell. rewrite Hg'. exact (H1 s Hs).
    + intros k s Hk Hs. destruct (Hcell k) as (vs' & Hg' & H1 & _); [tauto |].
      unfold cell. rewrite Hg'. destruct Hk as [-> | ->]; exact (H1 s Hs).
    + intros k Hk Hm. destruct (Hcell k) as (vs' & Hg' & _ & H2); [tauto |].
      unfold cell. rewrite Hg'. destruct Hk as [-> | ->]; exact (H2 Hm).
    + intros k Hk Hk1 Hk2 Hk3 Hk4.
      pose proof (Hother k Hk1 Hk2 Hk3 Hk4) as Hgk.
      rewrite (pd_DataFrame_get_col self k Hk) in Hgk. simpl in Hgk.
      rewrite (repeat_each_records "frequencies"
                 (fun r => default VNaN (dict_get r k)) self) in Hgk.
      destruct (Hcells k _ Hgk) as (vs' & Hg' & Hv).
      unfold cell. rewrite Hg'.
      destruct (Hv i (default VNaN (dict_get r k))) as [Hs Hm].
      { rewrite list_lookup_fmap, Hi. reflexivity. }
      split.
      * intros s Hr. apply Hs. rewrite Hr. reflexivity.
      * intros Hr. apply Hm. rewrite Hr. reflexivity.
Qed.

End Frequencies.

Lemma frequencies_to_dataframe_rows_witness :
  exists out,
    returned CatalogMarketCandlesData_to_dataframe
      [[("market", VStr "kraken-btc-usd-spot");
        ("frequencies", VList [VDict [("frequency", VStr "1d");
                                      ("min_time", VStr "2013-10-22")];
                               VDict [("frequency", VStr "1h")]])];
       [("market", VStr "bitmex-XBTUSD-future")]] = Ok out /\
    index out = [0; 1; 2] /\
    cell out "market" 1 = Some (VStr "kraken-btc-usd-spot").
Proof.
  destruct (frequencies_to_dataframe_rows (lib := sample_library)
      [[("market", VStr "kraken-btc-usd-spot");
        ("frequencies", VList [VDict [("frequency", VStr "1d");
                                      ("min_time", VStr "2013-10-22")];
                               VDict [("frequency", VStr "1h")]])];
       [("market", VStr "bitmex-XBTUSD-future")]])
    as (out & Hout & _ & Hidx & _ & _ & Hrows).
  - reflexivity.
  - reflexivity.
  - reflexivity.
  - exists out. split; [exact Hout |]. split; [exact Hidx |].
    destruct (Hrows 1 _ _ eq_refl) as (_ & _ & _ & Hrec).
    refine (proj1 (Hrec "market" _ _ _ _ _) _ eq_refl); try discriminate.
    apply union_keys_elem. eexists. split; [left |]. left.
Defined.

(** ** The chain on "metrics" *)

Lemma flat_map_with_snd {A B} (h : A -> list B) (xs : list A) :
  map snd (flat_map (fun x => map (fun e => (x, e)) (h x)) xs) = flat_map h xs.
Proof.
  induction xs as [| x xs IH]; simpl; [reflexivity |].
  rewrite map_app, IH, map_map. simpl. rewrite map_id. reflexivity.
Qed.

Lemma repeat_each_with {A B C} (h : A -> list B) (g : A -> C) (xs : list A) :
  repeat_each (map (fun x => length (h x)) xs) (map g xs) =
  map (fun xe => g (fst xe)) (flat_map (fun x => map (fun e => (x, e)) (h x)) xs).
Proof.
  induction xs as [| x xs IH]; simpl; [reflexivity |].
  rewrite IH, map_app, map_map. simpl. f_equal. apply replicate_map.
Qed.

Section Steps.

Context {lib : Library}.

(** One [explode] of a column that is not a datetime column. *)
Lemma explode_step (column : string) (df : DataFrame) (cells : list value) :
  well_formed df ->
  datetime_cells_ok df ->
  is_datetime_col column = false ->
  get_col column (data df) = Some cells ->
  exists out,
    explode column df = Ok out /\
    well_formed out /\
    datetime_cells_ok out /\
    columns out = columns df /\
    index out = repeat_each (map (fun v => length (explode_cell v)) cells) (index df) /\
    get_col column (data out) = Some (flat_map explode_cell cells) /\
    forall c, c <> column ->
      get_col c (data out) =
      fmap (repeat_each (map (fun v => length (explode_cell v)) cells))
           (get_col c (data df)).
Proof.
  intros Hwf Hok Hcol Hg.
  destruct (explode_spec column df cells Hwf Hg)
    as (out & Hex & Hcols & Hwf' & _ & Hg' & Hother).
  exists out. split; [exact Hex |]. split; [exact Hwf' |].
  split; [exact (explode_datetime_cells_ok column df out cells Hcol Hok Hother) |].
  split; [exact Hcols |].
  destruct (explode_inv _ _ _ Hex) as (cells' & Hgc & Hidx & Hinv).
  rewrite Hg in Hgc. injection Hgc as <-.
  split; [exact Hidx |]. split; [exact Hg' | exact Hinv].
Qed.

(** One [assign] of a field of the cells of a column. *)
Lemma assign_step (name key source : string) (df : DataFrame) (iterable : list value) :
  well_formed df ->
  datetime_cells_ok df ->
  get_col source (data df) = Some iterable ->
  (is_datetime_col name = true ->
   Forall (fun v => iso_or_missing v = true) (map (field key) iterable)) ->
  assign_expand_df name key source df = Ok (setitem name (map (field key) iterable) df) /\
  well_formed (setitem name (map (field key) iterable) df) /\
  datetime_cells_ok (setitem name (map (field key) iterable) df).
Proof.
  intros Hwf Hok Hg Hdt.
  destruct (assign_expand_df_spec name key source df iterable Hwf Hg) as [Hrun Hwf'].
  split; [exact Hrun |]. split; [exact Hwf' |].
  apply setitem_datetime_cells_ok; assumption.
Qed.

Lemma entry_times_Forall (entries : list value) (k : string) :
  entry_times_ok entries = true -> k = "min_time" \/ k = "max_time" ->
  Forall (fun v => iso_or_missing v = true) (map (field k) entries).
Proof.
  unfold entry_times_ok. rewrite forallb_forall. intros H Hk.
  apply Forall_fmap, Forall_forall. intros e He. simpl.
  apply list_elem_of_In, H, andb_true_iff in He as [H1 H2].
  destruct Hk as [-> | ->]; assumption.
Qed.

(** The chain on "metrics" on a well-formed frame that has the column. *)
Lemma explode_metrics_frequencies_spec (df : DataFrame) (cells : list value) :
  well_formed df ->
  datetime_cells_ok df ->
  get_col "metrics" (data df) = Some cells ->
  entry_times_ok
    (flat_map explode_cell (map (field "frequencies") (flat_map explode_cell cells))) = true ->
  let metrics := flat_map explode_cell cells in
  let counts1 := map (fun v => length (explode_cell v)) cells in
  let counts2 := map (fun v => length (explode_cell v)) (map (field "frequencies") metrics) in
  let entries := flat_map explode_cell (map (field "frequencies") metrics) in
  exists out,
    explode_metrics_frequencies df = Ok out /\
    well_formed out /\
    datetime_cells_ok out /\
    index out = seq 0 (length (repeat_each counts2 (repeat_each counts1 (index df)))) /\
    (forall c, c ∈ columns out <->
       c <> "metrics" /\ c <> "frequencies" /\
       (c ∈ columns df \/ c = "metric" \/ c = "frequency" \/ c = "min_time" \/
        c = "max_time")) /\
    get_col "metric" (data out) = Some (repeat_each counts2 (map (field "metric") metrics)) /\
    (forall k, k = "frequency" \/ k = "min_time" \/ k = "max_time" ->
       get_col k (data out) = Some (map (field k) entries)) /\
    forall k, k <> "metrics" -> k <> "metric" -> k <> "frequencies" ->
              k <> "frequency" -> k <> "min_time" -> k <> "max_time" ->
      get_col k (data out) =
      fmap (fun vs => repeat_each counts2 (repeat_each counts1 vs)) (get_col k (data df)).
Proof.
  intros Hwf Hok Hg Htimes metrics counts1 counts2 entries.
  destruct (explode_step "metrics" df cells Hwf Hok eq_refl Hg)
    as (df1 & H1 & Hwf1 & Hok1 & Hcols1 & Hidx1 & Hg1 & Hother1).
  fold metrics counts1 in Hidx1, Hg1, Hother1.
  destruct (assign_step "metric" "metric" "metrics" df1 metrics Hwf1 Hok1 Hg1)
    as (H2 & Hwf2 & Hok2); [discriminate |].
  set (df2 := setitem "metric" (map (field "metric") metrics) df1) in *.
  assert (Hg2 : get_col "metrics" (data df2) = Some metrics)
    by (unfold df2; rewrite get_col_setitem_ne by discriminate; exact Hg1).
  destruct (assign_step "frequencies" "frequencies" "metrics" df2 metrics Hwf2 Hok2 Hg2)
    as (H3 & Hwf3 & Hok3); [discriminate |].
  set (df3 := setitem "frequencies" (map (field "frequencies") metrics) df2) in *.
  destruct (explode_step "frequencies" df3 (map (field "frequencies") metrics)
              Hwf3 Hok3 eq_refl (get_col_setitem_eq _ _ _))
    as (df4 & H4 & Hwf4 & Hok4 & Hcols4 & Hidx4 & Hg4 & Hother4).
  fold counts2 entries in Hidx4, Hg4, Hother4.
  destruct (assign_step "frequency" "frequency" "frequencies" df4 entries Hwf4 Hok4 Hg4)
    as (H5 & Hwf5 & Hok5); [discriminate |].
  set (df5 := setitem "frequency" (map (field "frequency") entries) df4) in *.
  assert (Hg5 : get_col "frequencies" (data df5) = Some entries)
    by (unfold df5; rewrite get_col_setitem_ne by discriminate; exact Hg4).
  destruct (assign_step "min_time" "min_time" "frequencies" df5 entries Hwf5 Hok5 Hg5)
    as (H6 & Hwf6 & Hok6); [intros _; apply entry_times_Forall; [exact Htimes | tauto] |].
  set (df6 := setitem "min_time" (map (field "min_time") entries) df5) in *.
  assert (Hg6 : get_col "frequencies" (data df6) = Some entries)
    by (unfold df6; rewrite get_col_setitem_ne by discriminate; exact Hg5).
  destruct (assign_step "max_time" "max_time" "frequencies" df6 entries Hwf6 Hok6 Hg6)
    as (H7 & Hwf7 & Hok7); [intros _; apply entry_times_Forall; [exact Htimes | tauto] |].
  set (df7 := setitem "max_time" (map (field "max_time") entries) df6) in *.
  assert (Hmetrics7 : get_col "metrics" (data df7) =
                      Some (repeat_each counts2 metrics)).
  { unfold df7, df6, df5. rewrite !get_col_setitem_ne by discriminate.
    rewrite Hother4 by discriminate. unfold df3.
    rewrite get_col_setitem_ne by discriminate. rewrite Hg2. reflexivity. }
  assert (Hfreq7 : get_col "frequencies" (data df7) = Some entries)
    by (unfold df7; rewrite get_col_setitem_ne by discriminate; exact Hg6).
  exists (drop_ignore ["metrics"; "frequencies"] (reset_index df7)).
  split; [| split; [| split; [| split; [| split; [| split; [| split]]]]]].
  - unfold explode_metrics_frequencies.
    rewrite H1. simpl. rewrite H2. simpl. rewrite H3. simpl.
    rewrite H4. simpl. rewrite H5. simpl. rewrite H6. simpl. rewrite H7. simpl.
    apply drop_spec. simpl.
    rewrite (has_label_get_col "metrics" (reset_index df7) _ Hmetrics7).
    rewrite (has_label_get_col "frequencies" (reset_index df7) _ Hfreq7). reflexivity.
  - apply drop_ignore_well_formed, reset_index_well_formed, Hwf7.
  - apply without_datetime_cells_ok. exact Hok7.
  - unfold drop_ignore, reset_index, nrows. simpl.
    unfold df7, df6, df5, setitem. simpl. rewrite Hidx4.
    unfold df3, df2, setitem. simpl. rewrite Hidx1. reflexivity.
  - intros c. unfold columns, drop_ignore, reset_index. simpl.
    rewrite without_label_elem.
    unfold df7, df6, df5, setitem. simpl. rewrite !set_col_label_elem.
    fold (columns df4). rewrite Hcols4.
    unfold columns, df3, df2, setitem. simpl. rewrite !set_col_label_elem.
    fold (columns df1). rewrite Hcols1.
    rewrite !not_elem_of_cons, elem_of_nil. tauto.
  - rewrite get_col_drop_reset. cbn [existsb String.eqb Ascii.eqb Bool.eqb orb].
    unfold df7, df6, df5. rewrite !get_col_setitem_ne by discriminate.
    rewrite Hother4 by discriminate.
    unfold df3. rewrite get_col_setitem_ne by discriminate.
    unfold df2. rewrite get_col_setitem_eq. reflexivity.
  - intros k Hk. rewrite get_col_drop_reset.
    unfold df7, df6, df5.
    destruct Hk as [-> | [-> | ->]]; cbn [existsb String.eqb Ascii.eqb Bool.eqb orb].
    + rewrite !get_col_setitem_ne by discriminate. apply get_col_setitem_eq.
    + rewrite get_col_setitem_ne by discriminate. apply get_col_setitem_eq.
    + apply get_col_setitem_eq.
  - intros k Hk1 Hk2 Hk3 Hk4 Hk5 Hk6. rewrite get_col_drop_reset.
    replace (existsb (String.eqb k) ["metrics"; "frequencies"]) with false.
    + unfold df7, df6, df5. rewrite !get_col_setitem_ne by congruence.
      rewrite Hother4 by exact Hk3.
      unfold df3, df2. rewrite !get_col_setitem_ne by congruence.
      rewrite Hother1 by exact Hk1.
      destruct (get_col k (data df)); reflexivity.
    + simpl. symmetry. rewrite orb_false_r. apply orb_false_iff.
      split; apply String.eqb_neq; assumption.
Qed.

End Steps.

Lemma flat_map_fmap {A B C} (f : B -> list C) (g : A -> B) (l : list A) :
  flat_map f (map g l) = flat_map (fun x => f (g x)) l.
Proof. induction l as [| x l IH]; simpl; [| rewrite IH]; reflexivity. Qed.

Lemma repeat_each_same_length {A B} (counts : list nat) (xs : list A) (ys : list B) :
  length xs = length ys ->
  length (repeat_each counts xs) = length (repeat_each counts ys).
Proof.
  revert xs ys. induction counts as [| n counts IH]; intros [| x xs] [| y ys]; simpl;
    try discriminate; try reflexivity.
  intros [= H]. rewrite !length_app, !length_replicate, (IH xs ys H). reflexivity.
Qed.

Section Metrics.

Context {lib : Library}.

(** X4.  The five methods that flatten "metrics" ([CatalogAssetPairsData],
    [CatalogExchangeAssetsData], [CatalogInstitutionsData],
    [CatalogMarketMetricsData], and [CatalogExchangesData] with
    [secondary_level="metrics"]) do the same to a catalog.  When some record
    has a field "metrics" and the datetime fields are strings that the ISO
    parser reads or are missing, they return a frame with one row per
    record, metric of the record and frequency of the metric (a record
    without metrics and a metric without frequencies keep one row), numbered
    from 0, with pairwise distinct labels: the keys of the records without
    "metrics" and "frequencies", and "metric", "frequency", "min_time" and
    "max_time".  A row has the name of its metric, the "frequency" and the
    parsed "min_time" and "max_time" of its frequency entry, and the other
    fields of its record. *)
Theorem metrics_to_dataframe_rows (self : list record) :
  existsb (has_key "metrics") self = true ->
  datetime_fields_ok self = true ->
  entry_times_ok (map snd (metric_rows self)) = true ->
  exists out,
    returned CatalogAssetPairsData_to_dataframe self = Ok out /\
    returned CatalogExchangeAssetsData_to_dataframe self = Ok out /\
    returned CatalogInstitutionsData_to_dataframe self = Ok out /\
    returned CatalogMarketMetricsData_to_dataframe self = Ok out /\
    returned (CatalogExchangesData_to_dataframe (Some "metrics")) self = Ok out /\
    index out = seq 0 (length (metric_rows self)) /\
    NoDup (columns out) /\
    (forall c, c ∈ columns out <->
       c <> "metrics" /\ c <> "frequencies" /\
       (c ∈ union_keys self \/ c = "metric" \/ c = "frequency" \/ c = "min_time" \/
        c = "max_time")) /\
    forall i r m e, metric_rows self !! i = Some (r, m, e) ->
      (forall s, field "metric" m = VStr s -> cell out "metric" i = Some (VStr s)) /\
      (forall s, field "frequency" e = VStr s ->
         cell out "frequency" i = Some (VStr s)) /\
      (forall k s, k = "min_time" \/ k = "max_time" -> field k e = VStr s ->
         exists d, isoparse_str s = Some d /\ cell out k i = Some (VDatetime d)) /\
      (forall k, k = "min_time" \/ k = "max_time" -> is_missing (field k e) = true ->
         cell out k i = Some VNone) /\
      (forall k, k ∈ union_keys self ->
         k <> "metrics" -> k <> "metric" -> k <> "frequencies" ->
         k <> "frequency" -> k <> "min_time" -> k <> "max_time" ->
         (forall s, dict_get r k = Some (VStr s) ->
            if is_datetime_col k
            then exists d, isoparse_str s = Some d /\ cell out k i = Some (VDatetime d)
            else cell out k i = Some (VStr s)) /\
         (dict_get r k = None ->
            if is_datetime_col k
            then cell out k i = Some VNone
            else exists m', cell out k i = Some m' /\ is_missing m' = true)).
Proof.
  intros Hkey Hfields Htimes.
  pose proof (exists_key_label _ _ Hkey) as Hlab.
  pose proof (pd_DataFrame_get_col self "metrics" Hlab) as Hg.
  set (h := fun rm : record * value => explode_cell (field "frequencies" (snd rm))).
  assert (Hmetrics : flat_map explode_cell
                       (map (fun r => default VNaN (dict_get r "metrics")) self) =
                     map snd (exploded_with "metrics" self))
    by (rewrite exploded_frame_column, exploded_with_snd; reflexivity).
  assert (Hentries : flat_map explode_cell
                       (map (field "frequencies") (map snd (exploded_with "metrics" self))) =
                     map snd (metric_rows self)).
  { rewrite map_map, flat_map_fmap. symmetry. apply (flat_map_with_snd h). }
  assert (Hcounts2 : map (fun v => length (explode_cell v))
                       (map (field "frequencies") (map snd (exploded_with "metrics" self))) =
                     map (fun rm => length (h rm)) (exploded_with "metrics" self))
    by (rewrite !map_map; reflexivity).
  assert (Hrows_h : flat_map (fun x => map (fun e0 : value => (x, e0)) (h x))
                      (exploded_with "metrics" self) = metric_rows self)
    by reflexivity.
  destruct (explode_metrics_frequencies_spec (pd_DataFrame self) _
              (pd_DataFrame_well_formed self)
              (pd_DataFrame_datetime_cells_ok self Hfields) Hg)
    as (df & Hrun & Hwf & Hok & Hidx & Hlabels & Hmetric & Hentry & Hother).
  { rewrite Hmetrics, Hentries. exact Htimes. }
  rewrite Hmetrics, Hentries, Hcounts2, explode_counts_cells in *.
  destruct (convert_catalog_dtypes_ok df (proj1 Hwf) Hok)
    as (out & Hout & Hidx' & Hlabels' & Hcells).
  assert (Hrun' : returned CatalogAssetPairsData_to_dataframe self = Ok out).
  { unfold returned, CatalogAssetPairsData_to_dataframe. simpl.
    rewrite Hrun. exact Hout. }
  exists out.
  split; [exact Hrun' |]. split; [exact Hrun' |]. split; [exact Hrun' |].
  split; [exact Hrun' |].
  split; [rewrite exchanges_to_dataframe_returned; simpl; rewrite Hrun; exact Hout |].
  split; [| split; [| split]].
  - rewrite Hidx', Hidx. f_equal.
    rewrite (repeat_each_same_length _ _
               (map (fun rm : record * value => rm) (exploded_with "metrics" self))).
    + rewrite (repeat_each_with h (fun rm => rm)). unfold metric_rows.
      rewrite length_map. reflexivity.
    + rewrite length_map.
      rewrite (repeat_each_same_length _ _ (map (fun r : record => r) self))
        by (rewrite length_map; apply length_seq).
      rewrite (repeat_each_records "metrics" (fun r => r)). apply length_map.
  - rewrite Hlabels'. exact (proj1 Hwf).
  - intros c. rewrite Hlabels', Hlabels, pd_DataFrame_columns. reflexivity.
  - intros i r m e Hi.
    assert (He : map snd (metric_rows self) !! i = Some e)
      by (rewrite list_lookup_fmap, Hi; reflexivity).
    split; [| split; [| split; [| split]]].
    + intros s Hs.
      rewrite map_map in Hmetric.
      rewrite (repeat_each_with h (fun rm => field "metric" (snd rm))) in Hmetric.
      destruct (Hcells _ _ Hmetric) as (vs' & Hg' & Hv).
      unfold cell. rewrite Hg'.
      refine (proj1 (Hv i (VStr s) _) s eq_refl).
      rewrite list_lookup_fmap, Hrows_h, Hi. simpl.
      rewrite Hs. reflexivity.
    + intros s Hs. destruct (Hcells _ _ (Hentry "frequency" (or_introl eq_refl)))
        as (vs' & Hg' & Hv).
      unfold cell. rewrite Hg'.
      refine (proj1 (Hv i (VStr s) _) s eq_refl).
      rewrite list_lookup_fmap, He. simpl. rewrite Hs. reflexivity.
    + intros k s Hk Hs.
      destruct (Hcells k _ (Hentry k (or_intror Hk))) as (vs' & Hg' & Hv).
      unfold cell. rewrite Hg'.
      assert (Hcellk : map (field k) (map snd (metric_rows self)) !! i = Some (VStr s))
        by (rewrite list_lookup_fmap, He; simpl; rewrite Hs; reflexivity).
      pose proof (proj1 (Hv i (VStr s) Hcellk) s eq_refl) as Hres.
      destruct Hk as [-> | ->]; exact Hres.
    + intros k Hk Hm.
      destruct (Hcells k _ (Hentry k (or_intror Hk))) as (vs' & Hg' & Hv).
      unfold cell. rewrite Hg'.
      assert (Hcellk : map (field k) (map snd (metric_rows self)) !! i = Some (field k e))
        by (rewrite list_lookup_fmap, He; reflexivity).
      pose proof (proj2 (Hv i (field k e) Hcellk) Hm) as Hres.
      destruct Hk as [-> | ->]; exact Hres.
    + intros k Hk Hk1 Hk2 Hk3 Hk4 Hk5 Hk6.
      pose proof (Hother k Hk1 Hk2 Hk3 Hk4 Hk5 Hk6) as Hgk.
      rewrite (pd_DataFrame_get_col self k Hk) in Hgk. simpl in Hgk.
      rewrite (repeat_each_records "metrics"
                 (fun r => default VNaN (dict_get r k)) self) in Hgk.
      rewrite (repeat_each_with h (fun re => default VNaN (dict_get (fst re) k))) in Hgk.
      destruct (Hcells k _ Hgk) as (vs' & Hg' & Hv).
      unfold cell. rewrite Hg'.
      destruct (Hv i (default VNaN (dict_get r k))) as [Hs Hm].
      { rewrite list_lookup_fmap, Hrows_h, Hi. reflexivity. }
      split.
      * intros s Hr. apply Hs. rewrite Hr. reflexivity.
      * intros Hr. apply Hm. rewrite Hr. reflexivity.
Qed.

End Metrics.

Lemma metrics_to_dataframe_rows_witness :
  exists out,
    returned CatalogInstitutionsData_to_dataframe
      [[("institution", VStr "grayscale");
        ("metrics",
         VList [VDict [("metric", VStr "btc_total_assets");
                       ("frequencies",
                        VList [VDict [("frequency", VStr "1d");
                                      ("min_time", VStr "2020-01-02")]])];
                VDict [("metric", VStr "eth_total_assets")]])]] = Ok out /\
    index out = [0; 1] /\
    cell out "metric" 1 = Some (VStr "eth_total_assets") /\
    cell out "min_time" 1 = Some VNone.
Proof.
  destruct (metrics_to_dataframe_rows (lib := sample_library)
      [[("institution", VStr "grayscale");
        ("metrics",
         VList [VDict [("metric", VStr "btc_total_assets");
                       ("frequencies",
                        VList [VDict [("frequency", VStr "1d");
                                      ("min_time", VStr "2020-01-02")]])];
                VDict [("metric", VStr "eth_total_assets")]])]])
    as (out & _ & _ & Hout & _ & _ & Hidx & _ & _ & Hrows).
  - reflexivity.
  - reflexivity.
  - reflexivity.
  - exists out. split; [exact Hout |]. split; [exact Hidx |].
    destruct (Hrows 1 _ _ _ eq_refl) as (Hmetric & _ & _ & Hmissing & _).
    split; [exact (Hmetric _ eq_refl) |].
    exact (Hmissing "min_time" (or_introl eq_refl) eq_refl).
Defined.

(** ** [CatalogMetricsData.to_dataframe] *)

Section MetricsCatalog.

Context {lib : Library}.

(** X5.  [CatalogMetricsData.to_dataframe], when some record has a field
    "frequencies" and the datetime fields of the records are strings that the
    ISO parser reads or are missing, returns a frame with one row per record,
    frequency of the record and asset of the frequency, numbered from 0, with
    pairwise distinct labels: the keys of the records without "frequencies",
    and "frequency" and "asset".  A row has its asset, the "frequency" of its
    frequency entry and the other fields of its record. *)
Theorem metrics_catalog_to_dataframe_rows (self : list record) :
  existsb (has_key "frequencies") self = true ->
  datetime_fields_ok self = true ->
  exists out,
    returned CatalogMetricsData_to_dataframe self = Ok out /\
    index out = seq 0 (length (asset_rows self)) /\
    NoDup (columns out) /\
    (forall c, c ∈ columns out <->
       c <> "frequencies" /\ (c ∈ union_keys self \/ c = "frequency" \/ c = "asset")) /\
    forall i r e a, asset_rows self !! i = Some (r, e, a) ->
      (forall s, a = VStr s -> cell out "asset" i = Some (VStr s)) /\
      (forall s, field "frequency" e = VStr s ->
         cell out "frequency" i = Some (VStr s)) /\
      (forall k, k ∈ union_keys self ->
         k <> "frequencies" -> k <> "frequency" -> k <> "asset" ->
         (forall s, dict_get r k = Some (VStr s) ->
            if is_datetime_col k
            then exists d, isoparse_str s = Some d /\ cell out k i = Some (VDatetime d)
            else cell out k i = Some (VStr s)) /\
         (dict_get r k = None ->
            if is_datetime_col k
            then cell out k i = Some VNone
            else exists m, cell out k i = Some m /\ is_missing m = true)).
Proof.
  intros Hkey Hfields.
  pose proof (exists_key_label _ _ Hkey) as Hlab.
  pose proof (pd_DataFrame_get_col self "frequencies" Hlab) as Hg.
  set (h := fun re : record * value => explode_cell (field "assets" (snd re))).
  assert (Hrows_h : flat_map (fun x => map (fun a0 : value => (x, a0)) (h x))
                      (exploded_with "frequencies" self) = asset_rows self)
    by reflexivity.
  destruct (explode_step "frequencies" (pd_DataFrame self) _
              (pd_DataFrame_well_formed self)
              (pd_DataFrame_datetime_cells_ok self Hfields) eq_refl Hg)
    as (df1 & H1 & Hwf1 & Hok1 & Hcols1 & Hidx1 & Hg1 & Hother1).
  rewrite exploded_frame_column, <- exploded_with_snd in Hg1.
  rewrite explode_counts_cells in Hidx1, Hother1.
  set (entries := map snd (exploded_with "frequencies" self)) in *.
  destruct (assign_step "frequency" "frequency" "frequencies" df1 entries Hwf1 Hok1 Hg1)
    as (H2 & Hwf2 & Hok2); [discriminate |].
  set (df2 := setitem "frequency" (map (field "frequency") entries) df1) in *.
  assert (Hg2 : get_col "frequencies" (data df2) = Some entries)
    by (unfold df2; rewrite get_col_setitem_ne by discriminate; exact Hg1).
  destruct (assign_step "asset" "assets" "frequencies" df2 entries Hwf2 Hok2 Hg2)
    as (H3 & Hwf3 & Hok3); [discriminate |].
  set (df3 := setitem "asset" (map (field "assets") entries) df2) in *.
  destruct (explode_step "asset" df3 (map (field "assets") entries)
              Hwf3 Hok3 eq_refl (get_col_setitem_eq _ _ _))
    as (df4 & H4 & Hwf4 & Hok4 & Hcols4 & Hidx4 & Hg4 & Hother4).
  assert (Hcounts : map (fun v => length (explode_cell v)) (map (field "assets") entries) =
                    map (fun re => length (h re)) (exploded_with "frequencies" self))
    by (unfold entries; rewrite !map_map; reflexivity).
  assert (Hassets : flat_map explode_cell (map (field "assets") entries) =
                    map snd (asset_rows self)).
  { unfold entries. rewrite map_map, flat_map_fmap. symmetry.
    apply (flat_map_with_snd h). }
  rewrite Hcounts in Hidx4, Hother4. rewrite Hassets in Hg4.
  assert (Hfreq4 : get_col "frequencies" (data df4) =
                   Some (repeat_each (map (fun re => length (h re))
                                          (exploded_with "frequencies" self)) entries)).
  { rewrite Hother4 by discriminate. unfold df3.
    rewrite get_col_setitem_ne by discriminate. rewrite Hg2. reflexivity. }
  set (df := reset_index (drop_ignore ["frequencies"] df4)).
  assert (Hwf : well_formed df)
    by (apply reset_index_well_formed, drop_ignore_well_formed, Hwf4).
  assert (Hok : datetime_cells_ok df)
    by (unfold df, reset_index; simpl; apply without_datetime_cells_ok, Hok4).
  destruct (convert_catalog_dtypes_ok df (proj1 Hwf) Hok)
    as (out & Hout & Hidx' & Hlabels' & Hcells).
  exists out. split; [| split; [| split; [| split]]].
  - unfold returned, CatalogMetricsData_to_dataframe. simpl.
    rewrite H1. simpl. rewrite H2. simpl. rewrite H3. simpl. rewrite H4. simpl.
    rewrite drop_spec
      by (simpl; rewrite (has_label_get_col "frequencies" df4 _ Hfreq4); reflexivity).
    simpl. exact Hout.
  - rewrite Hidx'. unfold df, reset_index, drop_ignore, nrows. simpl.
    rewrite Hidx4. unfold df3, df2, setitem. simpl. rewrite Hidx1. f_equal.
    rewrite (repeat_each_same_length _ _
               (map (fun re : record * value => re) (exploded_with "frequencies" self))).
    + rewrite (repeat_each_with h (fun re => re)), Hrows_h. apply length_map.
    + rewrite length_map.
      change (index (pd_DataFrame self)) with (seq 0 (length self)).
      rewrite (repeat_each_same_length _ _ (map (fun r : record => r) self))
        by (rewrite length_map; apply length_seq).
      rewrite (repeat_each_records "frequencies" (fun r => r)). apply length_map.
  - rewrite Hlabels'. exact (proj1 Hwf).
  - intros c. rewrite Hlabels'. unfold columns, df, reset_index, drop_ignore. simpl.
    rewrite without_label_elem. fold (columns df4). rewrite Hcols4.
    unfold columns, df3, df2, setitem. simpl. rewrite !set_col_label_elem.
    fold (columns df1). rewrite Hcols1, pd_DataFrame_columns.
    rewrite not_elem_of_cons, elem_of_nil. tauto.
  - intros i r e a Hi. split; [| split].
    + intros s ->.
      assert (Hga : get_col "asset" (data df) = Some (map snd (asset_rows self)))
        by (unfold df; rewrite get_col_reset_drop; exact Hg4).
      destruct (Hcells _ _ Hga) as (vs' & Hg' & Hv).
      unfold cell. rewrite Hg'.
      refine (proj1 (Hv i (VStr s) _) s eq_refl).
      rewrite list_lookup_fmap, Hi. reflexivity.
    + intros s Hs.
      assert (Hgf : get_col "frequency" (data df) =
                    Some (map (fun t => field "frequency" (snd (fst t))) (asset_rows self))).
      { unfold df. rewrite get_col_reset_drop.
        cbn [existsb String.eqb Ascii.eqb Bool.eqb orb].
        rewrite Hother4 by discriminate. unfold df3.
        rewrite get_col_setitem_ne by discriminate. unfold df2.
        rewrite get_col_setitem_eq. simpl. unfold entries. rewrite map_map.
        rewrite (repeat_each_with h (fun re => field "frequency" (snd re))), Hrows_h.
        reflexivity. }
      destruct (Hcells _ _ Hgf) as (vs' & Hg' & Hv).
      unfold cell. rewrite Hg'.
      refine (proj1 (Hv i (VStr s) _) s eq_refl).
      rewrite list_lookup_fmap, Hi. simpl. rewrite Hs. reflexivity.
    + intros k Hk Hk1 Hk2 Hk3.
      assert (Hgk : get_col k (data df) =
                    Some (map (fun t => default VNaN (dict_get (fst (fst t)) k))
                              (asset_rows self))).
      { unfold df. rewrite get_col_reset_drop.
        replace (existsb (String.eqb k) ["frequencies"]) with false
          by (simpl; symmetry; rewrite orb_false_r; apply String.eqb_neq, Hk1).
        rewrite Hother4 by exact Hk3. unfold df3, df2.
        rewrite !get_col_setitem_ne by congruence.
        rewrite Hother1 by exact Hk1.
        rewrite (pd_DataFrame_get_col self k Hk). simpl.
        rewrite (repeat_each_records "frequencies"
                   (fun r => default VNaN (dict_get r k)) self).
        rewrite (repeat_each_with h (fun re => default VNaN (dict_get (fst re) k))), Hrows_h.
        reflexivity. }
      destruct (Hcells _ _ Hgk) as (vs' & Hg' & Hv).
      unfold cell. rewrite Hg'.
      destruct (Hv i (default VNaN (dict_get r k))) as [Hs Hm].
      { rewrite list_lookup_fmap, Hi. reflexivity. }
      split.
      * intros s Hr. apply Hs. rewrite Hr. reflexivity.
      * intros Hr. apply Hm. rewrite Hr. reflexivity.
Qed.

End MetricsCatalog.

Lemma metrics_catalog_to_dataframe_rows_witness :
  exists out,
    returned CatalogMetricsData_to_dataframe
      [[("metric", VStr "PriceUSD");
        ("frequencies",
         VList [VDict [("frequency", VStr "1d");
                       ("assets", VList [VStr "btc"; VStr "eth"])]])]] = Ok out /\
    index out = [0; 1] /\
    cell out "asset" 1 = Some (VStr "eth") /\
    cell out "metric" 1 = Some (VStr "PriceUSD").
Proof.
  destruct (metrics_catalog_to_dataframe_rows (lib := sample_library)
      [[("metric", VStr "PriceUSD");
        ("frequencies",
         VList [VDict [("frequency", VStr "1d");
                       ("assets", VList [VStr "btc"; VStr "eth"])]])]])
    as (out & Hout & Hidx & _ & _ & Hrows).
  - reflexivity.
  - reflexivity.
  - exists out. split; [exact Hout |]. split; [exact Hidx |].
    destruct (Hrows 1 _ _ _ eq_refl) as (Hasset & _ & Hrec).
    split; [exact (Hasset _ eq_refl) |].
    refine (proj1 (Hrec "metric" _ _ _ _) _ eq_refl); try discriminate.
    apply union_keys_elem. eexists. split; [left |]. left.
Defined.

(** ** The methods that do not renumber the rows *)

Lemma filter_replicate_eq (j n : nat) :
  List.filter (Nat.eqb j) (replicate n j) = replicate n j.
Proof. induction n as [| n IH]; simpl; [| rewrite Nat.eqb_refl, IH]; reflexivity. Qed.

Lemma filter_replicate_ne (j k n : nat) :
  j <> k -> List.filter (Nat.eqb j) (replicate n k) = [].
Proof.
  intros Hne. induction n as [| n IH]; simpl; [reflexivity |].
  destruct (Nat.eqb j k) eqn:E; [apply Nat.eqb_eq in E; contradiction | exact IH].
Qed.

Lemma filter_repeat_each_above (j start : nat) (counts : list nat) (n : nat) :
  j < start -> List.filter (Nat.eqb j) (repeat_each counts (seq start n)) = [].
Proof.
  revert start counts. induction n as [| n IH]; intros start [| c counts] Hlt; simpl;
    try reflexivity.
  rewrite List.filter_app, filter_replicate_ne by lia. simpl. apply IH. lia.
Qed.

(** After [explode] the label of a record is on as many rows as the record
    has cells. *)
Lemma index_label_count (column : string) (self : list record) (start j : nat)
    (r : record) :
  self !! j = Some r ->
  length (List.filter (Nat.eqb (start + j))
            (repeat_each (explode_counts column self) (seq start (length self)))) =
  length (explode_cell (default VNaN (dict_get r column))).
Proof.
  revert start j. induction self as [| r0 self IH]; intros start j Hj; [discriminate |].
  simpl. rewrite List.filter_app, length_app.
  destruct j as [| j]; simpl in Hj.
  - injection Hj as ->. rewrite Nat.add_0_r, filter_replicate_eq, length_replicate.
    rewrite filter_repeat_each_above by lia. simpl. lia.
  - rewrite filter_replicate_ne by lia. simpl.
    replace (start + S j) with (S start + j) by lia. apply IH, Hj.
Qed.

Lemma rename_get_col_other (old new k : string) (cols : list (string * list value)) :
  k <> old -> k <> new ->
  get_col k (map (fun kv : string * list value =>
                    (if String.eqb (fst kv) old then new else fst kv, snd kv)) cols) =
  get_col k cols.
Proof.
  intros Ho Hn. induction cols as [| [c vs] cols IH]; simpl; [reflexivity |].
  destruct (String.eqb c old) eqn:E.
  - apply String.eqb_eq in E. subst c.
    destruct (String.eqb new k) eqn:E1; [apply String.eqb_eq in E1; congruence |].
    destruct (String.eqb old k) eqn:E2; [apply String.eqb_eq in E2; congruence |].
    exact IH.
  - destruct (String.eqb c k); [reflexivity | exact IH].
Qed.

Lemma rename_label_elem (old new c : string) (cols : list (string * list value)) :
  old <> new ->
  c ∈ map fst (map (fun kv : string * list value =>
                      (if String.eqb (fst kv) old then new else fst kv, snd kv)) cols) <->
  (c = new /\ old ∈ map fst cols) \/ (c <> old /\ c ∈ map fst cols).
Proof.
  intros Hne. induction cols as [| [k vs] cols IH]; simpl.
  - rewrite !elem_of_nil. tauto.
  - rewrite !elem_of_cons, IH. destruct (String.eqb k old) eqn:E.
    + apply String.eqb_eq in E. subst k. split.
      * intros [-> | H]; [tauto |]. tauto.
      * intros [[-> _] | [Hc [-> | H]]]; tauto.
    + apply String.eqb_neq in E. split.
      * intros [-> | H]; [tauto |]. tauto.
      * intros [[-> [Hk | H]] | [Hc [-> | H]]]; try tauto. congruence.
Qed.

Section NotRenumbered.

Context {lib : Library}.

(** X6.  [CatalogAssetAlertsData.to_dataframe], when some record has a field
    "constituents" and the datetime fields are strings that the ISO parser
    reads or are missing, returns a frame with the labels of the records and
    one row per constituent of each record (one row for a record without
    constituents).  The rows are not renumbered: the index label of a row is
    the number of its record in the catalog, so a label is on as many rows as
    its record has constituents.  A row has its constituent and the other
    fields of its record. *)
Theorem asset_alerts_to_dataframe_rows (self : list record) :
  existsb (has_key "constituents") self = true ->
  datetime_fields_ok self = true ->
  exists out,
    returned CatalogAssetAlertsData_to_dataframe self = Ok out /\
    columns out = union_keys self /\
    nrows out = length (exploded_with "constituents" self) /\
    index out = repeat_each (explode_counts "constituents" self) (seq 0 (length self)) /\
    (forall j r, self !! j = Some r ->
       length (List.filter (Nat.eqb j) (index out)) =
       length (explode_cell (default VNaN (dict_get r "constituents")))) /\
    forall i r v, exploded_with "constituents" self !! i = Some (r, v) ->
      (forall s, v = VStr s -> cell out "constituents" i = Some (VStr s)) /\
      (forall k, k ∈ union_keys self -> k <> "constituents" ->
         (forall s, dict_get r k = Some (VStr s) ->
            if is_datetime_col k
            then exists d, isoparse_str s = Some d /\ cell out k i = Some (VDatetime d)
            else cell out k i = Some (VStr s)) /\
         (dict_get r k = None ->
            if is_datetime_col k
            then cell out k i = Some VNone
            else exists m, cell out k i = Some m /\ is_missing m = true)).
Proof.
  intros Hkey Hfields.
  pose proof (exists_key_label _ _ Hkey) as Hlab.
  pose proof (pd_DataFrame_get_col self "constituents" Hlab) as Hg.
  destruct (explode_step "constituents" (pd_DataFrame self) _
              (pd_DataFrame_well_formed self)
              (pd_DataFrame_datetime_cells_ok self Hfields) eq_refl Hg)
    as (df & H1 & Hwf & Hok & Hcols & Hidx & Hg1 & Hother).
  rewrite exploded_frame_column, <- exploded_with_snd in Hg1.
  rewrite explode_counts_cells in Hidx, Hother.
  change (index (pd_DataFrame self)) with (seq 0 (length self)) in Hidx.
  destruct (convert_catalog_dtypes_ok df (proj1 Hwf) Hok)
    as (out & Hout & Hidx' & Hlabels' & Hcells).
  exists out. split; [| split; [| split; [| split; [| split]]]].
  - unfold returned, CatalogAssetAlertsData_to_dataframe. simpl.
    rewrite H1. simpl. exact Hout.
  - rewrite Hlabels', Hcols. apply pd_DataFrame_columns.
  - unfold nrows. rewrite Hidx', Hidx.
    rewrite (repeat_each_same_length _ _ (map (fun r : record => r) self))
      by (rewrite length_map; apply length_seq).
    rewrite (repeat_each_records "constituents" (fun r => r)). apply length_map.
  - rewrite Hidx'. exact Hidx.
  - intros j r Hj. rewrite Hidx', Hidx.
    exact (index_label_count "constituents" self 0 j r Hj).
  - intros i r v Hi. split.
    + intros s ->. destruct (Hcells _ _ Hg1) as (vs' & Hg' & Hv).
      unfold cell. rewrite Hg'.
      refine (proj1 (Hv i (VStr s) _) s eq_refl).
      rewrite list_lookup_fmap, Hi. reflexivity.
    + intros k Hk Hk1.
      pose proof (Hother k Hk1) as Hgk.
      rewrite (pd_DataFrame_get_col self k Hk) in Hgk. simpl in Hgk.
      rewrite (repeat_each_records "constituents"
                 (fun r => default VNaN (dict_get r k)) self) in Hgk.
      destruct (Hcells _ _ Hgk) as (vs' & Hg' & Hv).
      unfold cell. rewrite Hg'.
      destruct (Hv i (default VNaN (dict_get r k))) as [Hs Hm].
      { rewrite list_lookup_fmap, Hi. reflexivity. }
      split.
      * intros s Hr. apply Hs. rewrite Hr. reflexivity.
      * intros Hr. apply Hm. rewrite Hr. reflexivity.
Qed.

(** X7.  [CatalogExchangesData.to_dataframe] with
    [secondary_level="markets"], when some record has a field "markets", no
    record has a field "market" and the datetime fields are strings that the
    ISO parser reads or are missing, returns a frame with one row per market
    of each record, in which "markets" is renamed to "market".  Unlike the
    same level of [CatalogAssetsData], it keeps a market that is missing as a
    missing value (it does not write ""), it does not renumber the rows (the
    index label of a row is the number of its record), and it adds no column
    "exchange". *)
Theorem exchanges_markets_rows (self : list record) :
  existsb (has_key "markets") self = true ->
  no_record_has "market" self = true ->
  datetime_fields_ok self = true ->
  exists out,
    returned (CatalogExchangesData_to_dataframe (Some "markets")) self = Ok out /\
    (forall c, c ∈ columns out <->
       c <> "markets" /\ (c = "market" \/ c ∈ union_keys self)) /\
    index out = repeat_each (explode_counts "markets" self) (seq 0 (length self)) /\
    (forall j r, self !! j = Some r ->
       length (List.filter (Nat.eqb j) (index out)) =
       length (explode_cell (default VNaN (dict_get r "markets")))) /\
    forall i r v, exploded_with "markets" self !! i = Some (r, v) ->
      (forall s, v = VStr s -> cell out "market" i = Some (VStr s)) /\
      (is_missing v = true ->
         exists m, cell out "market" i = Some m /\ is_missing m = true) /\
      (forall k, k ∈ union_keys self -> k <> "markets" ->
         (forall s, dict_get r k = Some (VStr s) ->
            if is_datetime_col k
            then exists d, isoparse_str s = Some d /\ cell out k i = Some (VDatetime d)
            else cell out k i = Some (VStr s)) /\
         (dict_get r k = None ->
            if is_datetime_col k
            then cell out k i = Some VNone
            else exists m, cell out k i = Some m /\ is_missing m = true)).
Proof.
  intros Hkey Hnomarket Hfields.
  pose proof (exists_key_label _ _ Hkey) as Hlab.
  pose proof (no_key_label "market" self Hnomarket) as Hfresh.
  pose proof (pd_DataFrame_get_col self "markets" Hlab) as Hg.
  destruct (explode_step "markets" (pd_DataFrame self) _
              (pd_DataFrame_well_formed self)
              (pd_DataFrame_datetime_cells_ok self Hfields) eq_refl Hg)
    as (df1 & H1 & Hwf1 & Hok1 & Hcols1 & Hidx & Hg1 & Hother).
  rewrite exploded_frame_column, <- exploded_with_snd in Hg1.
  rewrite explode_counts_cells in Hidx, Hother.
  change (index (pd_DataFrame self)) with (seq 0 (length self)) in Hidx.
  rewrite pd_DataFrame_columns in Hcols1.
  set (df := rename "markets" "market" df1).
  assert (Hfresh1 : "market" ∉ map fst (data df1))
    by (fold (columns df1); rewrite Hcols1; exact Hfresh).
  assert (Hnd : NoDup (columns df)).
  { apply rename_labels_NoDup; [exact Hfresh1 |].
    fold (columns df1). exact (proj1 Hwf1). }
  assert (Hok : datetime_cells_ok df).
  { intros c vs Hin Hdt.
    apply (rename_elem "markets" "market") in Hin as [[-> _] | [_ Hin]]; [discriminate |].
    eapply Hok1; eauto. }
  destruct (convert_catalog_dtypes_ok df Hnd Hok)
    as (out & Hout & Hidx' & Hlabels' & Hcells).
  assert (Hgm : get_col "market" (data df) =
                Some (map snd (exploded_with "markets" self)))
    by (apply rename_get_col_new; assumption).
  exists out. split; [| split; [| split; [| split]]].
  - rewrite exchanges_to_dataframe_returned. simpl. rewrite H1. simpl. exact Hout.
  - intros c. rewrite Hlabels'. unfold columns, df, rename. simpl.
    rewrite rename_label_elem by discriminate.
    fold (columns df1). rewrite Hcols1. split.
    + intros [[-> _] | [Hc Hin]]; [split; [discriminate | tauto] | tauto].
    + intros [Hc [-> | Hin]]; [left; split; [reflexivity | exact Hlab] | tauto].
  - rewrite Hidx'. exact Hidx.
  - intros j r Hj. rewrite Hidx'. unfold df, rename. simpl. rewrite Hidx.
    exact (index_label_count "markets" self 0 j r Hj).
  - intros i r v Hi.
    destruct (Hcells _ _ Hgm) as (vm & Hgm' & Hvm).
    assert (Hv : map snd (exploded_with "markets" self) !! i = Some v)
      by (rewrite list_lookup_fmap, Hi; reflexivity).
    split; [| split].
    + intros s ->. unfold cell. rewrite Hgm'. exact (proj1 (Hvm i _ Hv) s eq_refl).
    + intros Hm. unfold cell. rewrite Hgm'. exact (proj2 (Hvm i _ Hv) Hm).
    + intros k Hk Hk1.
      assert (Hk2 : k <> "market") by (intros ->; contradiction).
      assert (Hgk : get_col k (data df) =
                    Some (map (fun re => default VNaN (dict_get (fst re) k))
                              (exploded_with "markets" self))).
      { unfold df, rename. simpl. rewrite rename_get_col_other by assumption.
        rewrite Hother by exact Hk1.
        rewrite (pd_DataFrame_get_col self k Hk). simpl.
        rewrite (repeat_each_records "markets"
                   (fun r => default VNaN (dict_get r k)) self). reflexivity. }
      destruct (Hcells _ _ Hgk) as (vs' & Hg' & Hvk).
      unfold cell. rewrite Hg'.
      destruct (Hvk i (default VNaN (dict_get r k))) as [Hs Hm].
      { rewrite list_lookup_fmap, Hi. reflexivity. }
      split.
      * intros s Hr. apply Hs. rewrite Hr. reflexivity.
      * intros Hr. apply Hm. rewrite Hr. reflexivity.
Qed.

End NotRenumbered.

Lemma asset_alerts_to_dataframe_rows_witness :
  exists out,
    returned CatalogAssetAlertsData_to_dataframe
      [[("asset", VStr "btc"); ("name", VStr "block_count_empty_6b_hi");
        ("constituents", VList [VStr "block_count_empty_6b"; VStr "block_count_6b"])];
       [("asset", VStr "eth"); ("name", VStr "other")]] = Ok out /\
    index out = [0; 0; 1] /\
    cell out "constituents" 1 = Some (VStr "block_count_6b").
Proof.
  destruct (asset_alerts_to_dataframe_rows (lib := sample_library)
      [[("asset", VStr "btc"); ("name", VStr "block_count_empty_6b_hi");
        ("constituents", VList [VStr "block_count_empty_6b"; VStr "block_count_6b"])];
       [("asset", VStr "eth"); ("name", VStr "other")]])
    as (out & Hout & _ & _ & Hidx & _ & Hrows).
  - reflexivity.
  - reflexivity.
  - exists out. split; [exact Hout |]. split; [exact Hidx |].
    exact (proj1 (Hrows 1 _ _ eq_refl) _ eq_refl).
Defined.

Lemma exchanges_markets_rows_witness :
  exists out,
    returned (CatalogExchangesData_to_dataframe (Some "markets"))
      [[("exchange", VStr "kraken");
        ("markets", VList [VStr "kraken-btc-usd-spot"; VStr "kraken-eth-usd-spot"])];
       [("exchange", VStr "newex")]] = Ok out /\
    index out = [0; 0; 1] /\
    cell out "market" 0 = Some (VStr "kraken-btc-usd-spot") /\
    exists m, cell out "market" 2 = Some m /\ is_missing m = true.
Proof.
  destruct (exchanges_markets_rows (lib := sample_library)
      [[("exchange", VStr "kraken");
        ("markets", VList [VStr "kraken-btc-usd-spot"; VStr "kraken-eth-usd-spot"])];
       [("exchange", VStr "newex")]])
    as (out & Hout & _ & Hidx & _ & Hrows).
  - reflexivity.
  - reflexivity.
  - reflexivity.
  - exists out. split; [exact Hout |]. split; [exact Hidx |]. split.
    + exact (proj1 (Hrows 0 _ _ eq_refl) _ eq_refl).
    + exact (proj1 (proj2 (Hrows 2 _ _ eq_refl)) eq_refl).
Defined.

(** ** The levels of [CatalogAssetsData.to_dataframe] on records that lack a field *)

Lemma list_map_result_error {A B} (f : A -> result B) (l : list A) (e : exn) :
  list_map_result f l = Err e -> exists x, x ∈ l /\ f x = Err e.
Proof.
  induction l as [| x l IH]; simpl; [discriminate |].
  destruct (f x) as [y | e'] eqn:Hx; simpl.
  - destruct (list_map_result f l) as [ys | e'']; simpl; [discriminate |].
    intros [= ->]. destruct (IH eq_refl) as (x' & Hin & Hx').
    exists x'. split; [apply elem_of_cons; right; exact Hin | exact Hx'].
  - intros [= ->]. exists x. split; [apply elem_of_cons; left; reflexivity | exact Hx].
Qed.

Lemma explode_raises (column : string) (df : DataFrame) (e : exn) :
  explode column df = Err e -> e = Propagated KeyError.
Proof.
  unfold explode. destruct (get_col column (data df)); [discriminate |].
  intros [= <-]. reflexivity.
Qed.

Lemma has_label_false (c : string) (df : DataFrame) :
  c ∉ columns df -> has_label c df = false.
Proof.
  intros Hc. unfold has_label. destruct (existsb (String.eqb c) (columns df)) eqn:E;
    [| reflexivity].
  apply existsb_exists in E as (k & Hin & Hk). apply String.eqb_eq in Hk. subst k.
  exfalso. apply Hc, list_elem_of_In, Hin.
Qed.

Lemma rename_not_label (old new c : string) (df : DataFrame) :
  c <> new -> c ∉ columns df -> c ∉ columns (rename old new df).
Proof.
  intros Hne Hc Hin. unfold columns, rename in Hin. simpl in Hin.
  rewrite map_map in Hin. apply list_elem_of_fmap in Hin as ([k vs] & Hk & Hin).
  simpl in Hk. destruct (String.eqb k old); [congruence |].
  subst c. apply Hc. unfold columns. apply list_elem_of_fmap. exists (k, vs).
  split; [reflexivity | exact Hin].
Qed.

Lemma setitem_not_label (c c' : string) (vs : list value) (df : DataFrame) :
  c' <> c -> c' ∉ columns df -> c' ∉ columns (setitem c vs df).
Proof.
  intros Hne Hc Hin. unfold columns, setitem in Hin. simpl in Hin.
  apply list_elem_of_fmap in Hin as ([k old] & Hk & Hin). simpl in Hk. subst k.
  apply set_col_elem in Hin as [[= -> _] | Hin]; [congruence |].
  apply Hc. unfold columns. apply list_elem_of_fmap. exists (c', old).
  split; [reflexivity | exact Hin].
Qed.

Lemma market_exchange_raises (x : DataFrame) (e : exn) :
  market_exchange x = Err e -> e = Propagated KeyError \/ e = Propagated AttributeError.
Proof.
  unfold market_exchange. destruct (1 <? count_label "market" x)%nat.
  - intros [= <-]. right. reflexivity.
  - unfold getitem. destruct (get_col "market" (data x)) as [series |]; simpl.
    + intros H. apply list_map_result_error in H as (v & _ & Hv).
      destruct v; simpl in Hv; try discriminate; injection Hv as <-; right; reflexivity.
    + intros [= <-]. left. reflexivity.
Qed.

Lemma assign_metric_raises (x : value) (e : exn) :
  _assign_metric x = Err e -> e = Propagated KeyError.
Proof.
  unfold _assign_metric, try_except.
  destruct (py_getitem x "metric") as [v | e'] eqn:Hx; [discriminate |].
  apply py_getitem_raises in Hx as [[-> _] | [-> _]]; simpl.
  - intros [= <-]. reflexivity.
  - discriminate.
Qed.

Lemma assign_metric_lacks_key (x : value) :
  lacks_key "metric" x = true -> _assign_metric x = Err (Propagated KeyError).
Proof.
  destruct x as [| | | | | | | d |]; simpl; try discriminate.
  intros H. apply negb_true_iff in H.
  unfold _assign_metric. simpl.
  destruct (dict_get d "metric") as [v |] eqn:Hd; [| reflexivity].
  exfalso. assert (Hk : "metric" ∈ map fst d) by (apply dict_get_key; eauto).
  apply has_key_elem in Hk. congruence.
Qed.

Section AssetsLevels.

Context {lib : Library}.

(** X8.  [CatalogAssetsData.to_dataframe] with [secondary_level="markets"]
    never returns a frame for records of which none has a field "exchanges":
    it raises [KeyError], from [explode] or from the [drop] of the column
    "exchanges", or [AttributeError], from the lambda that splits a market. *)
Theorem assets_markets_needs_exchanges (self : list record) :
  no_record_has "exchanges" self = true ->
  returned (CatalogAssetsData_to_dataframe (Some "markets")) self =
    Err (Propagated KeyError) \/
  returned (CatalogAssetsData_to_dataframe (Some "markets")) self =
    Err (Propagated AttributeError).
Proof.
  intros Hno. rewrite assets_to_dataframe_returned. simpl.
  assert (Hout : "exchanges" ∉ columns (pd_DataFrame self)).
  { rewrite pd_DataFrame_columns. apply no_key_label, Hno. }
  unfold assets_markets.
  destruct (explode "markets" (pd_DataFrame self)) as [df |e] eqn:Hex; simpl.
  - apply explode_keeps_columns in Hex.
    destruct (market_exchange (rename "markets" "market" (fillna "markets" (VStr "") df)))
      as [exchange | e] eqn:Hm; simpl.
    + unfold drop. simpl. rewrite has_label_false; [left; reflexivity |].
      apply setitem_not_label; [discriminate |].
      apply rename_not_label; [discriminate |].
      rewrite fillna_columns, Hex. exact Hout.
    + apply market_exchange_raises in Hm as [-> | ->]; [left | right]; reflexivity.
  - apply explode_raises in Hex as ->. left. reflexivity.
Qed.

(** X9.  [CatalogAssetsData.to_dataframe] with [secondary_level="metrics"]
    raises [KeyError] when the records have the fields "asset" and "metrics"
    and one of the metrics is a dict without a key "metric": [_assign_metric]
    catches [TypeError] only, where [_expand_df] would write [None]. *)
Theorem assets_metrics_metric_without_name (self : list record) :
  existsb (has_key "asset") self = true ->
  existsb (has_key "metrics") self = true ->
  existsb (lacks_key "metric") (exploded "metrics" self) = true ->
  returned (CatalogAssetsData_to_dataframe (Some "metrics")) self =
    Err (Propagated KeyError).
Proof.
  intros Hasset Hmetrics Hlacks.
  rewrite assets_to_dataframe_returned. simpl.
  unfold assets_metrics.
  assert (Ha : getattr "asset" (pd_DataFrame self) =
               Ok (map (fun r => default VNaN (dict_get r "asset")) self)).
  { unfold getattr.
    rewrite (pd_DataFrame_get_col self "asset" (exists_key_label _ _ Hasset)).
    reflexivity. }
  rewrite Ha. simpl.
  pose proof (pd_DataFrame_get_col self "metrics" (exists_key_label _ _ Hmetrics)) as Hg.
  destruct (explode_spec "metrics" (pd_DataFrame self) _
              (pd_DataFrame_well_formed self) Hg)
    as (df & -> & _ & _ & _ & Hcol & _).
  rewrite exploded_frame_column in Hcol. simpl.
  assert (Hg1 : getitem "metrics" df = Ok (exploded "metrics" self))
    by (unfold getitem; rewrite Hcol; reflexivity).
  rewrite Hg1. simpl.
  assert (Hg2 : getitem "metrics" (setitem "metrics" (exploded "metrics" self) df) =
                Ok (exploded "metrics" self))
    by (unfold getitem; rewrite get_col_setitem_eq; reflexivity).
  rewrite Hg2. simpl.
  apply existsb_exists in Hlacks as (x & Hin & Hx).
  apply list_elem_of_In in Hin.
  destruct (list_map_result_raises _assign_metric _ x _ Hin (assign_metric_lacks_key x Hx))
    as (e & He).
  assert (Hs : Series_apply _assign_metric (exploded "metrics" self) =
               Err (Propagated KeyError)).
  { unfold Series_apply. rewrite He. f_equal.
    apply list_map_result_error in He as (y & _ & Hy).
    exact (assign_metric_raises y e Hy). }
  rewrite Hs. reflexivity.
Qed.

End AssetsLevels.

Lemma assets_markets_needs_exchanges_witness :
  returned (CatalogAssetsData_to_dataframe (Some "markets"))
    [[("asset", VStr "btc"); ("markets", VList [VStr "kraken-btc-usd-spot"])]] =
    Err (Propagated KeyError) \/
  returned (CatalogAssetsData_to_dataframe (Some "markets"))
    [[("asset", VStr "btc"); ("markets", VList [VStr "kraken-btc-usd-spot"])]] =
    Err (Propagated AttributeError).
Proof.
  apply (assets_markets_needs_exchanges (lib := sample_library)). reflexivity.
Defined.

Lemma assets_metrics_metric_without_name_witness :
  returned (CatalogAssetsData_to_dataframe (Some "metrics"))
    [[("asset", VStr "btc");
      ("metrics", VList [VDict [("frequencies", VList [])]])]] =
    Err (Propagated KeyError).
Proof.
  apply (assets_metrics_metric_without_name (lib := sample_library)); reflexivity.
Defined.

(** ** The columns of [CatalogMarketsData.to_dataframe] *)

Section MarketsColumns.

Context {lib : Library}.

Lemma convert_datetime_cols_columns (cols : list string) (df out : DataFrame) :
  convert_datetime_cols cols df = Ok out -> columns out = columns df.
Proof.
  revert df. induction cols as [| col rest IH]; intros df; simpl.
  - intros [= <-]. reflexivity.
  - unfold getitem. destruct (get_col col (data df)) as [series |] eqn:Hg; simpl;
      [| discriminate].
    destruct (Series_apply _convert_utc series) as [converted |]; simpl; [| discriminate].
    intros H. apply IH in H. rewrite H. unfold columns, setitem. simpl.
    exact (set_col_labels col converted series (data df) Hg).
Qed.

Lemma convert_catalog_dtypes_columns (df out : DataFrame) :
  convert_catalog_dtypes df = Ok out -> columns out = columns df.
Proof.
  unfold convert_catalog_dtypes. intros H.
  apply convert_datetime_cols_columns in H. rewrite H. apply convert_dtypes_columns.
Qed.

Lemma markets_to_dataframe_returned (self : list record) :
  returned CatalogMarketsData_to_dataframe self =
  (df_markets ← join_expanded "trades" "_trades" (pd_DataFrame self);
   df_markets ← join_metadata ["funding_rates"; "openinterest"; "liquidations"] df_markets;
   convert_catalog_dtypes
     (drop_ignore ["trades"; "funding_rates"; "openinterest"; "liquidations"] df_markets)).
Proof. reflexivity. Qed.

(** X10.  A frame that [CatalogMarketsData.to_dataframe] returns has no column
    labelled "trades", "funding_rates", "openinterest" or "liquidations",
    whatever [join] and [apply(pd.Series)] made of the nested columns. *)
Theorem markets_to_dataframe_drops_nested (self : list record) (out : DataFrame)
    (c : string) :
  returned CatalogMarketsData_to_dataframe self = Ok out ->
  c ∈ ["trades"; "funding_rates"; "openinterest"; "liquidations"] ->
  c ∉ columns out.
Proof.
  rewrite markets_to_dataframe_returned.
  destruct (join_expanded "trades" "_trades" (pd_DataFrame self)) as [df1 |];
    [| discriminate].
  cbn [mbind result_bind].
  destruct (join_metadata ["funding_rates"; "openinterest"; "liquidations"] df1)
    as [df2 |]; [| discriminate].
  cbn [mbind result_bind].
  intros H Hc Hin. apply convert_catalog_dtypes_columns in H.
  rewrite H in Hin. unfold columns, drop_ignore in Hin. simpl in Hin.
  apply without_label_elem in Hin as [Hout _]. contradiction.
Qed.

End MarketsColumns.

Lemma markets_to_dataframe_drops_nested_witness :
  exists out,
    returned CatalogMarketsData_to_dataframe
      [[("market", VStr "kraken-btc-usd-spot");
        ("trades", VDict [("min_time", VStr "2020-01-01")])]] = Ok out /\
    "trades" ∉ columns out.
Proof.
  eexists. split; [vm_compute; reflexivity |].
  apply (markets_to_dataframe_drops_nested (lib := sample_library)
           [[("market", VStr "kraken-btc-usd-spot");
             ("trades", VDict [("min_time", VStr "2020-01-01")])]]).
  - vm_compute. reflexivity.
  - apply elem_of_cons. left. reflexivity.
Defined.

(** ** Records that already have a field "market" *)

Lemma renamed_count_pos (old new : string) (labels : list string) :
  old ∈ labels \/ new ∈ labels ->
  0 < length (List.filter (String.eqb new)
                (map (fun k => if String.eqb k old then new else k) labels)).
Proof.
  induction labels as [| k labels IH]; simpl.
  - intros [H | H]; apply elem_of_nil in H; contradiction.
  - intros H. destruct (String.eqb k old) eqn:Eo.
    + rewrite String.eqb_refl. simpl. lia.
    + destruct (String.eqb new k) eqn:En; [simpl; lia |].
      apply IH. apply String.eqb_neq in Eo, En.
      destruct H as [H | H]; apply elem_of_cons in H as [H | H]; try congruence;
        [left | right]; exact H.
Qed.

Lemma renamed_count_twice (old new : string) (labels : list string) :
  old <> new -> old ∈ labels -> new ∈ labels ->
  1 < length (List.filter (String.eqb new)
                (map (fun k => if String.eqb k old then new else k) labels)).
Proof.
  intros Hne. induction labels as [| k labels IH]; simpl.
  - intros H. apply elem_of_nil in H. contradiction.
  - intros Ho Hn. destruct (String.eqb k old) eqn:Eo.
    + rewrite String.eqb_refl. simpl. apply String.eqb_eq in Eo. subst k.
      apply elem_of_cons in Hn as [Hn | Hn]; [congruence |].
      pose proof (renamed_count_pos old new labels (or_intror Hn)). lia.
    + apply String.eqb_neq in Eo.
      apply elem_of_cons in Ho as [Ho | Ho]; [congruence |].
      destruct (String.eqb new k) eqn:En.
      * simpl. pose proof (renamed_count_pos old new labels (or_introl Ho)). lia.
      * apply String.eqb_neq in En.
        apply elem_of_cons in Hn as [Hn | Hn]; [congruence |].
        apply IH; assumption.
Qed.

Section MarketTwice.

Context {lib : Library}.

(** X11.  [CatalogAssetsData.to_dataframe] with [secondary_level="markets"]
    raises [AttributeError] when some record has a field "markets" and some
    record has a field "market": the renaming makes two columns "market", and
    the lambda of [assign] is then handed columns, which have no [split]. *)
Theorem assets_markets_market_twice (self : list record) :
  existsb (has_key "markets") self = true ->
  existsb (has_key "market") self = true ->
  returned (CatalogAssetsData_to_dataframe (Some "markets")) self =
    Err (Propagated AttributeError).
Proof.
  intros Hmarkets Hmarket.
  rewrite assets_to_dataframe_returned. simpl.
  pose proof (pd_DataFrame_get_col self "markets" (exists_key_label _ _ Hmarkets)) as Hg.
  unfold assets_markets.
  destruct (explode_spec "markets" (pd_DataFrame self) _
              (pd_DataFrame_well_formed self) Hg)
    as (df & -> & Hcols & _).
  simpl.
  assert (Hcount : (1 <? count_label "market"
                           (rename "markets" "market" (fillna "markets" (VStr "") df)))%nat
                   = true).
  { apply Nat.ltb_lt. unfold count_label.
    replace (columns (rename "markets" "market" (fillna "markets" (VStr "") df)))
      with (map (fun k => if String.eqb k "markets" then "market" else k)
                (union_keys self)).
    - apply renamed_count_twice; [discriminate | |];
        apply exists_key_label; assumption.
    - rewrite <- pd_DataFrame_columns, <- Hcols, <- (fillna_columns "markets" (VStr "") df).
      unfold columns, rename. simpl. rewrite !map_map. reflexivity. }
  unfold market_exchange. rewrite Hcount. reflexivity.
Qed.

End MarketTwice.

Lemma assets_markets_market_twice_witness :
  returned (CatalogAssetsData_to_dataframe (Some "markets"))
    [[("asset", VStr "btc"); ("market", VStr "kraken-btc-usd-spot");
      ("markets", VList [VStr "kraken-btc-usd-spot"]);
      ("exchanges", VList [VStr "kraken"])]] =
    Err (Propagated AttributeError).
Proof.
  apply (assets_markets_market_twice (lib := sample_library)); reflexivity.
Defined.

(** * Further properties of the exporters *)

(** ** What [export_data] does when a task fails *)

Lemma run_get_tasks_done (export_asset_data : string -> result unit)
    (tasks : list string) (i n : nat) (log : list event) :
  (forall task, task ∈ tasks -> export_asset_data task = Ok tt) ->
  run (get_tasks export_asset_data i n tasks) log =
  (Ok tt, (log ++ awaited i n tasks)%list).
Proof.
  revert i log. induction tasks as [| task rest IH]; intros i log Hok; simpl.
  - rewrite app_nil_r. reflexivity.
  - rewrite (Hok task) by (apply elem_of_cons; left; reflexivity). simpl.
    rewrite IH by (intros t Ht; apply Hok, elem_of_cons; right; exact Ht).
    rewrite <- !app_assoc. reflexivity.
Qed.

Lemma run_get_tasks_failed (export_asset_data : string -> result unit)
    (done rest : list string) (failed : string) (e : exn) (i n : nat)
    (log : list event) :
  (forall task, task ∈ done -> export_asset_data task = Ok tt) ->
  export_asset_data failed = Err e ->
  run (get_tasks export_asset_data i n (done ++ failed :: rest)) log =
  (Err e, (log ++ awaited i n done ++ [task_get failed])%list).
Proof.
  revert i log. induction done as [| task done IH]; intros i log Hok Hfail; simpl.
  - rewrite Hfail. reflexivity.
  - rewrite (Hok task) by (apply elem_of_cons; left; reflexivity). simpl.
    rewrite IH by (try exact Hfail; intros t Ht; apply Hok, elem_of_cons; right; exact Ht).
    rewrite <- !app_assoc. reflexivity.
Qed.

(** X12.  [export_data] of the reference-rates exporter submits every asset
    before it awaits any task, awaits the tasks in the order of submission,
    and logs "processed task: i/n" after each, with i from 1 and n the number
    of tasks.  When all exports succeed it returns after the last one.  When
    the export of an asset fails, the exception of that task is raised from
    [export_data]; the tasks before it have been awaited and logged, the
    tasks after it are not awaited, and the pool is left all the same. *)
Theorem export_data_outcome (iteration : list string)
    (export_asset_data : string -> result unit) :
  ((forall asset, asset ∈ iteration -> export_asset_data asset = Ok tt) ->
   run (export_data iteration export_asset_data) [] =
   (Ok tt,
    Pool_enter 2 :: map apply_async iteration ++
    awaited 1 (length iteration) iteration ++ [Pool_exit])%list) /\
  (forall done failed rest e,
     iteration = (done ++ failed :: rest)%list ->
     (forall asset, asset ∈ done -> export_asset_data asset = Ok tt) ->
     export_asset_data failed = Err e ->
     run (export_data iteration export_asset_data) [] =
     (Err e,
      Pool_enter 2 :: map apply_async iteration ++
      awaited 1 (length iteration) done ++ [task_get failed; Pool_exit])%list).
Proof.
  split.
  - intros Hok. unfold export_data, with_Pool. simpl.
    rewrite run_submit_tasks. simpl.
    rewrite (run_get_tasks_done _ _ _ _ _ Hok). simpl.
    rewrite <- !app_assoc. reflexivity.
  - intros done failed rest e -> Hok Hfail. unfold export_data, with_Pool. simpl.
    rewrite run_submit_tasks. simpl.
    rewrite (run_get_tasks_failed _ _ _ _ _ _ _ _ Hok Hfail). simpl.
    rewrite <- !app_assoc. reflexivity.
Qed.

Lemma export_data_outcome_witness :
  run (export_data ["btc"; "eth"]
         (fun asset => if String.eqb asset "eth" then Err (Propagated KeyError) else Ok tt))
      [] =
  (Err (Propagated KeyError),
   [Pool_enter 2; apply_async "btc"; apply_async "eth";
    task_get "btc"; logger_info_processed 1 2; task_get "eth"; Pool_exit]).
Proof.
  apply (proj2 (export_data_outcome ["btc"; "eth"]
                 (fun asset => if String.eqb asset "eth" then Err (Propagated KeyError)
                               else Ok tt))
           ["btc"] "eth" [] (Propagated KeyError)).
  - reflexivity.
  - intros asset Hin. apply list_elem_of_singleton in Hin. subst asset. reflexivity.
  - reflexivity.
Defined.

(** ** The metrics that the exporters request *)

Lemma field_dict (d : record) (key : string) (v : value) :
  dict_get d key = Some v -> field key (VDict d) = v.
Proof. intros H. unfold field. simpl. rewrite H. reflexivity. Qed.

Lemma frequency_info_ok_inv (frequency_info : value) :
  frequency_info_ok frequency_info = true ->
  exists s, py_getitem frequency_info "frequency" = Ok (VStr s) /\
            field "frequency" frequency_info = VStr s.
Proof.
  destruct frequency_info as [| | | | | | | d |]; try discriminate. simpl.
  unfold field. simpl.
  destruct (dict_get d "frequency") as [[| | | | | s | | |] |]; try discriminate.
  intros _. exists s. split; reflexivity.
Qed.

Lemma metric_info_ok_inv (metric_info : value) :
  metric_info_ok metric_info = true ->
  exists s frequencies,
    py_getitem metric_info "metric" = Ok (VStr s) /\
    field "metric" metric_info = VStr s /\
    py_getitem metric_info "frequencies" = Ok (VList frequencies) /\
    field "frequencies" metric_info = VList frequencies /\
    forallb frequency_info_ok frequencies = true.
Proof.
  destruct metric_info as [| | | | | | | d |]; try discriminate. simpl.
  unfold field. simpl.
  destruct (dict_get d "metric") as [[| | | | | s | | |] |]; try discriminate.
  destruct (dict_get d "frequencies") as [[| | | | | | frequencies | |] |];
    try discriminate.
  intros H. exists s, frequencies. repeat split; assumption.
Qed.

Lemma any_frequency_spec (frequencies : list value) :
  forallb frequency_info_ok frequencies = true ->
  any_frequency frequencies =
  Ok (existsb (fun frequency_info =>
                 match field "frequency" frequency_info with
                 | VStr s => String.eqb s FREQUENCY
                 | _ => false
                 end) frequencies).
Proof.
  induction frequencies as [| f rest IH]; simpl; [reflexivity |].
  intros H. apply andb_true_iff in H as [Hf Hrest].
  destruct (frequency_info_ok_inv f Hf) as (s & -> & ->). simpl.
  destruct (String.eqb s FREQUENCY); [reflexivity | apply IH, Hrest].
Qed.

Lemma metric_names_of_spec (metrics : list value) :
  forallb metric_info_ok metrics = true ->
  metric_names_of metrics =
  Ok (map (field "metric") (List.filter (offers FREQUENCY) metrics)).
Proof.
  induction metrics as [| m rest IH]; simpl; [reflexivity |].
  intros H. apply andb_true_iff in H as [Hm Hrest].
  destruct (metric_info_ok_inv m Hm) as (s & fs & Hname & Hfield & -> & Hfs & Hok).
  simpl. rewrite (any_frequency_spec fs Hok). simpl.
  unfold offers at 1. rewrite Hfs.
  destruct (existsb _ fs); simpl.
  - rewrite Hname, (IH Hrest), Hfield. reflexivity.
  - apply IH, Hrest.
Qed.

Lemma hash_names (metrics : list value) :
  forallb metric_info_ok metrics = true ->
  exists units, list_map_result py_hash (map (field "metric") metrics) = Ok units.
Proof.
  induction metrics as [| m rest IH]; simpl; [eexists; reflexivity |].
  intros H. apply andb_true_iff in H as [Hm Hrest].
  destruct (metric_info_ok_inv m Hm) as (s & fs & _ & -> & _).
  destruct (IH Hrest) as (units & ->). simpl. eexists. reflexivity.
Qed.

Lemma forallb_filter {A} (P Q : A -> bool) (l : list A) :
  forallb P l = true -> forallb P (List.filter Q l) = true.
Proof.
  induction l as [| x l IH]; simpl; [reflexivity |].
  intros H. apply andb_true_iff in H as [Hx Hl].
  destruct (Q x); simpl; [rewrite Hx |]; auto.
Qed.

Lemma elem_of_strings_of (vs : list value) (s : string) :
  s ∈ strings_of vs <-> VStr s ∈ vs.
Proof.
  unfold strings_of. rewrite elem_of_list_to_set, list_elem_of_omap. split.
  - intros (v & Hin & Hv). destruct v; try discriminate. injection Hv as ->. exact Hin.
  - intros Hin. exists (VStr s). split; [exact Hin | reflexivity].
Qed.

(** X13.  [export_asset_data] of the reference-rates exporter reads the
    metrics of the first record of the catalog response only.  When they are
    metrics as the API documents them, [metric_names] lists, in their order,
    the names of those that offer the frequency "1h", and
    [available_metrics] holds "ReferenceRateUSD" if the asset offers that
    metric at "1h" and nothing otherwise, so that [list] has at most one
    element to list. *)
Theorem available_metrics_spec (first : record) (others : list record)
    (metrics : list value) :
  dict_get first "metrics" = Some (VList metrics) ->
  forallb metric_info_ok metrics = true ->
  exists names available,
    metric_names (first :: others) = Ok names /\
    names = map (field "metric") (List.filter (offers "1h") metrics) /\
    available_metrics names = Ok available /\
    (forall s, s ∈ available <->
       s = "ReferenceRateUSD" /\
       exists metric_info, metric_info ∈ metrics /\
                           field "metric" metric_info = VStr s /\
                           offers "1h" metric_info = true) /\
    (available = {[ "ReferenceRateUSD" ]} \/ available = ∅).
Proof.
  intros Hfirst Hok.
  exists (map (field "metric") (List.filter (offers FREQUENCY) metrics)).
  exists (strings_of (map (field "metric") (List.filter (offers FREQUENCY) metrics))
          ∩ REFERENCE_RATES).
  split; [| split; [reflexivity | split; [| split]]].
  - unfold metric_names. simpl. rewrite Hfirst. simpl.
    apply metric_names_of_spec, Hok.
  - unfold available_metrics.
    destruct (hash_names (List.filter (offers FREQUENCY) metrics)
                (forallb_filter _ _ _ Hok)) as (units & ->).
    reflexivity.
  - intros s. unfold REFERENCE_RATES.
    rewrite elem_of_intersection, elem_of_singleton, elem_of_strings_of,
      list_elem_of_fmap.
    split.
    + intros [(m & Hm & Hin) Hs]. split; [exact Hs |].
      apply list_elem_of_In, filter_In in Hin as [Hin Hoff].
      exists m. split; [apply list_elem_of_In, Hin | split; [congruence | exact Hoff]].
    + intros [Hs (m & Hin & Hm & Hoff)]. split; [| exact Hs].
      exists m. split; [congruence |].
      apply list_elem_of_In, filter_In. split; [apply list_elem_of_In, Hin | exact Hoff].
  - unfold REFERENCE_RATES.
    destruct (decide ("ReferenceRateUSD" ∈
                      strings_of (map (field "metric")
                                      (List.filter (offers FREQUENCY) metrics)))) as [Hin | Hout].
    + left. apply set_eq. intros s.
      rewrite elem_of_intersection, elem_of_singleton. split; [tauto |].
      intros ->. split; [exact Hin | reflexivity].
    + right. apply set_eq. intros s.
      rewrite elem_of_intersection, elem_of_singleton, elem_of_empty. split; [| tauto].
      intros [Hin ->]. contradiction.
Qed.

Lemma available_metrics_spec_witness :
  exists names,
    metric_names
      [[("asset", VStr "btc");
        ("metrics",
         VList [VDict [("metric", VStr "PriceUSD");
                       ("frequencies", VList [VDict [("frequency", VStr "1h")]])];
                VDict [("metric", VStr "ReferenceRateUSD");
                       ("frequencies", VList [VDict [("frequency", VStr "1d")];
                                              VDict [("frequency", VStr "1h")]])];
                VDict [("metric", VStr "ReferenceRateEUR");
                       ("frequencies", VList [VDict [("frequency", VStr "1d")]])]])]] =
    Ok names /\
    names = [VStr "PriceUSD"; VStr "ReferenceRateUSD"] /\
    exists available, available_metrics names = Ok available /\
                      "ReferenceRateUSD" ∈ available.
Proof.
  destruct (available_metrics_spec
      [("asset", VStr "btc");
        ("metrics",
         VList [VDict [("metric", VStr "PriceUSD");
                       ("frequencies", VList [VDict [("frequency", VStr "1h")]])];
                VDict [("metric", VStr "ReferenceRateUSD");
                       ("frequencies", VList [VDict [("frequency", VStr "1d")];
                                              VDict [("frequency", VStr "1h")]])];
                VDict [("metric", VStr "ReferenceRateEUR");
                       ("frequencies", VList [VDict [("frequency", VStr "1d")]])]])]
      [] _ eq_refl eq_refl)
    as (names & available & Hnames & Heq & Havailable & Hin & _).
  exists names. split; [exact Hnames |]. split; [exact Heq |].
  exists available. split; [exact Havailable |].
  apply Hin. split; [reflexivity |].
  eexists. split; [apply elem_of_cons; right; apply elem_of_cons; left; reflexivity |].
  split; reflexivity.
Defined.

Import exchange_metrics_json_exporter.

(** The frequencies of a metric of the documented shape are strings. *)
Lemma supported_frequencies_spec (metric : value) (frequencies : list value) :
  py_getitem metric "frequencies" = Ok (VList frequencies) ->
  forallb frequency_info_ok frequencies = true ->
  supported_frequencies metric = Ok (map (field "frequency") frequencies) /\
  forallb is_str (map (field "frequency") frequencies) = true.
Proof.
  intros Hget Hok. unfold supported_frequencies. rewrite Hget. simpl.
  clear Hget. induction frequencies as [| f rest IH]; simpl; [split; reflexivity |].
  simpl in Hok. apply andb_true_iff in Hok as [Hf Hrest].
  destruct (frequency_info_ok_inv f Hf) as (s & -> & ->). simpl.
  destruct (IH Hrest) as [-> ->]. split; reflexivity.
Qed.

Lemma py_in_spec (s : string) (items : list value) :
  forallb is_str items = true ->
  py_in s items =
  Ok (existsb (fun v => match v with VStr t => String.eqb t s | _ => false end) items).
Proof.
  induction items as [| item rest IH]; simpl; [reflexivity |].
  intros H. apply andb_true_iff in H as [Hitem Hrest].
  destruct item; try discriminate. simpl.
  destruct (String.eqb s0 s); [reflexivity | apply IH, Hrest].
Qed.

Lemma existsb_fmap {A B} (P : B -> bool) (f : A -> B) (l : list A) :
  existsb P (map f l) = existsb (fun x => P (f x)) l.
Proof. induction l as [| x l IH]; simpl; [| rewrite IH]; reflexivity. Qed.

Lemma filter_metrics_spec (frequency : string) (exchange_metrics metrics_filtered : list value) :
  forallb metric_info_ok exchange_metrics = true ->
  filter_metrics frequency exchange_metrics metrics_filtered =
  Ok (metrics_filtered ++
      map (field "metric") (List.filter (offers frequency) exchange_metrics))%list.
Proof.
  revert metrics_filtered.
  induction exchange_metrics as [| m rest IH]; intros acc; simpl.
  - intros _. rewrite app_nil_r. reflexivity.
  - intros H. apply andb_true_iff in H as [Hm Hrest].
    destruct (metric_info_ok_inv m Hm) as (s & fs & Hname & Hfield & Hget & Hfs & Hok).
    destruct (supported_frequencies_spec m fs Hget Hok) as [-> Hstr]. simpl.
    rewrite (py_in_spec frequency _ Hstr). simpl.
    unfold offers at 1. rewrite Hfs, existsb_fmap.
    destruct (existsb _ fs); simpl.
    + rewrite Hname. simpl. rewrite (IH _ Hrest), Hfield, <- app_assoc. reflexivity.
    + apply IH, Hrest.
Qed.

#[local] Arguments filter_metrics : simpl never.
#[local] Arguments py_bool : simpl never.

Lemma for_exchange_data_assigns (frequency : string) (r : record) (rest : list record)
    (result_dict : assignments) (metrics : list value) (name : string) :
  dict_get r "metrics" = Some (VList metrics) ->
  py_bool (VList metrics) = Ok true ->
  forallb metric_info_ok metrics = true ->
  dict_get r "exchange" = Some (VStr name) ->
  for_exchange_data frequency (r :: rest) result_dict =
  for_exchange_data frequency rest
    (result_dict ++
     [(VStr name, map (field "metric") (List.filter (offers frequency) metrics))])%list.
Proof.
  intros Hm Hb Hok Hn. simpl. rewrite Hm. simpl. rewrite Hb. simpl.
  rewrite (filter_metrics_spec frequency metrics [] Hok). simpl.
  rewrite Hn. reflexivity.
Qed.

Lemma for_exchange_data_skips (frequency : string) (r : record) (rest : list record)
    (result_dict : assignments) :
  dict_get r "metrics" = None \/ dict_get r "metrics" = Some (VList []) ->
  for_exchange_data frequency (r :: rest) result_dict =
  for_exchange_data frequency rest result_dict.
Proof. intros [Hm | Hm]; simpl; rewrite Hm; reflexivity. Qed.

(** The assignment that the loop makes for a record, if it makes one. *)
Lemma for_exchange_data_spec (frequency : string) (exchange_data : list record)
    (result_dict : assignments) :
  forallb exchange_record_ok exchange_data = true ->
  for_exchange_data frequency exchange_data result_dict =
  Ok (result_dict ++
      map (fun r => (field "exchange" (VDict r), filtered_metrics frequency r))
          (List.filter (fun r => negb (Nat.eqb (length (metrics_of r)) 0)) exchange_data))%list.
Proof.
  revert result_dict.
  induction exchange_data as [| r rest IH]; intros acc.
  - intros _. simpl. rewrite app_nil_r. reflexivity.
  - intros H. apply andb_true_iff in H as [Hr Hrest].
    unfold exchange_record_ok in Hr. apply andb_true_iff in Hr as [Hname Hmetrics].
    destruct (dict_get r "exchange") as [[| | | | | name | | |] |] eqn:Hn;
      try discriminate.
    cbn [List.filter].
    destruct (dict_get r "metrics") as [[| | | | | | metrics | |] |] eqn:Hm;
      try discriminate.
    + assert (Hmo : metrics_of r = metrics) by (unfold metrics_of; rewrite Hm; reflexivity).
      destruct metrics as [| m metrics].
      * rewrite Hmo. cbn [length Nat.eqb negb].
        rewrite for_exchange_data_skips by (right; exact Hm). apply IH, Hrest.
      * rewrite Hmo. cbn [length Nat.eqb negb map].
        rewrite (for_exchange_data_assigns frequency r rest acc (m :: metrics) name
                   Hm eq_refl Hmetrics Hn).
        rewrite (IH _ Hrest).
        change (filtered_metrics frequency r)
          with (map (field "metric") (List.filter (offers frequency) (metrics_of r))).
        rewrite Hmo, (field_dict r "exchange" _ Hn), <- app_assoc. reflexivity.
    + assert (Hmo : metrics_of r = []) by (unfold metrics_of; rewrite Hm; reflexivity).
      rewrite Hmo. cbn [length Nat.eqb negb].
      rewrite for_exchange_data_skips by (left; exact Hm). apply IH, Hrest.
Qed.

Lemma assigned_inv (d : assignments) (s : string) (v : list value) :
  assigned d s = Some v -> (VStr s, v) ∈ d.
Proof.
  induction d as [| [k w] d IH]; simpl; [discriminate |].
  destruct (assigned d s) as [w' |].
  - intros [= ->]. apply elem_of_cons. right. apply IH. reflexivity.
  - destruct k; try discriminate.
    destruct (String.eqb s0 s) eqn:E; [| discriminate].
    apply String.eqb_eq in E. subst s0. intros [= ->]. apply elem_of_cons. left. reflexivity.
Qed.

Lemma assigned_elem (d : assignments) (s : string) (v : list value) :
  (VStr s, v) ∈ d -> is_Some (assigned d s).
Proof.
  induction d as [| [k w] d IH]; simpl.
  - intros H. apply elem_of_nil in H. contradiction.
  - intros H. apply elem_of_cons in H as [[= <- <-] | H].
    + destruct (assigned d s); [eexists; reflexivity |].
      rewrite String.eqb_refl. eexists. reflexivity.
    + destruct (IH H) as (w' & ->). eexists. reflexivity.
Qed.

(** X14.  [get_exchange_metrics_mapping], on a catalog of exchanges as the API
    documents it, returns a dict with one assignment per record that has a
    non-empty list of metrics, in the order of the records: the name of the
    exchange is mapped to the names of its metrics that offer the frequency,
    in their order.  So an exchange without metrics is no key of the dict,
    while an exchange with metrics none of which offers the frequency is a
    key, with an empty list. *)
Theorem get_exchange_metrics_mapping_spec
    (catalog_exchanges : list string -> result (list record))
    (exchanges : list string) (frequency : string) (exchange_data : list record) :
  catalog_exchanges exchanges = Ok exchange_data ->
  forallb exchange_record_ok exchange_data = true ->
  exists d,
    get_exchange_metrics_mapping catalog_exchanges exchanges frequency = Ok d /\
    d = map (fun r => (field "exchange" (VDict r), filtered_metrics frequency r))
            (List.filter (fun r => negb (Nat.eqb (length (metrics_of r)) 0)) exchange_data) /\
    (forall name metrics, assigned d name = Some metrics ->
       exists r, r ∈ exchange_data /\ dict_get r "exchange" = Some (VStr name) /\
                 metrics_of r <> [] /\ metrics = filtered_metrics frequency r) /\
    (forall r name, r ∈ exchange_data -> dict_get r "exchange" = Some (VStr name) ->
       metrics_of r <> [] -> is_Some (assigned d name)) /\
    (forall name,
       (forall r, r ∈ exchange_data -> dict_get r "exchange" = Some (VStr name) ->
                  metrics_of r = []) ->
       assigned d name = None).
Proof.
  intros Hcall Hok.
  set (nonempty := fun r : record => negb (Nat.eqb (length (metrics_of r)) 0)).
  set (entry := fun r : record => (field "exchange" (VDict r), filtered_metrics frequency r)).
  assert (Hnonempty : forall r, nonempty r = true <-> metrics_of r <> []).
  { intros r. unfold nonempty. destruct (metrics_of r); simpl; split; congruence. }
  assert (Hname : forall r, r ∈ exchange_data ->
            exists name, dict_get r "exchange" = Some (VStr name) /\
                         field "exchange" (VDict r) = VStr name).
  { intros r Hin. apply list_elem_of_In in Hin.
    pose proof (proj1 (forallb_forall _ _) Hok r Hin) as Hr.
    unfold exchange_record_ok in Hr. apply andb_true_iff in Hr as [Hr _].
    unfold field. simpl.
    destruct (dict_get r "exchange") as [[| | | | | s | | |] |]; try discriminate.
    exists s. split; reflexivity. }
  assert (Hentry : forall name metrics,
            (VStr name, metrics) ∈ map entry (List.filter nonempty exchange_data) <->
            exists r, r ∈ exchange_data /\ dict_get r "exchange" = Some (VStr name) /\
                      metrics_of r <> [] /\ metrics = filtered_metrics frequency r).
  { intros name metrics. rewrite list_elem_of_fmap. split.
    - intros (r & Hr & Hin). apply list_elem_of_In, filter_In in Hin as [Hin Hne].
      apply list_elem_of_In in Hin. destruct (Hname r Hin) as (s & Hs & Hf).
      unfold entry in Hr. rewrite Hf in Hr. injection Hr as -> ->.
      exists r. split; [exact Hin |]. split; [exact Hs |].
      split; [apply Hnonempty, Hne | reflexivity].
    - intros (r & Hin & Hs & Hne & ->). exists r. split.
      + unfold entry. rewrite (field_dict r "exchange" _ Hs). reflexivity.
      + apply list_elem_of_In, filter_In. split; [apply list_elem_of_In, Hin |].
        apply Hnonempty, Hne. }
  exists (map entry (List.filter nonempty exchange_data)).
  split; [| split; [reflexivity | split; [| split]]].
  - unfold get_exchange_metrics_mapping. rewrite Hcall. simpl.
    rewrite (for_exchange_data_spec frequency exchange_data [] Hok). reflexivity.
  - intros name metrics Ha. apply Hentry, assigned_inv, Ha.
  - intros r name Hin Hs Hne.
    apply (assigned_elem _ name (filtered_metrics frequency r)).
    apply Hentry. exists r. repeat split; assumption.
  - intros name Hnone.
    destruct (assigned (map entry (List.filter nonempty exchange_data)) name)
      as [metrics |] eqn:Ha; [| reflexivity].
    apply assigned_inv, Hentry in Ha as (r & Hin & Hs & Hne & _).
    exfalso. apply Hne, (Hnone r Hin Hs).
Qed.

Lemma get_exchange_metrics_mapping_spec_witness :
  exists d,
    get_exchange_metrics_mapping
      (fun _ =>
         Ok [[("exchange", VStr "kraken");
              ("metrics",
               VList [VDict [("metric", VStr "volume_reported_spot_usd_1d");
                             ("frequencies", VList [VDict [("frequency", VStr "1d")]])];
                      VDict [("metric", VStr "volume_reported_spot_usd_1h");
                             ("frequencies", VList [VDict [("frequency", VStr "1h")]])]])];
             [("exchange", VStr "newex")];
             [("exchange", VStr "hourly");
              ("metrics",
               VList [VDict [("metric", VStr "volume_reported_spot_usd_1h");
                             ("frequencies", VList [VDict [("frequency", VStr "1h")]])]])]])
      [] "1d" = Ok d /\
    d = [(VStr "kraken", [VStr "volume_reported_spot_usd_1d"]); (VStr "hourly", [])] /\
    assigned d "newex" = None.
Proof.
  destruct (get_exchange_metrics_mapping_spec
      (fun _ =>
         Ok [[("exchange", VStr "kraken");
              ("metrics",
               VList [VDict [("metric", VStr "volume_reported_spot_usd_1d");
                             ("frequencies", VList [VDict [("frequency", VStr "1d")]])];
                      VDict [("metric", VStr "volume_reported_spot_usd_1h");
                             ("frequencies", VList [VDict [("frequency", VStr "1h")]])]])];
             [("exchange", VStr "newex")];
             [("exchange", VStr "hourly");
              ("metrics",
               VList [VDict [("metric", VStr "volume_reported_spot_usd_1h");
                             ("frequencies", VList [VDict [("frequency", VStr "1h")]])]])]])
      [] "1d" _ eq_refl eq_refl)
    as (d & Hd & Heq & _ & _ & _).
  exists d. split; [exact Hd |]. split; [exact Heq |].
  rewrite Heq. reflexivity.
Defined.
